(** * Time-entry tracking: serializers, timer endpoints and reports

    A shallow embedding of
      - plane/api/serializers/time_entry.py  (entry validators)
      - plane/app/views/time_entry.py        (CRUD, timer and report endpoints)
      - plane/db/migrations/0108_timeentry_issue_estimated_time.py (columns)
    together with the properties of the time-tracking specification.

    Conventions of the embedding.
      - An instant (an aware [datetime]) is the number of microseconds since
        the epoch, a [Z]; a [timedelta] is a difference of two instants.
        [delta.total_seconds()] is the double nearest to the quotient of
        the microseconds by one million, and [int] truncates it towards
        zero; both are computed on integers, bit for bit.
      - A UUID is an opaque [Z].
      - The database is PostgreSQL: an [integer] column holds at most
        2147483647, a query without [ORDER BY] lists its rows in an order
        of the database's choosing, and so are rows that tie under an
        [ORDER BY].  A duration that a handler derives from two instants
        is taken to fit the column (instants less than 68 years apart); a
        duration sent in a request body is not, and the checks made on it
        are part of the embedding.
      - A table is the list of its live rows in the default order of its
        model; for [TimeEntry] that is [ordering = ('-created_at',)], so a
        created row goes to the head of the list.  A row that is saved is
        rewritten at its own position.
      - A handler takes the database and returns a response and the new
        database.  The clock ([timezone.now()]) and the fresh primary key
        ([uuid.uuid4]) are arguments of the handler.  Handlers are modelled
        from the point where the [allow_permission] decorator has let the
        request through.
      - The float columns [duration_hours], [duration_minutes] and
        [total_hours] of the JSON output are left out. *)

From Stdlib Require Import ZArith List String Bool Lia.
From Stdlib Require Import Sorting.Sorted Sorting.Permutation.
Import ListNotations.
Open Scope Z_scope.

(* ------------------------------------------------------------------ *)
(** ** Duration arithmetic *)

Module Duration.

Definition Instant := Z.

(** The integer nearest to [n / d], the even one of two that are equally
    near ([0 <= n], [0 < d]). *)
Definition round_half_even (n d : Z) : Z :=
  let q := n / d in
  let r := n mod d in
  if 2 * r <? d then q
  else if d <? 2 * r then q + 1
  else if Z.even q then q else q + 1.

(** The binary exponent of [n / d], that is [floor(log2(n / d))]
    ([0 < n], [0 < d]). *)
Definition binade (n d : Z) : Z :=
  if d <=? n then Z.log2 (n / d) else - Z.log2_up ((d + n - 1) / n).

(** [int(n / d)] on Python integers [0 <= n], [0 < d].  The true division
    gives the double nearest to the quotient: a significand of 53 bits,
    rounded half to even, which is [round_half_even] once the quotient is
    scaled by [2 ^ k] into the interval from [2 ^ 52] to [2 ^ 53].  [int]
    then drops the fraction. *)
Definition int_true_divide (n d : Z) : Z :=
  let k := 52 - binade n d in
  if 0 <=? k
  then round_half_even (n * 2 ^ k) d / 2 ^ k
  else round_half_even n (d * 2 ^ (- k)) * 2 ^ (- k).

(** [int(delta.total_seconds())] for a delta in microseconds:
    [total_seconds] is the true division of the microseconds by [10**6],
    a double, and [int] truncates towards zero. *)
Definition int_total_seconds (delta : Z) : Z :=
  Z.sgn delta * int_true_divide (Z.abs delta) 1000000.

(** [max(0, int((stop - start).total_seconds()))], the expression used by
    the validators and by the timer endpoints. *)
Definition elapsed_seconds (start stop : Instant) : Z :=
  Z.max 0 (int_total_seconds (stop - start)).


(** An instant given as seconds since the epoch. *)
Definition of_seconds (s : Z) : Instant := s * 1000000.

(** Below this many microseconds, [2 ^ 34] seconds or about 544 years, the
    double of [total_seconds] has its first wrong second. *)
Definition exact_below : Z := 2 ^ 34 * 1000000.

End Duration.
Export Duration.

(* ------------------------------------------------------------------ *)
(** ** Data model *)

Definition Id := Z.
Definition Slug := string.

Inductive TimeEntrySource := MANUAL | TIMER.

Definition source_eqb (a b : TimeEntrySource) : bool :=
  match a, b with
  | MANUAL, MANUAL | TIMER, TIMER => true
  | _, _ => false
  end.

(** Columns of [time_entries] (migration 0108); the audit columns
    [updated_at], [created_by], [updated_by], [deleted_at] are maintained by
    the base model and are not part of the embedding. *)
Record TimeEntry := mkTimeEntry {
  id : Id;
  workspace : Slug;
  project : Id;
  issue : Id;
  user : Id;
  started_at : option Instant;
  ended_at : option Instant;
  duration_seconds : Z;
  source : TimeEntrySource;
  note : option string;
  is_billable : bool;
  created_at : Instant
}.

Record Project := mkProject {
  project_pk : Id;
  is_time_tracking_enabled : bool;
  project_identifier : string;
  project_name : string
}.

Record Issue := mkIssue {
  issue_pk : Id;
  issue_project : Id;
  issue_workspace : Slug;
  issue_name : string;
  issue_sequence_id : Z
}.

Inductive ROLE := ADMIN | MEMBER | GUEST.

Record ProjectMember := mkProjectMember {
  pm_project : Id;
  pm_member : Id;
  pm_role : ROLE;
  pm_is_active : bool
}.

Record ModuleIssue := mkModuleIssue {
  mi_issue : Id;
  mi_module : Id;
  mi_module_name : string
}.

Record User := mkUser {
  user_pk : Id;
  user_email : string;
  user_display_name : string
}.

Record Db := mkDb {
  projects : list Project;
  issues : list Issue;
  project_members : list ProjectMember;
  module_issues : list ModuleIssue;
  users : list User;
  time_entries : list TimeEntry
}.

Definition with_time_entries (db : Db) (l : list TimeEntry) : Db :=
  {| projects := projects db; issues := issues db;
     project_members := project_members db;
     module_issues := module_issues db; users := users db;
     time_entries := l |}.

(** ** Entry predicates *)

Definition isSome {A} (o : option A) : bool :=
  match o with Some _ => true | None => false end.

Definition isNone {A} (o : option A) : bool := negb (isSome o).

(** [started_at__isnull=False, ended_at__isnull=True] *)
Definition running (e : TimeEntry) : bool :=
  isSome (started_at e) && isNone (ended_at e).

(** The filter of the three timer queries:
    [issue_id=issue_id, user=request.user, started_at__isnull=False,
     ended_at__isnull=True]. *)
Definition timer_query (issue_id user_id : Id) (e : TimeEntry) : bool :=
  (issue e =? issue_id) && (user e =? user_id) && running e.

(** [filter(user=request.user, started_at__isnull=False,
     ended_at__isnull=True).exclude(issue_id=issue_id)] *)
Definition other_timers_query (issue_id user_id : Id) (e : TimeEntry) : bool :=
  (user e =? user_id) && running e && negb (issue e =? issue_id).

(** The [is_active] field of [TimeEntrySerializer.to_representation]. *)
Definition is_active (e : TimeEntry) : bool :=
  isSome (started_at e) && isNone (ended_at e) && source_eqb (source e) TIMER.

(** [QuerySet.first()] *)
Definition first {A} (l : list A) : option A := hd_error l.

(** Rewrite the first row selected by [p]. *)
Fixpoint save_first {A} (p : A -> bool) (f : A -> A) (l : list A) : list A :=
  match l with
  | [] => []
  | x :: r => if p x then f x :: r else x :: save_first p f r
  end.

(** Remove the first row selected by [p]. *)
Fixpoint delete_first {A} (p : A -> bool) (l : list A) : list A :=
  match l with
  | [] => []
  | x :: r => if p x then r else x :: delete_first p r
  end.

(* ------------------------------------------------------------------ *)
(** ** Responses *)

(** [TimeEntrySerializer.to_representation]: the row and its derived
    [is_active] flag. *)
Record Representation := mkRepresentation {
  instance : TimeEntry;
  repr_is_active : bool
}.

Definition to_representation (e : TimeEntry) : Representation :=
  {| instance := e; repr_is_active := is_active e |}.

(** A row of a report, one shape per [group_by] mode: the grouping key, the
    joined label columns and the two aggregates [total_seconds] = Sum of
    [duration_seconds] and [entry_count] = Count of [id]. *)
Inductive ReportRow :=
| UserRow (user_id : Id) (user_email user_display_name : string)
          (total_seconds entry_count : Z)
| WorkItemRow (issue_id : Id) (issue_name : string) (issue_sequence_id : Z)
              (project_id : Id) (project_identifier project_name : string)
              (total_seconds entry_count : Z)
| ProjectRow (project_id : Id) (project_identifier project_name : string)
             (total_seconds entry_count : Z)
| ModuleRow (module_id : Id) (module_name : string)
            (total_seconds entry_count : Z).

Definition row_key (r : ReportRow) : Id :=
  match r with
  | UserRow k _ _ _ _ => k
  | WorkItemRow k _ _ _ _ _ _ _ => k
  | ProjectRow k _ _ _ _ => k
  | ModuleRow k _ _ _ => k
  end.

Definition total_seconds (r : ReportRow) : Z :=
  match r with
  | UserRow _ _ _ t _ => t
  | WorkItemRow _ _ _ _ _ _ t _ => t
  | ProjectRow _ _ _ t _ => t
  | ModuleRow _ _ t _ => t
  end.

Definition entry_count (r : ReportRow) : Z :=
  match r with
  | UserRow _ _ _ _ c => c
  | WorkItemRow _ _ _ _ _ _ _ c => c
  | ProjectRow _ _ _ _ c => c
  | ModuleRow _ _ _ c => c
  end.

(** [serializers.ValidationError]: keyed by a field, or a bare message. *)
Inductive ValidationError :=
| FieldError (field msg : string)
| NonFieldError (msg : string).

Inductive Data :=
| ErrorData (msg : string)                      (* {"error": msg} *)
| SerializerErrors (err : ValidationError)      (* serializer.errors *)
| EntryData (r : Representation)
| ActiveTimerData (r : option Representation)   (* {"active_timer": r} *)
| ReportData (group_by : string) (from_date to_date : option string)
             (rows : list ReportRow)
| NoData.

Record Response := mkResponse { data : Data; status : Z }.

Definition HTTP_200_OK := 200.
Definition HTTP_201_CREATED := 201.
Definition HTTP_204_NO_CONTENT := 204.
Definition HTTP_400_BAD_REQUEST := 400.
Definition HTTP_403_FORBIDDEN := 403.
Definition HTTP_404_NOT_FOUND := 404.

(** The error kinds of the specification as they appear on the wire. *)
Definition FeatureDisabled : Response :=
  mkResponse (ErrorData "Time tracking is not enabled for this project")
             HTTP_403_FORBIDDEN.

Definition Conflict : Response :=
  mkResponse (ErrorData "You already have an active timer on this issue")
             HTTP_400_BAD_REQUEST.

Definition ProjectNotFound : Response :=
  mkResponse (ErrorData "Project not found") HTTP_404_NOT_FOUND.

Definition IssueNotFound : Response :=
  mkResponse (ErrorData "Issue not found") HTTP_404_NOT_FOUND.

Definition NoActiveTimer : Response :=
  mkResponse (ErrorData "No active timer found for this issue")
             HTTP_404_NOT_FOUND.

Definition EntryNotFound : Response :=
  mkResponse (ErrorData "Time entry not found") HTTP_404_NOT_FOUND.

Definition Forbidden (msg : string) : Response :=
  mkResponse (ErrorData msg) HTTP_403_FORBIDDEN.

Definition BadRequest (err : ValidationError) : Response :=
  mkResponse (SerializerErrors err) HTTP_400_BAD_REQUEST.

(** An exception of the database that a handler does not catch.  It
    leaves the view, and the response is made by [handle_exception] of the
    base view (plane/app/views/base.py), which is not among these sources:
    the handlers that can raise take it as an argument. *)
Inductive DatabaseError := DataError | IntegrityError.

(** The upper end of an [integer] column and of the serializer field
    derived from a [PositiveIntegerField]
    ([connection.ops.integer_field_range]). *)
Definition integer_field_max : Z := 2147483647.

(* ------------------------------------------------------------------ *)
(** ** Serializers (plane/api/serializers/time_entry.py) *)

Definition get_or {A} (o : option A) (d : A) : A :=
  match o with Some a => a | None => d end.

(** *** TimeEntrySerializer *)

(** The attribute dictionary handed to [TimeEntrySerializer.validate]; a
    key that is absent is [None]. *)
Record EntryAttrs := mkEntryAttrs {
  a_issue : Issue;
  a_user : option Id;
  a_source : option TimeEntrySource;
  a_started_at : option Instant;
  a_ended_at : option Instant;
  a_duration_seconds : option Z;
  a_note : option string;
  a_is_billable : option bool
}.

Definition set_a_duration_seconds (d : EntryAttrs) (v : Z) : EntryAttrs :=
  {| a_issue := a_issue d; a_user := a_user d; a_source := a_source d;
     a_started_at := a_started_at d; a_ended_at := a_ended_at d;
     a_duration_seconds := Some v;
     a_note := a_note d; a_is_billable := a_is_billable d |}.

Definition TimeEntrySerializer_validate (d : EntryAttrs)
  : ValidationError + EntryAttrs :=
  let source := get_or (a_source d) MANUAL in
  let started_at := a_started_at d in
  let ended_at := a_ended_at d in
  let duration_seconds := get_or (a_duration_seconds d) 0 in
  if source_eqb source MANUAL
     && ((duration_seconds =? 0) || (duration_seconds <=? 0))
  then inl (FieldError "duration_seconds"
              "Duration in seconds is required for manual entries")
  else if source_eqb source TIMER && isNone started_at
  then inl (FieldError "started_at"
              "Started at is required for timer entries")
  else
    match started_at, ended_at with
    | Some s, Some t =>
        if s >? t
        then inl (NonFieldError "Started at cannot be after ended at")
        else if duration_seconds =? 0
             then inr (set_a_duration_seconds d (elapsed_seconds s t))
             else inr d
    | _, _ => inr d
    end.

(** [TimeEntrySerializer.create]: workspace and project come from the
    issue, the user from the request when the data has none; the columns
    that the data leaves out take the defaults of the model. *)
Definition TimeEntrySerializer_create (request_user : Id) (d : EntryAttrs)
    (now : Instant) (uuid : Id) : TimeEntry :=
  {| id := uuid;
     workspace := issue_workspace (a_issue d);
     project := issue_project (a_issue d);
     issue := issue_pk (a_issue d);
     user := get_or (a_user d) request_user;
     started_at := a_started_at d;
     ended_at := a_ended_at d;
     duration_seconds := get_or (a_duration_seconds d) 0;
     source := get_or (a_source d) MANUAL;
     note := a_note d;
     is_billable := get_or (a_is_billable d) false;
     created_at := now |}.

(** *** TimeEntryCreateSerializer *)

(** The request body of the issue-scoped create endpoint. *)
Record CreatePayload := mkCreatePayload {
  c_issue_id : option Id;
  c_duration_seconds : option Z;
  c_started_at : option Instant;
  c_ended_at : option Instant;
  c_source : option TimeEntrySource;
  c_note : option string;
  c_is_billable : option bool
}.

(** The validated data: [source] and [is_billable] have defaults, so they
    are always present. *)
Record CreateData := mkCreateData {
  v_issue_id : Id;
  v_duration_seconds : option Z;
  v_started_at : option Instant;
  v_ended_at : option Instant;
  v_source : TimeEntrySource;
  v_note : option string;
  v_is_billable : bool
}.

(** The declared fields: [issue_id] is required, [duration_seconds] has
    [min_value=0], [source] defaults to MANUAL, [is_billable] to False. *)
Definition TimeEntryCreateSerializer_fields (p : CreatePayload)
  : ValidationError + CreateData :=
  match c_issue_id p with
  | None => inl (FieldError "issue_id" "This field is required.")
  | Some i =>
      if match c_duration_seconds p with Some d => d <? 0 | None => false end
      then inl (FieldError "duration_seconds"
                  "Ensure this value is greater than or equal to 0.")
      else inr {| v_issue_id := i;
                  v_duration_seconds := c_duration_seconds p;
                  v_started_at := c_started_at p;
                  v_ended_at := c_ended_at p;
                  v_source := get_or (c_source p) MANUAL;
                  v_note := c_note p;
                  v_is_billable := get_or (c_is_billable p) false |}
  end.

Definition set_v_started_at (d : CreateData) (t : Instant) : CreateData :=
  {| v_issue_id := v_issue_id d; v_duration_seconds := v_duration_seconds d;
     v_started_at := Some t; v_ended_at := v_ended_at d;
     v_source := v_source d; v_note := v_note d;
     v_is_billable := v_is_billable d |}.

Definition TimeEntryCreateSerializer_validate (d : CreateData) (now : Instant)
  : ValidationError + CreateData :=
  match v_source d with
  | MANUAL =>
      match v_duration_seconds d with
      | None | Some 0 =>
          inl (NonFieldError "duration_seconds is required for manual entries")
      | Some _ => inr d
      end
  | TIMER =>
      match v_started_at d with
      | None => inr (set_v_started_at d now)
      | Some _ => inr d
      end
  end.

(** [serializer.is_valid()]: the fields, then [validate]. *)
Definition TimeEntryCreateSerializer_is_valid (p : CreatePayload)
    (now : Instant) : ValidationError + CreateData :=
  match TimeEntryCreateSerializer_fields p with
  | inl err => inl err
  | inr d => TimeEntryCreateSerializer_validate d now
  end.

(** *** TimeEntryUpdateSerializer *)

(** The body of a partial update.  For a nullable column the outer option
    tells whether the key is present, the inner one whether it is null. *)
Record UpdatePayload := mkUpdatePayload {
  u_duration_seconds : option Z;
  u_started_at : option (option Instant);
  u_ended_at : option (option Instant);
  u_note : option (option string);
  u_is_billable : option bool
}.

(** [data.get(key)] on a nullable key. *)
Definition get_nullable {A} (o : option (option A)) : option A :=
  match o with Some v => v | None => None end.

(** Python's [a or b] on optional instants. *)
Definition or_else {A} (a b : option A) : option A :=
  match a with Some _ => a | None => b end.

(** [duration_seconds] is a [PositiveIntegerField]: the serializer field
    that the [ModelSerializer] derives from it takes the validators of the
    column, [max_value=2147483647] and [min_value=0]. *)
Definition TimeEntryUpdateSerializer_fields (p : UpdatePayload)
  : ValidationError + UpdatePayload :=
  if match u_duration_seconds p with
     | Some d => integer_field_max <? d
     | None => false
     end
  then inl (FieldError "duration_seconds"
              "Ensure this value is less than or equal to 2147483647.")
  else
  if match u_duration_seconds p with Some d => d <? 0 | None => false end
  then inl (FieldError "duration_seconds"
              "Ensure this value is greater than or equal to 0.")
  else inr p.

Definition set_u_duration_seconds (d : UpdatePayload) (v : Z) : UpdatePayload :=
  {| u_duration_seconds := Some v; u_started_at := u_started_at d;
     u_ended_at := u_ended_at d; u_note := u_note d;
     u_is_billable := u_is_billable d |}.

Definition TimeEntryUpdateSerializer_validate (self_instance : TimeEntry)
    (d : UpdatePayload) : ValidationError + UpdatePayload :=
  let started_at :=
    or_else (get_nullable (u_started_at d)) (started_at self_instance) in
  let ended_at :=
    or_else (get_nullable (u_ended_at d)) (ended_at self_instance) in
  let duration_seconds := u_duration_seconds d in
  match started_at, ended_at with
  | Some s, Some t =>
      if s >? t
      then inl (NonFieldError "Started at cannot be after ended at")
      else match duration_seconds with
           | None | Some 0 =>
               inr (set_u_duration_seconds d (elapsed_seconds s t))
           | Some _ => inr d
           end
  | _, _ => inr d
  end.

Definition TimeEntryUpdateSerializer_is_valid (self_instance : TimeEntry)
    (p : UpdatePayload) : ValidationError + UpdatePayload :=
  match TimeEntryUpdateSerializer_fields p with
  | inl err => inl err
  | inr d => TimeEntryUpdateSerializer_validate self_instance d
  end.

(** [serializer.save()] on an existing instance: every key of the validated
    data is written to its attribute, the others are kept. *)
Definition TimeEntryUpdateSerializer_save (e : TimeEntry) (d : UpdatePayload)
  : TimeEntry :=
  {| id := id e; workspace := workspace e; project := project e;
     issue := issue e; user := user e;
     started_at := get_or (u_started_at d) (started_at e);
     ended_at := get_or (u_ended_at d) (ended_at e);
     duration_seconds := get_or (u_duration_seconds d) (duration_seconds e);
     source := source e;
     note := get_or (u_note d) (note e);
     is_billable := get_or (u_is_billable d) (is_billable e);
     created_at := created_at e |}.

(* ------------------------------------------------------------------ *)
(** ** Views (plane/app/views/time_entry.py) *)

(** [_check_time_tracking_enabled]: [None] lets the request go on. *)
Definition _check_time_tracking_enabled (db : Db) (project_id : Id)
  : option Response :=
  match find (fun p => project_pk p =? project_id) (projects db) with
  | Some p =>
      if is_time_tracking_enabled p then None else Some FeatureDisabled
  | None => Some ProjectNotFound
  end.

(** [Issue.objects.get(id=issue_id, project_id=project_id,
     workspace__slug=slug)] *)
Definition get_issue (db : Db) (slug : Slug) (project_id issue_id : Id)
  : option Issue :=
  find (fun i => (issue_pk i =? issue_id) && (issue_project i =? project_id)
                 && String.eqb (issue_workspace i) slug)
       (issues db).

(** [ProjectMember.objects.filter(project_id=..., member=request.user,
     role=ROLE.ADMIN, is_active=True).exists()] *)
Definition is_admin (db : Db) (project_id request_user : Id) : bool :=
  existsb (fun m => (pm_project m =? project_id)
                    && (pm_member m =? request_user)
                    && match pm_role m with ADMIN => true | _ => false end
                    && pm_is_active m)
          (project_members db).

(** [timer.ended_at = now], and the duration from [started_at] when it is
    set: the body of the stop loop of [post] and of [delete]. *)
Definition stop_timer (now : Instant) (timer : TimeEntry) : TimeEntry :=
  {| id := id timer; workspace := workspace timer; project := project timer;
     issue := issue timer; user := user timer;
     started_at := started_at timer;
     ended_at := Some now;
     duration_seconds :=
       match started_at timer with
       | Some s => elapsed_seconds s now
       | None => duration_seconds timer
       end;
     source := source timer; note := note timer;
     is_billable := is_billable timer; created_at := created_at timer |}.

(** *** TimeEntryViewSet *)

(** The filter of [get_queryset] on the issue-scoped routes. *)
Definition in_queryset (slug : Slug) (project_id issue_id : Id)
    (e : TimeEntry) : bool :=
  String.eqb (workspace e) slug && (project e =? project_id)
  && (issue e =? issue_id).

(** The [INSERT] of a row into [time_entries]: a [duration_seconds] above
    the column raises [DataError] when the statement runs; a row whose
    [issue_id] is the key of no issue violates the foreign key, which
    raises [IntegrityError] when the statement is committed. *)
Definition insert_error (db : Db) (e : TimeEntry) : option DatabaseError :=
  if integer_field_max <? duration_seconds e then Some DataError
  else if existsb (fun i => issue_pk i =? issue e) (issues db) then None
  else Some IntegrityError.

(** [TimeEntryViewSet.create].  The validated data keeps the [issue_id] of
    the body, and the view adds [issue], [user], [workspace], [project] and
    overwrites [source].  [TimeEntry.objects.create] is called with this
    dictionary as its keywords and so receives both [issue] and
    [issue_id]: the constructor of the model sets the relation [issue]
    first and the remaining keyword [issue_id] after it, so the row is
    stored on the issue that the body names, with the workspace and the
    project of the issue of the route. *)
Definition TimeEntryViewSet_create
    (handle_exception : DatabaseError -> Response)
    (db : Db) (request_user : Id)
    (request_data : CreatePayload) (slug : Slug) (project_id issue_id : Id)
    (now : Instant) (uuid : Id) : Response * Db :=
  match _check_time_tracking_enabled db project_id with
  | Some error_response => (error_response, db)
  | None =>
      match get_issue db slug project_id issue_id with
      | None => (IssueNotFound, db)
      | Some issue_row =>
          match TimeEntryCreateSerializer_is_valid request_data now with
          | inr time_entry_data =>
              let time_entry :=
                {| id := uuid;
                   workspace := issue_workspace issue_row;
                   project := issue_project issue_row;
                   issue := v_issue_id time_entry_data;
                   user := request_user;
                   started_at := v_started_at time_entry_data;
                   ended_at := v_ended_at time_entry_data;
                   duration_seconds :=
                     get_or (v_duration_seconds time_entry_data) 0;
                   source := MANUAL;
                   note := v_note time_entry_data;
                   is_billable := v_is_billable time_entry_data;
                   created_at := now |} in
              match insert_error db time_entry with
              | Some exc => (handle_exception exc, db)
              | None =>
                  (mkResponse (EntryData (to_representation time_entry))
                              HTTP_201_CREATED,
                   with_time_entries db (time_entry :: time_entries db))
              end
          | inl errors => (BadRequest errors, db)
          end
      end
  end.

(** [TimeEntryViewSet.partial_update] *)
Definition TimeEntryViewSet_partial_update (db : Db) (request_user : Id)
    (request_data : UpdatePayload) (slug : Slug)
    (project_id issue_id pk : Id) : Response * Db :=
  match _check_time_tracking_enabled db project_id with
  | Some error_response => (error_response, db)
  | None =>
      let selected e := in_queryset slug project_id issue_id e && (id e =? pk) in
      match find selected (time_entries db) with
      | None => (EntryNotFound, db)
      | Some time_entry =>
          if negb (user time_entry =? request_user)
             && negb (is_admin db project_id request_user)
          then (Forbidden
                  "You don't have permission to update this time entry", db)
          else
            match TimeEntryUpdateSerializer_is_valid time_entry request_data with
            | inr validated =>
                let saved := TimeEntryUpdateSerializer_save time_entry validated in
                (mkResponse (EntryData (to_representation saved)) HTTP_200_OK,
                 with_time_entries db
                   (save_first selected (fun _ => saved) (time_entries db)))
            | inl errors => (BadRequest errors, db)
            end
      end
  end.

(** [TimeEntryViewSet.destroy] *)
Definition TimeEntryViewSet_destroy (db : Db) (request_user : Id)
    (slug : Slug) (project_id issue_id pk : Id) : Response * Db :=
  match _check_time_tracking_enabled db project_id with
  | Some error_response => (error_response, db)
  | None =>
      let selected e := in_queryset slug project_id issue_id e && (id e =? pk) in
      match find selected (time_entries db) with
      | None => (EntryNotFound, db)
      | Some time_entry =>
          if negb (user time_entry =? request_user)
             && negb (is_admin db project_id request_user)
          then (Forbidden
                  "You don't have permission to delete this time entry", db)
          else (mkResponse NoData HTTP_204_NO_CONTENT,
                with_time_entries db (delete_first selected (time_entries db)))
      end
  end.

(** *** TimeEntryTimerEndpoint *)

(** [TimeEntryTimerEndpoint.post]: start a timer.  [note] and [is_billable]
    are the optional keys of the request body. *)
Definition TimeEntryTimerEndpoint_post (db : Db) (request_user : Id)
    (request_note : option string) (request_is_billable : option bool)
    (slug : Slug) (project_id issue_id : Id)
    (now : Instant) (uuid : Id) : Response * Db :=
  match _check_time_tracking_enabled db project_id with
  | Some error_response => (error_response, db)
  | None =>
      match get_issue db slug project_id issue_id with
      | None => (IssueNotFound, db)
      | Some issue_row =>
          match first (filter (timer_query issue_id request_user)
                              (time_entries db)) with
          | Some active_timer => (Conflict, db)
          | None =>
              let stopped :=
                map (fun timer =>
                       if other_timers_query issue_id request_user timer
                       then stop_timer now timer else timer)
                    (time_entries db) in
              let time_entry :=
                {| id := uuid;
                   workspace := issue_workspace issue_row;
                   project := issue_project issue_row;
                   issue := issue_pk issue_row;
                   user := request_user;
                   started_at := Some now;
                   ended_at := None;
                   duration_seconds := 0;
                   source := TIMER;
                   note := Some (get_or request_note EmptyString);
                   is_billable := get_or request_is_billable false;
                   created_at := now |} in
              (mkResponse (EntryData (to_representation time_entry))
                          HTTP_201_CREATED,
               with_time_entries db (time_entry :: stopped))
          end
      end
  end.

(** [TimeEntryTimerEndpoint.delete]: stop the timer of the issue. *)
Definition TimeEntryTimerEndpoint_delete (db : Db) (request_user : Id)
    (slug : Slug) (project_id issue_id : Id) (now : Instant)
  : Response * Db :=
  match _check_time_tracking_enabled db project_id with
  | Some error_response => (error_response, db)
  | None =>
      match first (filter (timer_query issue_id request_user)
                          (time_entries db)) with
      | None => (NoActiveTimer, db)
      | Some active_timer =>
          let stopped := stop_timer now active_timer in
          (mkResponse (EntryData (to_representation stopped)) HTTP_200_OK,
           with_time_entries db
             (save_first (timer_query issue_id request_user)
                         (fun _ => stopped) (time_entries db)))
      end
  end.

(** *** TimeEntryActiveTimerEndpoint *)

(** [TimeEntryActiveTimerEndpoint.get]: the handler starts with the query;
    the database is only read. *)
Definition TimeEntryActiveTimerEndpoint_get (db : Db) (request_user : Id)
    (slug : Slug) (project_id issue_id : Id) : Response * Db :=
  match first (filter (timer_query issue_id request_user)
                      (time_entries db)) with
  | None => (mkResponse (ActiveTimerData None) HTTP_200_OK, db)
  | Some active_timer =>
      (mkResponse (ActiveTimerData (Some (to_representation active_timer)))
                  HTTP_200_OK, db)
  end.

(* ------------------------------------------------------------------ *)
(** ** Reports (TimeEntryReportsEndpoint) *)

(** *** Grouping

    A group is a key, the label columns selected with it, and the two
    aggregates.  [accumulate] adds an amount to the group of a key, opening
    the group at the end when the key is new: this is the insertion-ordered
    dictionary of the module branch.  The same function collects the
    groups of a [GROUP BY]; the order in which the database lists them is
    not theirs but the database's, a [RowOrder]. *)

Record Group (K L : Type) := mkGroup {
  g_key : K;
  g_label : L;
  g_total : Z;
  g_count : Z
}.
Arguments mkGroup {K L}.
Arguments g_key {K L}.
Arguments g_label {K L}.
Arguments g_total {K L}.
Arguments g_count {K L}.

Fixpoint accumulate {K L} (eqb : K -> K -> bool) (k : K) (l : L)
    (seconds count : Z) (acc : list (Group K L)) : list (Group K L) :=
  match acc with
  | [] => [mkGroup k l seconds count]
  | g :: rest =>
      if eqb k (g_key g)
      then mkGroup (g_key g) (g_label g) (g_total g + seconds)
                   (g_count g + count) :: rest
      else g :: accumulate eqb k l seconds count rest
  end.

(** The order in which the database hands out rows whose order the query
    does not fix: some rearrangement of them, whichever. *)
Record RowOrder := mkRowOrder {
  arrange : forall A : Type, list A -> list A;
  arrange_Permutation : forall (A : Type) (l : list A),
      Permutation (arrange A l) l
}.
Arguments arrange _ {A} _.

(** The groups of [GROUP BY key, labels] with [Sum("duration_seconds")]
    and [Count("id")]. *)
Definition annotate_step {K L} (eqb : K -> K -> bool)
    (key : TimeEntry -> K) (label : TimeEntry -> L)
    (acc : list (Group K L)) (e : TimeEntry) : list (Group K L) :=
  accumulate eqb (key e) (label e) (duration_seconds e) 1 acc.

Definition collect_groups {K L} (eqb : K -> K -> bool)
    (key : TimeEntry -> K) (label : TimeEntry -> L)
    (queryset : list TimeEntry) : list (Group K L) :=
  fold_left (annotate_step eqb key label) queryset [].

(** [queryset.values(key, labels).annotate(total_seconds=Sum(
     "duration_seconds"), entry_count=Count("id"))]: the groups, as the
    database lists them. *)
Definition values_annotate {K L} (database : RowOrder)
    (eqb : K -> K -> bool)
    (key : TimeEntry -> K) (label : TimeEntry -> L)
    (queryset : list TimeEntry) : list (Group K L) :=
  arrange database (collect_groups eqb key label queryset).

(** Descending stable sort on the total:
    [sort(key=lambda x: x["total_seconds"], reverse=True)], where groups of
    equal total keep their order, and [order_by("-total_seconds")], where
    groups of equal total come as the database has listed them. *)
Fixpoint insert_desc {K L} (g : Group K L) (l : list (Group K L))
  : list (Group K L) :=
  match l with
  | [] => [g]
  | x :: rest =>
      if g_total g <? g_total x then x :: insert_desc g rest
      else g :: x :: rest
  end.

Definition sort_desc {K L} (l : list (Group K L)) : list (Group K L) :=
  fold_right insert_desc [] l.

Definition pair_eqb (a b : Id * Id) : bool :=
  (fst a =? fst b) && (snd a =? snd b).

(** *** Joined columns *)

Definition user_of (db : Db) (user_id : Id) : option User :=
  find (fun u => user_pk u =? user_id) (users db).

Definition project_of (db : Db) (project_id : Id) : option Project :=
  find (fun p => project_pk p =? project_id) (projects db).

Definition issue_of (db : Db) (issue_id : Id) : option Issue :=
  find (fun i => issue_pk i =? issue_id) (issues db).

Definition label_of {A} (o : option A) (f : A -> string) : string :=
  match o with Some a => f a | None => EmptyString end.

(** [ModuleIssue.objects.filter(issue_id=...).select_related("module")
     .first()] *)
Definition first_module_issue (db : Db) (issue_id : Id) : option ModuleIssue :=
  first (filter (fun mi => mi_issue mi =? issue_id) (module_issues db)).

(** *** The endpoint *)

Record ReportQuery := mkReportQuery {
  q_group_by : option string;
  q_from : option string;
  q_to : option string;
  q_project_id : option Id;
  q_user_id : option Id
}.

Definition valid_group_by : list string :=
  ["user"; "work_item"; "project"; "module"]%string.

(** [if s:] on an optional query string. *)
Definition nonempty (o : option string) : option string :=
  match o with
  | Some s => if String.eqb s EmptyString then None else Some s
  | None => None
  end.

Definition filter_opt {A B} (o : option B) (p : B -> A -> bool)
    (l : list A) : list A :=
  match o with Some b => filter (p b) l | None => l end.

Section Reports.

(** [datetime.strptime(s, "%Y-%m-%d").date()] as a day number, [None] on
    [ValueError]; and the date of an instant in the current time zone. *)
Variable strptime_date : string -> option Z.
Variable date_of : Instant -> Z.
Variable database : RowOrder.

(** The entries a report is about, in one predicate: completed entries of
    the workspace that pass the optional project, user and date filters.  A
    date that does not parse filters nothing (the endpoint answers 400
    then). *)
Definition matches (slug : Slug) (q : ReportQuery) (e : TimeEntry) : bool :=
  String.eqb (workspace e) slug && isSome (ended_at e)
  && match q_project_id q with Some p => project e =? p | None => true end
  && match q_user_id q with Some u => user e =? u | None => true end
  && match nonempty (q_from q) with
     | Some s => match strptime_date s with
                 | Some d => d <=? date_of (created_at e)
                 | None => true
                 end
     | None => true
     end
  && match nonempty (q_to q) with
     | Some s => match strptime_date s with
                 | Some d => date_of (created_at e) <=? d
                 | None => true
                 end
     | None => true
     end.

(** The dates of the query, when given, are well formed. *)
Definition dates_ok (q : ReportQuery) : Prop :=
  (forall s, nonempty (q_from q) = Some s -> strptime_date s <> None)
  /\ (forall s, nonempty (q_to q) = Some s -> strptime_date s <> None).

(** The queryset before the date filters. *)
Definition completed_queryset (db : Db) (slug : Slug) (q : ReportQuery)
  : list TimeEntry :=
  let queryset :=
    filter (fun e => String.eqb (workspace e) slug && isSome (ended_at e))
           (time_entries db) in
  let queryset := filter_opt (q_project_id q)
                    (fun p e => project e =? p) queryset in
  filter_opt (q_user_id q) (fun u e => user e =? u) queryset.

(** The queryset with the date filters, or the response of a bad date. *)
Definition report_queryset (db : Db) (slug : Slug) (q : ReportQuery)
  : Response + list TimeEntry :=
  let queryset := completed_queryset db slug q in
  match
    match nonempty (q_from q) with
    | Some from_date =>
        match strptime_date from_date with
        | Some from_date_obj =>
            inr (filter (fun e => from_date_obj <=? date_of (created_at e))
                        queryset)
        | None =>
            inl (mkResponse
                   (ErrorData "Invalid from date format. Use YYYY-MM-DD")
                   HTTP_400_BAD_REQUEST)
        end
    | None => inr queryset
    end
  with
  | inl r => inl r
  | inr queryset =>
      match nonempty (q_to q) with
      | Some to_date =>
          match strptime_date to_date with
          | Some to_date_obj =>
              inr (filter (fun e => date_of (created_at e) <=? to_date_obj)
                          queryset)
          | None =>
              inl (mkResponse
                     (ErrorData "Invalid to date format. Use YYYY-MM-DD")
                     HTTP_400_BAD_REQUEST)
          end
      | None => inr queryset
      end
  end.

Definition report_user (db : Db) (queryset : list TimeEntry)
  : list ReportRow :=
  let results :=
    sort_desc (values_annotate database Z.eqb user
                 (fun e => (label_of (user_of db (user e)) user_email,
                            label_of (user_of db (user e)) user_display_name))
                 queryset) in
  map (fun item => UserRow (g_key item) (fst (g_label item))
                           (snd (g_label item)) (g_total item) (g_count item))
      results.

Definition report_work_item (db : Db) (queryset : list TimeEntry)
  : list ReportRow :=
  let results :=
    sort_desc (values_annotate database pair_eqb
                 (fun e => (issue e, project e))
                 (fun e => (issue_of db (issue e), project_of db (project e)))
                 queryset) in
  map (fun item =>
         WorkItemRow (fst (g_key item))
           (label_of (fst (g_label item)) issue_name)
           (match fst (g_label item) with
            | Some i => issue_sequence_id i | None => 0 end)
           (snd (g_key item))
           (label_of (snd (g_label item)) project_identifier)
           (label_of (snd (g_label item)) project_name)
           (g_total item) (g_count item))
      results.

Definition report_project (db : Db) (queryset : list TimeEntry)
  : list ReportRow :=
  let results :=
    sort_desc (values_annotate database Z.eqb project
                 (fun e => project_of db (project e)) queryset) in
  map (fun item =>
         ProjectRow (g_key item)
           (label_of (g_label item) project_identifier)
           (label_of (g_label item) project_name)
           (g_total item) (g_count item))
      results.

(** The per-issue items of the module branch: the issue group and its
    [module_id] / [module_name], [None] when the issue has no module. *)
Definition module_items (db : Db) (queryset : list TimeEntry)
  : list (Group (Id * Id) (option (Id * string))) :=
  let results :=
    values_annotate database pair_eqb
                    (fun e => (issue e, project e)) (fun _ => tt)
                    queryset in
  map (fun item =>
         let module_issue := first_module_issue db (fst (g_key item)) in
         let module_info :=
           match module_issue with
           | Some mi => Some (mi_module mi, mi_module_name mi)
           | None => None
           end in
         mkGroup (g_key item) module_info (g_total item) (g_count item))
      results.

(** The [module_aggregates] dictionary: items without a module are
    skipped. *)
Definition aggregate_step (aggregates : list (Group Id string))
    (item : Group (Id * Id) (option (Id * string)))
  : list (Group Id string) :=
  match g_label item with
  | Some (module_id, module_name) =>
      accumulate Z.eqb module_id module_name
                 (g_total item) (g_count item) aggregates
  | None => aggregates
  end.

Definition module_aggregates
    (report_data : list (Group (Id * Id) (option (Id * string))))
  : list (Group Id string) :=
  fold_left aggregate_step report_data [].

Definition report_module (db : Db) (queryset : list TimeEntry)
  : list ReportRow :=
  let report_data := module_items db queryset in
  map (fun agg => ModuleRow (g_key agg) (g_label agg)
                            (g_total agg) (g_count agg))
      (sort_desc (module_aggregates report_data)).

(** [TimeEntryReportsEndpoint.get] *)
Definition TimeEntryReportsEndpoint_get (db : Db) (slug : Slug)
    (q : ReportQuery) : Response :=
  let group_by := get_or (q_group_by q) "user"%string in
  if negb (existsb (String.eqb group_by) valid_group_by)
  then mkResponse
         (ErrorData
            "group_by must be one of: user, work_item, project, module")
         HTTP_400_BAD_REQUEST
  else
    match report_queryset db slug q with
    | inl error_response => error_response
    | inr queryset =>
        let report_data :=
          if String.eqb group_by "user" then report_user db queryset
          else if String.eqb group_by "work_item"
               then report_work_item db queryset
          else if String.eqb group_by "project"
               then report_project db queryset
          else report_module db queryset in
        mkResponse (ReportData group_by (q_from q) (q_to q) report_data)
                   HTTP_200_OK
    end.

End Reports.

(* ------------------------------------------------------------------ *)
(** ** The operations as one transition function *)

Inductive Operation :=
| OpCreate (request_user : Id) (request_data : CreatePayload) (slug : Slug)
           (project_id issue_id : Id) (now : Instant) (uuid : Id)
| OpPartialUpdate (request_user : Id) (request_data : UpdatePayload)
                  (slug : Slug) (project_id issue_id pk : Id)
| OpDestroy (request_user : Id) (slug : Slug) (project_id issue_id pk : Id)
| OpTimerStart (request_user : Id) (request_note : option string)
               (request_is_billable : option bool) (slug : Slug)
               (project_id issue_id : Id) (now : Instant) (uuid : Id)
| OpTimerStop (request_user : Id) (slug : Slug) (project_id issue_id : Id)
              (now : Instant)
| OpActiveTimer (request_user : Id) (slug : Slug) (project_id issue_id : Id).

Definition run (handle_exception : DatabaseError -> Response)
    (db : Db) (op : Operation) : Response * Db :=
  match op with
  | OpCreate u d slug p i now uuid =>
      TimeEntryViewSet_create handle_exception db u d slug p i now uuid
  | OpPartialUpdate u d slug p i pk =>
      TimeEntryViewSet_partial_update db u d slug p i pk
  | OpDestroy u slug p i pk => TimeEntryViewSet_destroy db u slug p i pk
  | OpTimerStart u n b slug p i now uuid =>
      TimeEntryTimerEndpoint_post db u n b slug p i now uuid
  | OpTimerStop u slug p i now =>
      TimeEntryTimerEndpoint_delete db u slug p i now
  | OpActiveTimer u slug p i => TimeEntryActiveTimerEndpoint_get db u slug p i
  end.



(** The rule of the data model for manual rows at creation. *)
Definition manual_rule (e : TimeEntry) : Prop :=
  source e = MANUAL -> 0 < duration_seconds e.

(** The rows of [u] that the serializer reports as active. *)
Definition active_entries (u : Id) (db : Db) : list TimeEntry :=
  filter (fun e => (user e =? u) && is_active e) (time_entries db).

(** Sum of [duration_seconds] and number of rows of a queryset. *)
Definition sum_seconds (l : list TimeEntry) : Z :=
  fold_right (fun e acc => duration_seconds e + acc) 0 l.

Definition count (l : list TimeEntry) : Z := Z.of_nat (List.length l).

(** The module an entry is reported under: the module of the first
    module link of its issue. *)
Definition module_of (db : Db) (e : TimeEntry) : option Id :=
  option_map mi_module (first_module_issue db (issue e)).

Definition option_Z_eqb (a b : option Z) : bool :=
  match a, b with
  | Some x, Some y => x =? y
  | None, None => true
  | _, _ => false
  end.

(** Aggregates of the groups whose key satisfies [p]. *)
Definition total_where {K L} (p : K -> bool) (gs : list (Group K L)) : Z :=
  fold_right (fun g acc => if p (g_key g) then g_total g + acc else acc) 0 gs.

Definition count_where {K L} (p : K -> bool) (gs : list (Group K L)) : Z :=
  fold_right (fun g acc => if p (g_key g) then g_count g + acc else acc) 0 gs.

(** Aggregates of the per-issue items whose module satisfies [p]; an item
    without a module counts for nothing. *)
Definition items_total (p : Id -> bool)
    (items : list (Group (Id * Id) (option (Id * string)))) : Z :=
  fold_right (fun item acc =>
                match g_label item with
                | Some (m, _) => if p m then g_total item + acc else acc
                | None => acc
                end) 0 items.

Definition items_count (p : Id -> bool)
    (items : list (Group (Id * Id) (option (Id * string)))) : Z :=
  fold_right (fun item acc =>
                match g_label item with
                | Some (m, _) => if p m then g_count item + acc else acc
                | None => acc
                end) 0 items.

(** The predicate on issue groups that [p] induces through the first
    module link of the issue. *)
Definition through_module (db : Db) (p : Id -> bool) (key : Id * Id) : bool :=
  match first_module_issue db (fst key) with
  | Some mi => p (mi_module mi)
  | None => false
  end.

(** The order of groups by decreasing total. *)
Definition total_ge {K L} (a b : Group K L) : Prop := g_total b <= g_total a.

(** Totals of a whole report. *)
Definition rows_total (rows : list ReportRow) : Z :=
  fold_right (fun r acc => total_seconds r + acc) 0 rows.

Definition rows_count (rows : list ReportRow) : Z :=
  fold_right (fun r acc => entry_count r + acc) 0 rows.

(** Rows in descending order of [total_seconds]. *)
Definition descending (rows : list ReportRow) : Prop :=
  StronglySorted (fun a b => total_seconds b <= total_seconds a) rows.



(** [l'] is [l] with the row [e] replaced by [e'] at its place, where [e]
    is the first row that [p] selects. *)
Definition rewritten_at {A} (p : A -> bool) (e e' : A) (l l' : list A)
  : Prop :=
  exists before rest,
    l = before ++ e :: rest
    /\ l' = before ++ e' :: rest
    /\ forall x, In x before -> p x = false.

(** The other tables of the database are the same. *)
Definition same_but_time_entries (db db' : Db) : Prop :=
  projects db' = projects db /\ issues db' = issues db
  /\ project_members db' = project_members db
  /\ module_issues db' = module_issues db /\ users db' = users db.

(* ------------------------------------------------------------------ *)
(** ** Concrete data used by the examples *)

Module Sample.

Definition acme : Slug := "acme"%string.

Definition tracked : Project :=
  mkProject 1 true "WEB"%string "Website"%string.
Definition untracked : Project :=
  mkProject 2 false "OPS"%string "Operations"%string.

(** Issues 10 and 11 live in the tracked project, 20 in the other one. *)
Definition issue_A : Issue := mkIssue 10 1 acme "Login page"%string 1.
Definition issue_B : Issue := mkIssue 11 1 acme "Signup page"%string 2.
Definition issue_C : Issue := mkIssue 20 2 acme "Rotate keys"%string 1.

Definition alice : User := mkUser 7 "alice@acme.io"%string "Alice"%string.
Definition bob : User := mkUser 8 "bob@acme.io"%string "Bob"%string.

(** An answer of the base view to an exception of the database. *)
Definition server_error : DatabaseError -> Response :=
  fun _ => mkResponse
             (ErrorData "Something went wrong please try again later") 500.

(** Two databases: one lists groups in the order in which their keys
    first occur in the table, the other the opposite way. *)
Definition in_order : RowOrder :=
  mkRowOrder (fun _ l => l) (fun _ l => Permutation_refl l).

Definition backwards_order : RowOrder :=
  mkRowOrder (fun A l => rev l)
             (fun A l => Permutation_sym (Permutation_rev l)).

Definition empty_db : Db :=
  {| projects := [tracked; untracked];
     issues := [issue_A; issue_B; issue_C];
     project_members := [];
     module_issues := [];
     users := [alice; bob];
     time_entries := [] |}.

(** 2024-01-01T10:00:00Z and 2024-01-01T11:30:00Z *)
Definition t_10_00 : Instant := of_seconds 1704103200.
Definition t_11_30 : Instant := of_seconds 1704108600.
Definition t_12_00 : Instant := of_seconds 1704110400.
Definition t_13_00 : Instant := of_seconds 1704114000.

(** 1970-01-01T00:00:00Z, and the instant [2 ^ 34] seconds and 999999
    microseconds later, 2514-05-30T01:53:04.999999Z. *)
Definition t_epoch : Instant := 0.

(** Alice starts a timer on issue 10. *)
Definition db_timer_A : Db :=
  snd (TimeEntryTimerEndpoint_post empty_db 7 None None acme 1 10 t_10_00 100).

(** The row that this leaves in the table. *)
Definition timer_A : TimeEntry :=
  {| id := 100; workspace := acme; project := 1; issue := 10; user := 7;
     started_at := Some t_10_00; ended_at := None; duration_seconds := 0;
     source := TIMER; note := Some EmptyString; is_billable := false;
     created_at := t_10_00 |}.

(** A manual entry with a start and no end, as the create endpoint takes
    it. *)
Definition open_manual (issue_id : Id) (started : Instant) : CreatePayload :=
  {| c_issue_id := Some issue_id; c_duration_seconds := Some 600;
     c_started_at := Some started; c_ended_at := None;
     c_source := None; c_note := None; c_is_billable := None |}.

(** Then Alice logs such an entry on issue 11. *)
Definition db_timer_A_manual_B : Db :=
  snd (TimeEntryViewSet_create server_error db_timer_A 7
         (open_manual 11 t_11_30) acme 1 11 t_11_30 101).


(** Alice logs such an entry on issue 10 and then two on issue 11. *)
Definition db_open_manuals : Db :=
  snd (TimeEntryViewSet_create server_error
         (snd (TimeEntryViewSet_create server_error
                 (snd (TimeEntryViewSet_create server_error empty_db 7
                         (open_manual 10 t_10_00) acme 1 10 t_10_00 200))
                 7 (open_manual 11 t_10_00) acme 1 11 t_10_00 201))
         7 (open_manual 11 t_11_30) acme 1 11 t_11_30 202).


(** A manual body with the range 10:00 - 11:30 and no duration. *)
Definition manual_range : CreatePayload :=
  {| c_issue_id := Some 10; c_duration_seconds := None;
     c_started_at := Some t_10_00; c_ended_at := Some t_11_30;
     c_source := Some MANUAL; c_note := None; c_is_billable := None |}.

Definition attrs_range (src : option TimeEntrySource) : EntryAttrs :=
  {| a_issue := issue_A; a_user := None; a_source := src;
     a_started_at := Some t_10_00; a_ended_at := Some t_11_30;
     a_duration_seconds := None; a_note := None; a_is_billable := None |}.

(** A manual body whose end lies before its start. *)
Definition backwards : CreatePayload :=
  {| c_issue_id := Some 10; c_duration_seconds := Some 600;
     c_started_at := Some t_11_30; c_ended_at := Some t_10_00;
     c_source := None; c_note := None; c_is_billable := None |}.

Definition db_backwards : Db :=
  snd (TimeEntryViewSet_create server_error empty_db 7 backwards
         acme 1 10 t_12_00 300).

(** A manual entry 10:00 - 11:30 of 600 seconds on issue 10. *)
Definition ranged : CreatePayload :=
  {| c_issue_id := Some 10; c_duration_seconds := Some 600;
     c_started_at := Some t_10_00; c_ended_at := Some t_11_30;
     c_source := None; c_note := None; c_is_billable := None |}.

Definition db_ranged : Db :=
  snd (TimeEntryViewSet_create server_error empty_db 7 ranged
         acme 1 10 t_12_00 301).

(** The row that this leaves in the table. *)
Definition ranged_row : TimeEntry :=
  {| id := 301; workspace := acme; project := 1; issue := 10; user := 7;
     started_at := Some t_10_00; ended_at := Some t_11_30;
     duration_seconds := 600;
     source := MANUAL; note := None; is_billable := false;
     created_at := t_12_00 |}.

Definition only_duration (d : Z) : UpdatePayload :=
  {| u_duration_seconds := Some d; u_started_at := None; u_ended_at := None;
     u_note := None; u_is_billable := None |}.

(** A body with source TIMER and no duration. *)
Definition timer_body : CreatePayload :=
  {| c_issue_id := Some 10; c_duration_seconds := None;
     c_started_at := None; c_ended_at := None;
     c_source := Some TIMER; c_note := None; c_is_billable := None |}.

(** The same store with the timer of issue 20, whose project has time
    tracking switched off. *)
Definition running_on_C : TimeEntry :=
  {| id := 400; workspace := acme; project := 2; issue := 20; user := 7;
     started_at := Some t_10_00; ended_at := None; duration_seconds := 0;
     source := TIMER; note := None; is_billable := false;
     created_at := t_10_00 |}.

Definition db_untracked : Db := with_time_entries empty_db [running_on_C].

(** Completed entries: Alice 3600 s and 1800 s on issue 10, Bob 900 s on
    issue 11. *)
Definition completed (pk issue_id user_id seconds : Z) : TimeEntry :=
  {| id := pk; workspace := acme; project := 1; issue := issue_id;
     user := user_id;
     started_at := Some t_10_00; ended_at := Some t_13_00;
     duration_seconds := seconds;
     source := MANUAL; note := None; is_billable := false;
     created_at := t_13_00 |}.

(** Issue 10 is linked to modules 900 and 901, in this order; issue 11 to
    none. *)
Definition db_report : Db :=
  {| projects := [tracked; untracked];
     issues := [issue_A; issue_B; issue_C];
     project_members := [];
     module_issues := [mkModuleIssue 10 900 "Alpha"%string;
                       mkModuleIssue 10 901 "Beta"%string];
     users := [alice; bob];
     time_entries := [completed 703 11 8 900; completed 702 10 7 1800;
                      completed 701 10 7 3600] |}.

Definition no_dates : string -> option Z := fun _ => None.
Definition utc_date : Instant -> Z := fun t => t / 86400000000.

Definition grouped (mode : string) : ReportQuery :=
  {| q_group_by := Some mode; q_from := None; q_to := None;
     q_project_id := None; q_user_id := None |}.

End Sample.

(* ------------------------------------------------------------------ *)
(** ** Further endpoints and notions *)

(** An endpoint that answers with a list or a table returns its error
    response, or the body of its 200 response. *)

(** [TimeEntryViewSet.list]: the entries of the issue of the route,
    optionally of one user, newest first. *)
Definition TimeEntryViewSet_list (db : Db) (user_id : option Id)
    (slug : Slug) (project_id issue_id : Id)
  : Response + list Representation :=
  match _check_time_tracking_enabled db project_id with
  | Some error_response => inl error_response
  | None =>
      let queryset :=
        filter (in_queryset slug project_id issue_id) (time_entries db) in
      let queryset := filter_opt user_id (fun u e => user e =? u) queryset in
      inr (map to_representation queryset)
  end.

(** The body of the summary of an issue. *)
Record Summary := mkSummary {
  summary_total_seconds : Z;
  summary_estimated_time_minutes : option Z;
  summary_time_by_user : list ReportRow
}.

(** [filter(issue_id=issue_id, ended_at__isnull=False)] *)
Definition completed_on (issue_id : Id) (e : TimeEntry) : bool :=
  (issue e =? issue_id) && isSome (ended_at e).

(** [TimeEntrySummaryEndpoint.get].  The handler makes the check of
    [_check_time_tracking_enabled] with the same statements inline.  The
    column [estimated_time_minutes] of the issue (migration 0108) is read
    through [estimated_time_minutes].  [Sum] over no row is null and is
    turned into 0 by [or 0]. *)
Definition TimeEntrySummaryEndpoint_get
    (estimated_time_minutes : Issue -> option Z) (database : RowOrder)
    (db : Db) (slug : Slug) (project_id issue_id : Id)
  : Response + Summary :=
  match _check_time_tracking_enabled db project_id with
  | Some error_response => inl error_response
  | None =>
      match get_issue db slug project_id issue_id with
      | None => inl IssueNotFound
      | Some issue_row =>
          let queryset := filter (completed_on issue_id) (time_entries db) in
          inr {| summary_total_seconds := sum_seconds queryset;
                 summary_estimated_time_minutes :=
                   estimated_time_minutes issue_row;
                 summary_time_by_user :=
                   report_user database db queryset |}
      end
  end.

(** *** TimeEntryExportEndpoint *)

Definition export_header : list string :=
  ["Date"; "User"; "User Email"; "Project"; "Work Item"; "Work Item Key";
   "Module"; "Duration (hours)"; "Duration (seconds)"; "Source"; "Billable";
   "Note"]%string.

(** The stored value of the [source] column (choices of migration 0108). *)
Definition source_value (s : TimeEntrySource) : string :=
  match s with MANUAL => "manual" | TIMER => "timer" end.

(** Python's [a or b] on strings. *)
Definition str_or (a b : string) : string :=
  if String.eqb a EmptyString then b else a.

Section ExportTable.

Variable strptime_date : string -> option Z.
Variable date_of : Instant -> Z.
(** [created_at.strftime("%Y-%m-%d")], the text of
    [round(seconds / 3600.0, 2)] and the text of an integer, as the CSV
    writer prints them. *)
Variable strftime_date : Instant -> string.
Variable str_hours : Z -> string.
Variable str_int : Z -> string.

(** The cells of the row written for an entry. *)
Definition export_row (db : Db) (entry : TimeEntry) : list string :=
  let module_issue := first_module_issue db (issue entry) in
  let module_name := label_of module_issue mi_module_name in
  let entry_user := user_of db (user entry) in
  let entry_project := project_of db (project entry) in
  let entry_issue := issue_of db (issue entry) in
  [ strftime_date (created_at entry);
    str_or (label_of entry_user user_display_name)
           (label_of entry_user user_email);
    label_of entry_user user_email;
    label_of entry_project project_name;
    label_of entry_issue issue_name;
    (label_of entry_project project_identifier ++ "-"
     ++ match entry_issue with
        | Some i => str_int (issue_sequence_id i)
        | None => EmptyString
        end)%string;
    module_name;
    str_hours (duration_seconds entry);
    str_int (duration_seconds entry);
    source_value (source entry);
    (if is_billable entry then "Yes" else "No")%string;
    get_or (note entry) EmptyString ].

(** [TimeEntryExportEndpoint.get]: the rows handed to [writer.writerow],
    the header first.  The filters are those of the reports endpoint,
    statement for statement; [group_by] plays no part. *)
Definition TimeEntryExportEndpoint_get (db : Db) (slug : Slug)
    (q : ReportQuery) : Response + list (list string) :=
  match report_queryset strptime_date date_of db slug q with
  | inl error_response => inl error_response
  | inr queryset => inr (export_header :: map (export_row db) queryset)
  end.

End ExportTable.

(** *** Notions for the properties of the operations *)

(** The project of the route of a request. *)
Definition op_project (op : Operation) : Id :=
  match op with
  | OpCreate _ _ _ p _ _ _ => p
  | OpPartialUpdate _ _ _ p _ _ => p
  | OpDestroy _ _ p _ _ => p
  | OpTimerStart _ _ _ _ p _ _ _ => p
  | OpTimerStop _ _ p _ _ => p
  | OpActiveTimer _ _ p _ => p
  end.

Definition is_active_timer_read (op : Operation) : bool :=
  match op with OpActiveTimer _ _ _ _ => true | _ => false end.

Definition is_partial_update (op : Operation) : bool :=
  match op with OpPartialUpdate _ _ _ _ _ _ => true | _ => false end.

(** The primary key that a request brings for the row it may create. *)
Definition op_uuid (op : Operation) : option Id :=
  match op with
  | OpCreate _ _ _ _ _ _ uuid => Some uuid
  | OpTimerStart _ _ _ _ _ _ _ uuid => Some uuid
  | _ => None
  end.

(** The columns that no endpoint rewrites. *)
Definition identity (e : TimeEntry)
  : Id * Slug * Id * Id * Id * TimeEntrySource * Instant :=
  (id e, workspace e, project e, issue e, user e, source e, created_at e).

(** The rows of a user with a start and no end, whatever their source. *)
Definition running_entries (u : Id) (db : Db) : list TimeEntry :=
  filter (fun e => (user e =? u) && running e) (time_entries db).

(** At most one active timer for each user. *)
Definition one_active_timer (db : Db) : Prop :=
  forall u, (List.length (active_entries u db) <= 1)%nat.

(** Primary keys are unique. *)
Definition unique_ids (db : Db) : Prop := NoDup (map id (time_entries db)).

(** The keys of a dictionary that is filled in this order: each key once,
    at the place of its first occurrence; [None] stands for an item that
    is skipped. *)
Definition remember (seen : list Id) (key : option Id) : list Id :=
  match key with
  | Some k => if existsb (Z.eqb k) seen then seen else seen ++ [k]
  | None => seen
  end.

Definition insertion_order (keys : list (option Id)) : list Id :=
  fold_left remember keys [].

(** The base view answers an exception with an error status. *)
Definition answers_with_error (handle_exception : DatabaseError -> Response)
  : Prop :=
  forall exc, 400 <= status (handle_exception exc).

(** The range of an entry is in order when both ends are set. *)
Definition range_ordered (started ended : option Instant) : Prop :=
  match started, ended with
  | Some s, Some t => s <= t
  | _, _ => True
  end.

(** *** Further concrete data *)

Module Cases.

(** Alice stops her timer of issue 10 at 11:30 and starts one on issue 11
    at 12:00. *)
Definition db_stopped_A_timer_B : Db :=
  snd (TimeEntryTimerEndpoint_post
         (snd (TimeEntryTimerEndpoint_delete Sample.db_timer_A 7
                 Sample.acme 1 10 Sample.t_11_30))
         7 None None Sample.acme 1 11 Sample.t_12_00 101).

(** A body that sets [ended_at] to null and nothing else. *)
Definition clear_ended_at : UpdatePayload :=
  {| u_duration_seconds := None; u_started_at := None;
     u_ended_at := Some None; u_note := None; u_is_billable := None |}.

(** A manual entry of 600 seconds whose body names issue 11. *)
Definition on_issue_B : CreatePayload :=
  {| c_issue_id := Some 11; c_duration_seconds := Some 600;
     c_started_at := None; c_ended_at := None;
     c_source := None; c_note := None; c_is_billable := None |}.

(** The same with 2147483648 seconds, and with the key of no issue. *)
Definition too_long : CreatePayload :=
  {| c_issue_id := Some 11; c_duration_seconds := Some 2147483648;
     c_started_at := None; c_ended_at := None;
     c_source := None; c_note := None; c_is_billable := None |}.

Definition on_no_issue : CreatePayload :=
  {| c_issue_id := Some 99; c_duration_seconds := Some 600;
     c_started_at := None; c_ended_at := None;
     c_source := None; c_note := None; c_is_billable := None |}.

(** Issue 10 is in module 900 and issue 11 in module 901; Alice has 1800
    seconds on issue 10 and Bob, later, 1800 seconds on issue 11. *)
Definition db_tie : Db :=
  {| projects := [Sample.tracked; Sample.untracked];
     issues := [Sample.issue_A; Sample.issue_B; Sample.issue_C];
     project_members := [];
     module_issues := [mkModuleIssue 10 900 "Alpha"%string;
                       mkModuleIssue 11 901 "Beta"%string];
     users := [Sample.alice; Sample.bob];
     time_entries := [Sample.completed 712 11 8 1800;
                      Sample.completed 711 10 7 1800] |}.

(** Instants after 1970-01-01T00:00:00Z, in microseconds: in the years
    3058 and 3603. *)
Definition t_3058 : Instant := 34359738368999997.
Definition t_3603 : Instant := 51539607553999996.
Definition t_3058' : Instant := 34359738367999998.
Definition t_3058'' : Instant := 34359738369999997.


End Cases.

(** The row that a start creates ([TimeEntry.objects.create] of [post]). *)
Definition started_timer (issue_row : Issue) (request_user : Id)
    (request_note : option string) (request_is_billable : option bool)
    (now : Instant) (uuid : Id) : TimeEntry :=
  {| id := uuid;
     workspace := issue_workspace issue_row;
     project := issue_project issue_row;
     issue := issue_pk issue_row;
     user := request_user;
     started_at := Some now;
     ended_at := None;
     duration_seconds := 0;
     source := TIMER;
     note := Some (get_or request_note EmptyString);
     is_billable := get_or request_is_billable false;
     created_at := now |}.

(* ------------------------------------------------------------------ *)
(** ** AI chat: truncating a conversation
       (plane/db/models/ai_chat.py, plane/app/serializers/ai_chat.py,
        plane/app/views/ai_chat/base.py) *)

Module AIChat.

(** A Python [str] is a sequence of code points; slicing counts code
    points, not bytes. *)
Definition CodePoint := Z.
Definition Text := list CodePoint.

(** The text of an ASCII literal. *)
Definition text (s : string) : Text :=
  map (fun a => Z.of_N (Ascii.N_of_ascii a)) (list_ascii_of_string s).

(** Rows of [ai_chat_conversations] and [ai_chat_messages]; the audit
    columns of [WorkspaceBaseModel] are left to the base model.  The
    messages are listed in the order of their model,
    [ordering = ("created_at",)]. *)
Record AIChatConversation := mkConversation {
  conversation_pk : Id;
  conversation_workspace : Slug;
  conversation_user : Id;
  title : string;
  is_archived : bool
}.

Record AIChatMessage := mkMessage {
  message_pk : Id;
  conversation : Id;
  role : string;
  content : Text;
  token_count : option Z;
  message_created_at : Instant
}.

Record ChatDb := mkChatDb {
  workspaces : list Slug;
  conversations : list AIChatConversation;
  messages : list AIChatMessage
}.

(** [obj.messages]: the related manager of a conversation. *)
Definition messages_of (db : ChatDb) (c : AIChatConversation)
  : list AIChatMessage :=
  filter (fun m => conversation m =? conversation_pk c) (messages db).

(** [order_by("-created_at").first()]: a message with the greatest
    [created_at], the later row among equals. *)
Definition latest (l : list AIChatMessage) : option AIChatMessage :=
  fold_left (fun best m =>
               match best with
               | None => Some m
               | Some b =>
                   if message_created_at b <=? message_created_at m
                   then Some m else Some b
               end) l None.

(** The dictionary of [get_last_message]; [content[:100]] is the first
    hundred code points of the content, all of it when it has fewer. *)
Record LastMessage := mkLastMessage {
  last_id : Id;
  last_role : string;
  last_content : Text;
  last_created_at : Instant
}.

Definition get_message_count (db : ChatDb) (obj : AIChatConversation) : nat :=
  List.length (messages_of db obj).

Definition get_last_message (db : ChatDb) (obj : AIChatConversation)
  : option LastMessage :=
  match latest (messages_of db obj) with
  | Some last_message =>
      Some {| last_id := message_pk last_message;
              last_role := role last_message;
              last_content := firstn 100 (content last_message);
              last_created_at := message_created_at last_message |}
  | None => None
  end.

(** [AIChatConversationDetailSerializer]: the row, the two method fields
    and the nested messages. *)
Record ConversationDetail := mkConversationDetail {
  detail_instance : AIChatConversation;
  message_count : nat;
  last_message : option LastMessage;
  detail_messages : list AIChatMessage
}.

Definition AIChatConversationDetailSerializer (db : ChatDb)
    (obj : AIChatConversation) : ConversationDetail :=
  {| detail_instance := obj;
     message_count := get_message_count db obj;
     last_message := get_last_message db obj;
     detail_messages := messages_of db obj |}.

Inductive ChatData :=
| ChatError (msg : string)                        (* {"error": msg} *)
| Truncated (conversation_data : ConversationDetail) (deleted_count : nat).

Record ChatResponse := mkChatResponse {
  chat_data : ChatData;
  chat_status : Z
}.

Definition with_messages (db : ChatDb) (l : list AIChatMessage) : ChatDb :=
  {| workspaces := workspaces db; conversations := conversations db;
     messages := l |}.

(** [filter(conversation=conversation,
            created_at__gte=message.created_at)] *)
Definition to_delete (c : AIChatConversation) (message : AIChatMessage)
    (m : AIChatMessage) : bool :=
  (conversation m =? conversation_pk c)
  && (message_created_at message <=? message_created_at m).

(** [AIChatTruncateConversationEndpoint.post].  The three lookups raise
    [DoesNotExist], which the handler turns into a 404 of its own. *)
Definition AIChatTruncateConversationEndpoint_post (db : ChatDb)
    (request_user : Id) (slug : Slug) (conversation_id message_id : Id)
  : ChatResponse * ChatDb :=
  match find (String.eqb slug) (workspaces db) with
  | None =>
      (mkChatResponse (ChatError "Workspace not found") HTTP_404_NOT_FOUND,
       db)
  | Some workspace_row =>
      match find (fun c => (conversation_pk c =? conversation_id)
                           && String.eqb (conversation_workspace c)
                                         workspace_row
                           && (conversation_user c =? request_user))
                 (conversations db) with
      | None =>
          (mkChatResponse (ChatError "Conversation not found")
                          HTTP_404_NOT_FOUND, db)
      | Some conversation_row =>
          match find (fun m => (message_pk m =? message_id)
                               && (conversation m
                                   =? conversation_pk conversation_row))
                     (messages db) with
          | None =>
              (mkChatResponse (ChatError "Message not found")
                              HTTP_404_NOT_FOUND, db)
          | Some message =>
              let messages_to_delete :=
                filter (to_delete conversation_row message) (messages db) in
              let deleted_count := List.length messages_to_delete in
              let db' :=
                with_messages db
                  (filter (fun m => negb (to_delete conversation_row
                                                    message m))
                          (messages db)) in
              (mkChatResponse
                 (Truncated
                    (AIChatConversationDetailSerializer db' conversation_row)
                    deleted_count)
                 HTTP_200_OK,
               db')
          end
      end
  end.

(** A conversation of Alice with three messages, and one of Bob. *)
Definition sample : ChatDb :=
  {| workspaces := ["acme"%string];
     conversations :=
       [mkConversation 50 "acme"%string 7 "Plan"%string false;
        mkConversation 51 "acme"%string 8 "Notes"%string false];
     messages :=
       [mkMessage 500 50 "user"%string (text "first question") None 1000;
        mkMessage 501 50 "assistant"%string (text "first answer")
                  (Some 12) 2000;
        mkMessage 510 51 "user"%string (text "unrelated") None 2500;
        mkMessage 502 50 "user"%string (text "second question")
                  None 3000] |}.

(** A content of 120 code points, none of them ASCII: the Greek letter
    alpha, U+03B1, two bytes each in UTF-8. *)
Definition long_content : Text := repeat 945 120.

(** The same store after a long answer. *)
Definition sample_long : ChatDb :=
  with_messages sample
    (messages sample
     ++ [mkMessage 503 50 "assistant"%string long_content (Some 240) 4000]).


End AIChat.

(* ------------------------------------------------------------------ *)
(** * Properties *)

(** ** Duration arithmetic *)

(** The double of a quotient, on integers. *)

Lemma round_half_even_bounds (n d : Z) :
  0 < d -> n / d <= round_half_even n d <= n / d + 1.
Proof.
  intros Hd. unfold round_half_even.
  destruct (2 * (n mod d) <? d); [lia |].
  destruct (d <? 2 * (n mod d)); [lia |].
  destruct (Z.even (n / d)); lia.
Qed.

Lemma round_half_even_up (n d : Z) :
  round_half_even n d <> n / d -> d <= 2 * (n mod d).
Proof.
  unfold round_half_even.
  destruct (2 * (n mod d) <? d) eqn:H; [congruence |].
  intros _. apply Z.ltb_ge in H. exact H.
Qed.

(** Scaling by [P], rounding and dropping the fraction gives the floor as
    long as the scaled steps are finer than half of one [d]-th. *)
Lemma scaled_round_floor (n d P : Z) :
  0 <= n -> 0 < d -> 0 < P -> d < 2 * P ->
  round_half_even (n * P) d / P = n / d.
Proof.
  intros Hn Hd HP Hfine.
  pose proof (Z.div_mod n d ltac:(lia)) as En.
  pose proof (Z.mod_pos_bound n d Hd) as Bn.
  pose proof (Z.div_mod (n * P) d ltac:(lia)) as EN.
  pose proof (Z.mod_pos_bound (n * P) d Hd) as BN.
  pose proof (round_half_even_bounds (n * P) d Hd) as Hb.
  pose proof (round_half_even_up (n * P) d) as Hup.
  set (s := n / d) in *. set (r := n mod d) in *.
  set (Q := n * P / d) in *. set (R := (n * P) mod d) in *.
  set (m := round_half_even (n * P) d) in *.
  symmetry. apply (Z.div_unique m P s (m - s * P)); [| lia].
  left.
  assert (H1 : s * P <= Q) by nia.
  assert (H2 : Q < (s + 1) * P) by nia.
  split; [lia |].
  destruct (Z.eq_dec m Q) as [-> | Hne]; [lia |].
  specialize (Hup Hne).
  assert (Q + 1 < (s + 1) * P); [| lia].
  destruct (Z_lt_le_dec (Q + 1) ((s + 1) * P)) as [Hlt | Hge]; [exact Hlt |].
  exfalso. assert (Q = (s + 1) * P - 1) by lia. subst Q. nia.
Qed.


(** The scale: at least 19 bits below [2 ^ 34], and never negative below
    [2 ^ 53]. *)
Lemma binade_lt (n d b : Z) :
  0 < n -> 0 < d -> 0 < b -> n < 2 ^ b * d -> binade n d < b.
Proof.
  intros Hn Hd Hb Hlt. unfold binade.
  destruct (d <=? n) eqn:Hdn.
  - apply Z.leb_le in Hdn.
    assert (0 < n / d) by (apply Z.div_str_pos; lia).
    apply Z.log2_lt_pow2; [assumption |].
    apply Z.div_lt_upper_bound; lia.
  - pose proof (Z.log2_up_nonneg ((d + n - 1) / n)). lia.
Qed.

Lemma int_true_divide_exact (n : Z) :
  0 <= n < exact_below -> int_true_divide n 1000000 = n / 1000000.
Proof.
  intros [Hn Hlt]. unfold exact_below in Hlt.
  destruct (Z.eq_dec n 0) as [-> | Hnz]; [reflexivity |].
  unfold int_true_divide.
  pose proof (binade_lt n 1000000 34 ltac:(lia) ltac:(lia) ltac:(lia) Hlt)
    as Hb.
  set (k := 52 - binade n 1000000) in *.
  assert (Hk : 19 <= k) by lia.
  assert (H0 : (0 <=? k) = true) by (apply Z.leb_le; lia).
  rewrite H0.
  assert (HP : 2 ^ 19 <= 2 ^ k) by (apply Z.pow_le_mono_r; lia).
  change (2 ^ 19) with 524288 in HP.
  apply scaled_round_floor; lia.
Qed.



Lemma int_total_seconds_exact (delta : Z) :
  Z.abs delta < exact_below -> int_total_seconds delta = Z.quot delta 1000000.
Proof.
  intros Hlt. unfold int_total_seconds.
  rewrite int_true_divide_exact by lia.
  rewrite (Z.quot_div delta 1000000) by lia.
  change (Z.sgn 1000000) with 1. change (Z.abs 1000000) with 1000000. lia.
Qed.

Lemma int_total_seconds_nonneg (d : Z) :
  0 <= d < exact_below -> int_total_seconds d = d / 1000000.
Proof.
  intros Hd. rewrite int_total_seconds_exact by lia.
  apply Z.quot_div_nonneg; lia.
Qed.





(** ** Facts on queries *)

Lemma first_filter_none {A} (p : A -> bool) (l : list A) :
  (forall x, In x l -> p x = false) -> first (filter p l) = None.
Proof.
  induction l as [| x r IH]; intros H; simpl; [reflexivity |].
  rewrite (H x (or_introl eq_refl)). apply IH.
  intros y Hy. apply H. now right.
Qed.

Lemma first_filter_some {A} (p : A -> bool) (l : list A) (x : A) :
  In x l -> p x = true ->
  exists y, first (filter p l) = Some y /\ In y l /\ p y = true.
Proof.
  induction l as [| z r IH]; intros Hin Hp; [contradiction |].
  simpl. destruct (p z) eqn:Hz.
  - exists z. simpl. auto.
  - destruct Hin as [-> | Hin]; [congruence |].
    destruct (IH Hin Hp) as (y & Hy & Hiny & Hpy).
    exists y. auto.
Qed.

Lemma first_filter_inv {A} (p : A -> bool) (l : list A) (y : A) :
  first (filter p l) = Some y -> In y l /\ p y = true.
Proof.
  induction l as [| z r IH]; simpl; [discriminate |].
  destruct (p z) eqn:Hz; simpl.
  - intros [= <-]. auto.
  - intros H. destruct (IH H). auto.
Qed.

Lemma first_filter_find {A} (p : A -> bool) (l : list A) :
  first (filter p l) = find p l.
Proof.
  induction l as [| x r IH]; simpl; [reflexivity |].
  destruct (p x); [reflexivity | exact IH].
Qed.

(** Saving the first selected row rewrites it at its place. *)
Lemma save_first_rewritten {A} (p : A -> bool) (e e' : A) (l : list A) :
  find p l = Some e ->
  rewritten_at p e e' l (save_first p (fun _ => e') l) /\ p e = true.
Proof.
  induction l as [| x r IH]; simpl; [discriminate |].
  destruct (p x) eqn:Hx.
  - intros [= ->]. split; [| exact Hx].
    exists [], r. simpl. repeat split. intros y [].
  - intros Hfind.
    destruct (IH Hfind) as [(before & rest & -> & Hsave & Hbefore) He].
    split; [| exact He].
    exists (x :: before), rest. simpl. rewrite Hsave.
    repeat split. intros y [<- | Hy]; auto.
Qed.



Lemma get_issue_found db slug project_id issue_id i :
  get_issue db slug project_id issue_id = Some i ->
  issue_pk i = issue_id /\ issue_project i = project_id
  /\ issue_workspace i = slug.
Proof.
  unfold get_issue. intros H. apply find_some in H as [_ H].
  apply andb_prop in H as [H Hs]. apply andb_prop in H as [Hi Hp].
  apply String.eqb_eq in Hs. apply Z.eqb_eq in Hi, Hp. auto.
Qed.

Lemma timer_query_true issue_id user_id e :
  timer_query issue_id user_id e = true <->
  issue e = issue_id /\ user e = user_id /\ running e = true.
Proof.
  unfold timer_query. rewrite !andb_true_iff, !Z.eqb_eq. tauto.
Qed.

Lemma is_active_running e : is_active e = true -> running e = true.
Proof.
  unfold is_active, running. now intros [H _]%andb_prop.
Qed.

Lemma running_started e :
  running e = true -> exists s, started_at e = Some s /\ ended_at e = None.
Proof.
  unfold running, isNone, isSome.
  destruct (started_at e) as [s |], (ended_at e); simpl; try discriminate.
  intros _. now exists s.
Qed.

Lemma stop_timer_not_running now e : running (stop_timer now e) = false.
Proof. unfold running, isNone. simpl. now rewrite andb_false_r. Qed.

Lemma stop_timer_duration now e s :
  started_at e = Some s ->
  ended_at (stop_timer now e) = Some now
  /\ duration_seconds (stop_timer now e) = elapsed_seconds s now.
Proof. intros H. simpl. now rewrite H. Qed.

(** ** Timer endpoints *)

Lemma is_active_unfold e :
  is_active e = running e && source_eqb (source e) TIMER.
Proof. reflexivity. Qed.

Lemma no_timer_on_issue (db : Db) (U B : Id) :
  (forall e, In e (time_entries db) ->
             user e = U -> issue e = B -> running e = false) ->
  first (filter (timer_query B U) (time_entries db)) = None.
Proof.
  intros Hno. apply first_filter_none. intros e He.
  destruct (timer_query B U e) eqn:Hq; [| reflexivity].
  apply timer_query_true in Hq as (Hi & Hu & Hr).
  rewrite (Hno e He Hu Hi) in Hr. discriminate.
Qed.

Lemma other_timers_query_true B U e :
  user e = U -> issue e <> B -> running e = true ->
  other_timers_query B U e = true.
Proof.
  intros Hu Hi Hr. unfold other_timers_query.
  rewrite Hr. apply Z.eqb_eq in Hu. apply Z.eqb_neq in Hi.
  now rewrite Hu, Hi.
Qed.

Lemma no_active_after_stop (U B : Id) (now : Instant) (l : list TimeEntry) :
  (forall e, In e l -> user e = U -> issue e = B -> running e = false) ->
  filter (fun e => (user e =? U) && is_active e)
         (map (fun t => if other_timers_query B U t
                        then stop_timer now t else t) l) = [].
Proof.
  induction l as [| x r IH]; intros Hno; [reflexivity |].
  simpl.
  assert (Hx : ((user (if other_timers_query B U x
                       then stop_timer now x else x) =? U)
                && is_active (if other_timers_query B U x
                              then stop_timer now x else x)) = false).
  { destruct (other_timers_query B U x) eqn:Hq.
    - rewrite is_active_unfold, stop_timer_not_running.
      now rewrite andb_false_r.
    - unfold other_timers_query in Hq.
      destruct (user x =? U) eqn:Hu; [| reflexivity].
      rewrite is_active_unfold.
      destruct (running x) eqn:Hr; [| reflexivity].
      simpl in Hq. apply negb_false_iff in Hq.
      apply Z.eqb_eq in Hu, Hq.
      rewrite (Hno x (or_introl eq_refl) Hu Hq) in Hr. discriminate. }
  rewrite Hx. apply IH. intros e He. apply Hno. now right.
Qed.

(** Start and stop answer FeatureDisabled before they look at anything
    else, and leave the store alone. *)
Lemma post_feature_disabled db u n b slug p i now uuid :
  _check_time_tracking_enabled db p = Some FeatureDisabled ->
  TimeEntryTimerEndpoint_post db u n b slug p i now uuid
  = (FeatureDisabled, db).
Proof.
  intros H. unfold TimeEntryTimerEndpoint_post. now rewrite H.
Qed.

Lemma delete_feature_disabled db u slug p i now :
  _check_time_tracking_enabled db p = Some FeatureDisabled ->
  TimeEntryTimerEndpoint_delete db u slug p i now = (FeatureDisabled, db).
Proof.
  intros H. unfold TimeEntryTimerEndpoint_delete. now rewrite H.
Qed.

(** A start that passes the three checks: the rows of the user that run on
    other issues are stopped and the new row is put in front. *)
Lemma post_starts (db : Db) (U : Id) (request_note : option string)
    (request_is_billable : option bool) (slug : Slug) (P B : Id)
    (now : Instant) (uuid : Id) :
  _check_time_tracking_enabled db P = None ->
  get_issue db slug P B <> None ->
  (forall e, In e (time_entries db) ->
             user e = U -> issue e = B -> running e = false) ->
  exists new db',
    TimeEntryTimerEndpoint_post db U request_note request_is_billable
      slug P B now uuid
    = (mkResponse (EntryData (to_representation new)) HTTP_201_CREATED, db')
    /\ time_entries db'
       = new :: map (fun t => if other_timers_query B U t
                              then stop_timer now t else t) (time_entries db)
    /\ issue new = B /\ user new = U /\ source new = TIMER
    /\ started_at new = Some now /\ ended_at new = None
    /\ duration_seconds new = 0.
Proof.
  intros Hcheck Hissue Hno.
  unfold TimeEntryTimerEndpoint_post. rewrite Hcheck.
  destruct (get_issue db slug P B) as [issue_row |] eqn:Hget;
    [| congruence].
  apply get_issue_found in Hget as (Hpk & _ & _).
  rewrite (no_timer_on_issue db U B Hno).
  eexists. eexists. split; [reflexivity |].
  split; [reflexivity |].
  repeat (split; [solve [reflexivity | exact Hpk] |]). reflexivity.
Qed.

Lemma stopped_row_in_map (U B : Id) (now : Instant) (e : TimeEntry)
    (l : list TimeEntry) :
  In e l -> user e = U -> issue e <> B -> running e = true ->
  In (stop_timer now e)
     (map (fun t => if other_timers_query B U t
                    then stop_timer now t else t) l).
Proof.
  intros Hin Hu Hi Hr. apply in_map_iff. exists e. split; [| exact Hin].
  now rewrite other_timers_query_true.
Qed.

(** A start on an issue that holds no entry of the user with a start and
    no end, with time tracking on and the issue found: when user U has an
    active timer entry on another issue A, the start succeeds with 201;
    every open entry of U on another issue, the one on A among them, gets
    [ended_at = now] and [duration_seconds = elapsed_seconds(started_at,
    now)]; a new entry on B is created with source TIMER,
    [started_at = now], [duration_seconds = 0]; and afterwards the only
    active entry of U is the new one. *)
Lemma start_stops_timer_on_other_issue
    (db : Db) (U : Id) (request_note : option string)
    (request_is_billable : option bool) (slug : Slug) (P A B : Id)
    (now : Instant) (uuid : Id) (eA : TimeEntry) :
  _check_time_tracking_enabled db P = None ->
  get_issue db slug P B <> None ->
  In eA (time_entries db) -> user eA = U -> issue eA = A ->
  is_active eA = true ->
  A <> B ->
  (forall e, In e (time_entries db) ->
             user e = U -> issue e = B -> running e = false) ->
  exists new db',
    TimeEntryTimerEndpoint_post db U request_note request_is_billable
      slug P B now uuid
    = (mkResponse (EntryData (to_representation new)) HTTP_201_CREATED, db')
    /\ time_entries db'
       = new :: map (fun t => if other_timers_query B U t
                              then stop_timer now t else t) (time_entries db)
    /\ issue new = B /\ user new = U /\ source new = TIMER
    /\ started_at new = Some now /\ ended_at new = None
    /\ duration_seconds new = 0
    /\ (exists s, started_at eA = Some s
                  /\ In (stop_timer now eA) (time_entries db')
                  /\ ended_at (stop_timer now eA) = Some now
                  /\ duration_seconds (stop_timer now eA)
                     = elapsed_seconds s now)
    /\ active_entries U db' = [new].
Proof.
  intros Hcheck Hissue Hin Hu Hi Hact Hne Hno.
  destruct (post_starts db U request_note request_is_billable slug P B
              now uuid Hcheck Hissue Hno)
    as (new & db' & Hpost & Hrows & Hnew).
  pose proof (is_active_running _ Hact) as Hrun.
  destruct (running_started _ Hrun) as (s & Hs & _).
  exists new, db'. split; [exact Hpost |]. split; [exact Hrows |].
  destruct Hnew as (Hni & Hnu & Hnsrc & Hnst & Hnen & Hnd).
  repeat (split; [assumption |]).
  split.
  - exists s. split; [exact Hs |]. split.
    + rewrite Hrows. right.
      apply stopped_row_in_map; auto. congruence.
    + now apply stop_timer_duration.
  - unfold active_entries. rewrite Hrows. simpl.
    rewrite Hnu, Z.eqb_refl, is_active_unfold.
    unfold running. rewrite Hnst, Hnen, Hnsrc. simpl.
    now rewrite no_active_after_stop.
Qed.

Lemma start_stops_timer_on_other_issue_example :
  exists new db',
    TimeEntryTimerEndpoint_post Sample.db_timer_A 7 None None
      Sample.acme 1 11 Sample.t_11_30 101
    = (mkResponse (EntryData (to_representation new)) HTTP_201_CREATED, db')
    /\ issue new = 11 /\ active_entries 7 db' = [new].
Proof.
  destruct (start_stops_timer_on_other_issue Sample.db_timer_A 7 None None
              Sample.acme 1 10 11 Sample.t_11_30 101
              Sample.timer_A)
    as (new & db' & Hpost & _ & Hissue & _ & _ & _ & _ & _ & _ & Hactive).
  - reflexivity.
  - discriminate.
  - simpl. left. reflexivity.
  - reflexivity.
  - reflexivity.
  - reflexivity.
  - discriminate.
  - simpl. intros e [<- | []]. discriminate.
  - exists new, db'. auto.
Defined.

(** C1, where the code departs from it.  Alice has an active timer on
    issue 10 and no active timer on issue 11, on which she has logged a
    manual entry with a start and no end (the serializer reports it with
    [is_active = false]).  The query with which the start looks for "an
    active timer on this issue" leaves the source out, where
    [to_representation] tests it: the manual entry is selected, the start
    on issue 11 answers "You already have an active timer on this issue",
    nothing is created, and the timer of issue 10 keeps running. *)
Theorem start_blocked_by_open_manual_entry :
  exists eA eB,
    time_entries Sample.db_timer_A_manual_B = [eB; eA]
    /\ user eA = 7 /\ issue eA = 10 /\ is_active eA = true
    /\ user eB = 7 /\ issue eB = 11 /\ source eB = MANUAL
    /\ repr_is_active (to_representation eB) = false
    /\ filter (fun e => (issue e =? 11) && (user e =? 7) && is_active e)
              (time_entries Sample.db_timer_A_manual_B) = []
    /\ timer_query 11 7 eB = true
    /\ _check_time_tracking_enabled Sample.db_timer_A_manual_B 1 = None
    /\ get_issue Sample.db_timer_A_manual_B Sample.acme 1 11
       = Some Sample.issue_B
    /\ TimeEntryTimerEndpoint_post Sample.db_timer_A_manual_B 7 None None
         Sample.acme 1 11 Sample.t_12_00 102
       = (mkResponse
            (ErrorData "You already have an active timer on this issue")
            HTTP_400_BAD_REQUEST,
          Sample.db_timer_A_manual_B)
    /\ active_entries 7
         (snd (TimeEntryTimerEndpoint_post Sample.db_timer_A_manual_B 7
                 None None Sample.acme 1 11 Sample.t_12_00 102))
       = [eA].
Proof.
  eexists. eexists. split; [reflexivity |].
  repeat split.
Qed.

(** C4: when user U already has an active entry on issue A, starting a
    timer for U on A returns the store as it was, nothing created and
    nothing modified; and with time tracking on and the issue found, the
    answer is Conflict, status 400. *)
Theorem start_on_same_issue_conflicts
    (db : Db) (U : Id) (request_note : option string)
    (request_is_billable : option bool) (slug : Slug) (P A : Id)
    (now : Instant) (uuid : Id) (e : TimeEntry) :
  In e (time_entries db) -> user e = U -> issue e = A ->
  is_active e = true ->
  snd (TimeEntryTimerEndpoint_post db U request_note request_is_billable
         slug P A now uuid) = db
  /\ (_check_time_tracking_enabled db P = None ->
      get_issue db slug P A <> None ->
      TimeEntryTimerEndpoint_post db U request_note request_is_billable
        slug P A now uuid = (Conflict, db)
      /\ status Conflict = HTTP_400_BAD_REQUEST).
Proof.
  intros Hin Hu Hi Hact.
  destruct (first_filter_some (timer_query A U) (time_entries db) e Hin)
    as (y & Hy & _).
  { apply timer_query_true. auto using is_active_running. }
  unfold TimeEntryTimerEndpoint_post. rewrite Hy. split.
  - destruct (_check_time_tracking_enabled db P); [reflexivity |].
    destruct (get_issue db slug P A); reflexivity.
  - intros Hcheck Hissue. rewrite Hcheck.
    destruct (get_issue db slug P A); [| congruence]. auto.
Qed.

Lemma start_on_same_issue_conflicts_witness :
  TimeEntryTimerEndpoint_post Sample.db_timer_A 7 None None
    Sample.acme 1 10 Sample.t_11_30 101 = (Conflict, Sample.db_timer_A)
  /\ status Conflict = HTTP_400_BAD_REQUEST.
Proof.
  destruct (start_on_same_issue_conflicts Sample.db_timer_A 7 None None
              Sample.acme 1 10 Sample.t_11_30 101 Sample.timer_A)
    as [_ Hconflict].
  - simpl. left. reflexivity.
  - reflexivity.
  - reflexivity.
  - reflexivity.
  - apply Hconflict; [reflexivity | discriminate].
Defined.

(** C3, what the code does: the project of issue 20 has time tracking
    switched off, so the check answers FeatureDisabled and start and stop
    answer 403; the active-timer endpoint has no such check and answers 200
    with the running entry. *)
Theorem active_timer_endpoint_skips_feature_check :
  _check_time_tracking_enabled Sample.db_untracked 2 = Some FeatureDisabled
  /\ TimeEntryTimerEndpoint_post Sample.db_untracked 7 None None
       Sample.acme 2 20 Sample.t_11_30 401
     = (FeatureDisabled, Sample.db_untracked)
  /\ TimeEntryTimerEndpoint_delete Sample.db_untracked 7
       Sample.acme 2 20 Sample.t_11_30
     = (FeatureDisabled, Sample.db_untracked)
  /\ TimeEntryActiveTimerEndpoint_get Sample.db_untracked 7 Sample.acme 2 20
     = (mkResponse
          (ActiveTimerData (Some (to_representation Sample.running_on_C)))
          HTTP_200_OK,
        Sample.db_untracked)
  /\ forall db u slug p i,
       status (fst (TimeEntryActiveTimerEndpoint_get db u slug p i))
       = HTTP_200_OK.
Proof.
  repeat split.
  intros db u slug p i. unfold TimeEntryActiveTimerEndpoint_get.
  now destruct (first _).
Qed.




(** ** Validators *)




Lemma update_fields_inv p d :
  TimeEntryUpdateSerializer_fields p = inr d ->
  d = p
  /\ match u_duration_seconds p with
     | Some x => 0 <= x <= integer_field_max
     | None => True
     end.
Proof.
  unfold TimeEntryUpdateSerializer_fields.
  destruct (u_duration_seconds p) as [x |].
  - destruct (integer_field_max <? x) eqn:Hmax; [discriminate |].
    destruct (x <? 0) eqn:Hx; [discriminate |].
    apply Z.ltb_ge in Hmax, Hx. intros [= <-]. auto.
  - intros [= <-]. auto.
Qed.

Lemma update_fields_accepts p :
  match u_duration_seconds p with
  | Some x => 0 <= x <= integer_field_max
  | None => True
  end ->
  TimeEntryUpdateSerializer_fields p = inr p.
Proof.
  unfold TimeEntryUpdateSerializer_fields.
  destruct (u_duration_seconds p) as [x |]; [| reflexivity].
  intros [Hlo Hhi].
  assert (Hmax : (integer_field_max <? x) = false) by (apply Z.ltb_ge; lia).
  assert (Hx : (x <? 0) = false) by (apply Z.ltb_ge; lia).
  now rewrite Hmax, Hx.
Qed.


(** ** The invariant [duration_seconds >= 0] *)









(** ** Creation and update *)

(** C2 (as amended): a MANUAL entry whose data has no [duration_seconds]
    (or zero) is rejected, whatever its [started_at] and [ended_at]: the
    full validator raises on [duration_seconds] and the create endpoint
    answers 400 and stores nothing.  The derivation applies to a TIMER
    entry: with [started_at <= ended_at] and no [duration_seconds] the full
    validator accepts and the created row has
    [duration_seconds = elapsed_seconds(started_at, ended_at)], which for
    2024-01-01T10:00:00 and 2024-01-01T11:30:00 is 5400. *)
Theorem manual_needs_duration_and_timer_range_derives :
  (forall d,
     get_or (a_source d) MANUAL = MANUAL ->
     get_or (a_duration_seconds d) 0 = 0 ->
     TimeEntrySerializer_validate d
     = inl (FieldError "duration_seconds"
              "Duration in seconds is required for manual entries"))
  /\ (forall handle_exception db u p slug project_id issue_id now uuid,
        get_or (c_source p) MANUAL = MANUAL ->
        get_or (c_duration_seconds p) 0 = 0 ->
        _check_time_tracking_enabled db project_id = None ->
        get_issue db slug project_id issue_id <> None ->
        exists err,
          TimeEntryViewSet_create handle_exception db u p slug project_id
            issue_id now uuid
          = (BadRequest err, db))
  /\ (forall d s t u now uuid,
        a_source d = Some TIMER ->
        a_started_at d = Some s -> a_ended_at d = Some t -> s <= t ->
        get_or (a_duration_seconds d) 0 = 0 ->
        exists v,
          TimeEntrySerializer_validate d = inr v
          /\ duration_seconds (TimeEntrySerializer_create u v now uuid)
             = elapsed_seconds s t
          /\ source (TimeEntrySerializer_create u v now uuid) = TIMER
          /\ started_at (TimeEntrySerializer_create u v now uuid) = Some s
          /\ ended_at (TimeEntrySerializer_create u v now uuid) = Some t)
  /\ elapsed_seconds Sample.t_10_00 Sample.t_11_30 = 5400.
Proof.
  split; [| split; [| split]].
  - intros d Hsrc Hdur. unfold TimeEntrySerializer_validate.
    now rewrite Hsrc, Hdur.
  - intros handle_exception db u p slug project_id issue_id now uuid
      Hsrc Hdur Hcheck Hissue.
    unfold TimeEntryViewSet_create. rewrite Hcheck.
    destruct (get_issue db slug project_id issue_id); [| congruence].
    unfold TimeEntryCreateSerializer_is_valid,
      TimeEntryCreateSerializer_fields.
    destruct (c_issue_id p); [| eexists; reflexivity].
    destruct (c_duration_seconds p) as [x |] eqn:Hx.
    + simpl in Hdur. subst x. simpl.
      unfold TimeEntryCreateSerializer_validate. simpl.
      rewrite Hsrc. eexists; reflexivity.
    + simpl. unfold TimeEntryCreateSerializer_validate. simpl.
      rewrite Hsrc. eexists; reflexivity.
  - intros d s t u now uuid Hsrc Hs Ht Hle Hdur.
    unfold TimeEntrySerializer_validate.
    rewrite Hsrc, Hs, Ht, Hdur. simpl.
    assert (Hgt : (s >? t) = false) by (rewrite Z.gtb_ltb; apply Z.ltb_ge; lia).
    rewrite Hgt. eexists. split; [reflexivity |].
    simpl. now rewrite Hsrc, Hs, Ht.
  - reflexivity.
Qed.

Lemma manual_needs_duration_and_timer_range_derives_witness :
  exists v,
    TimeEntrySerializer_validate (Sample.attrs_range (Some TIMER)) = inr v
    /\ duration_seconds
         (TimeEntrySerializer_create 7 v Sample.t_12_00 500) = 5400.
Proof.
  destruct manual_needs_duration_and_timer_range_derives
    as (_ & _ & Hderive & Hvalue).
  destruct (Hderive (Sample.attrs_range (Some TIMER))
                    Sample.t_10_00 Sample.t_11_30 7 Sample.t_12_00 500)
    as (v & Hv & Hd & _); try reflexivity.
  - unfold Sample.t_10_00, Sample.t_11_30, of_seconds. lia.
  - exists v. split; [exact Hv |]. now rewrite Hd.
Defined.

(** C2, the claim as stated fails: a MANUAL entry for 10:00:00 - 11:30:00
    without [duration_seconds] does not yield 5400; the full validator
    raises and the create endpoint answers 400, the table staying empty. *)
Lemma manual_range_without_duration_rejected :
  c_source Sample.manual_range = Some MANUAL
  /\ c_started_at Sample.manual_range = Some Sample.t_10_00
  /\ c_ended_at Sample.manual_range = Some Sample.t_11_30
  /\ Sample.t_10_00 <= Sample.t_11_30
  /\ c_duration_seconds Sample.manual_range = None
  /\ TimeEntryViewSet_create Sample.server_error Sample.empty_db 7
       Sample.manual_range Sample.acme 1 10 Sample.t_12_00 500
     = (BadRequest
          (NonFieldError "duration_seconds is required for manual entries"),
        Sample.empty_db)
  /\ TimeEntrySerializer_validate (Sample.attrs_range (Some MANUAL))
     = inl (FieldError "duration_seconds"
              "Duration in seconds is required for manual entries")
  /\ TimeEntrySerializer_validate (Sample.attrs_range None)
     = inl (FieldError "duration_seconds"
              "Duration in seconds is required for manual entries").
Proof.
  repeat split. discriminate.
Qed.

Lemma find_rewritten {A} (p : A -> bool) (e e' : A) (l l' : list A) :
  rewritten_at p e e' l l' -> p e' = true -> find p l' = Some e'.
Proof.
  intros (before & rest & _ & -> & Hbefore) He'.
  induction before as [| x before IH]; simpl.
  - now rewrite He'.
  - rewrite (Hbefore x (or_introl eq_refl)). apply IH.
    intros y Hy. apply Hbefore. now right.
Qed.

(** C8 (as amended): with time tracking on, for an existing entry with
    [started_at <= ended_at] both set, an update by its owner or by a
    project admin whose body leaves [started_at] and [ended_at] as they are
    and carries an explicit positive [duration_seconds], not above the
    2147483647 of the column, answers 200 and stores exactly that
    [duration_seconds], whatever [ended_at - started_at] is: the row is
    rewritten at its place in the table, it is the row that the route then
    finds, and its range and identity are as before. *)
Theorem update_keeps_supplied_duration
    (db : Db) (U : Id) (p : UpdatePayload) (slug : Slug) (P A pk : Id)
    (e : TimeEntry) (s t d : Z) :
  _check_time_tracking_enabled db P = None ->
  find (fun x => in_queryset slug P A x && (id x =? pk)) (time_entries db)
  = Some e ->
  user e = U \/ is_admin db P U = true ->
  started_at e = Some s -> ended_at e = Some t -> s <= t ->
  u_started_at p = None \/ u_started_at p = Some (Some s) ->
  u_ended_at p = None \/ u_ended_at p = Some (Some t) ->
  u_duration_seconds p = Some d -> 0 < d <= integer_field_max ->
  exists saved db',
    TimeEntryViewSet_partial_update db U p slug P A pk
    = (mkResponse (EntryData (to_representation saved)) HTTP_200_OK, db')
    /\ rewritten_at (fun x => in_queryset slug P A x && (id x =? pk))
         e saved (time_entries db) (time_entries db')
    /\ find (fun x => in_queryset slug P A x && (id x =? pk))
            (time_entries db') = Some saved
    /\ same_but_time_entries db db'
    /\ duration_seconds saved = d
    /\ started_at saved = Some s /\ ended_at saved = Some t
    /\ identity saved = identity e.
Proof.
  intros Hcheck Hfind Hperm Hs Ht Hle Hps Hpe Hd Hpos.
  unfold TimeEntryViewSet_partial_update. rewrite Hcheck, Hfind.
  assert (Hallowed : negb (user e =? U) && negb (is_admin db P U) = false).
  { destruct Hperm as [Hu | Ha].
    - apply Z.eqb_eq in Hu. now rewrite Hu.
    - rewrite Ha. apply andb_false_r. }
  rewrite Hallowed.
  assert (Hgt : (s >? t) = false) by (rewrite Z.gtb_ltb; apply Z.ltb_ge; lia).
  assert (Hvalid : TimeEntryUpdateSerializer_is_valid e p = inr p).
  { unfold TimeEntryUpdateSerializer_is_valid.
    rewrite update_fields_accepts by (rewrite Hd; lia).
    unfold TimeEntryUpdateSerializer_validate.
    rewrite Hs, Ht, Hd.
    assert (Hst : or_else (get_nullable (u_started_at p)) (Some s) = Some s)
      by (destruct Hps as [-> | ->]; reflexivity).
    assert (Hen : or_else (get_nullable (u_ended_at p)) (Some t) = Some t)
      by (destruct Hpe as [-> | ->]; reflexivity).
    rewrite Hst, Hen, Hgt. destruct d; [lia | reflexivity | lia]. }
  rewrite Hvalid.
  set (saved := TimeEntryUpdateSerializer_save e p).
  destruct (save_first_rewritten
              (fun x => in_queryset slug P A x && (id x =? pk))
              e saved (time_entries db) Hfind) as [Hrow Hsel].
  exists saved. eexists. split; [reflexivity |].
  split; [exact Hrow |]. split.
  { apply (find_rewritten _ e saved (time_entries db)); [exact Hrow |].
    exact Hsel. }
  split; [repeat split |].
  unfold saved. simpl. rewrite Hd, Hs, Ht. simpl.
  split; [reflexivity |].
  split; [destruct Hps as [-> | ->]; reflexivity |].
  split; [destruct Hpe as [-> | ->]; reflexivity | reflexivity].
Qed.

Lemma update_keeps_supplied_duration_witness :
  exists saved db',
    TimeEntryViewSet_partial_update Sample.db_ranged 7
      (Sample.only_duration 1200) Sample.acme 1 10 301
    = (mkResponse (EntryData (to_representation saved)) HTTP_200_OK, db')
    /\ find (fun x => in_queryset Sample.acme 1 10 x && (id x =? 301))
            (time_entries db') = Some saved
    /\ duration_seconds saved = 1200
    /\ elapsed_seconds Sample.t_10_00 Sample.t_11_30 = 5400.
Proof.
  destruct (update_keeps_supplied_duration Sample.db_ranged 7
              (Sample.only_duration 1200) Sample.acme 1 10 301
              Sample.ranged_row
              Sample.t_10_00 Sample.t_11_30 1200)
    as (saved & db' & Hupd & _ & Hfound & _ & Hd & _).
  - reflexivity.
  - reflexivity.
  - left. reflexivity.
  - reflexivity.
  - reflexivity.
  - unfold Sample.t_10_00, Sample.t_11_30, of_seconds. lia.
  - left. reflexivity.
  - left. reflexivity.
  - reflexivity.
  - unfold integer_field_max. lia.
  - exists saved, db'. auto.
Defined.

(** C8, the claim as stated fails: the entry of 10:00 - 11:30 holds 600
    seconds; an update by its owner with only [duration_seconds =
    2147483648], a positive number, is refused by the field of the
    serializer, which has the range of the column: the answer is 400 and
    the row keeps its 600 seconds. *)
Lemma update_above_column_range_rejected :
  exists e,
    time_entries Sample.db_ranged = [e]
    /\ started_at e = Some Sample.t_10_00
    /\ ended_at e = Some Sample.t_11_30
    /\ duration_seconds e = 600 /\ user e = 7
    /\ u_started_at (Sample.only_duration 2147483648) = None
    /\ u_ended_at (Sample.only_duration 2147483648) = None
    /\ u_duration_seconds (Sample.only_duration 2147483648)
       = Some 2147483648
    /\ 0 < 2147483648
    /\ TimeEntryViewSet_partial_update Sample.db_ranged 7
         (Sample.only_duration 2147483648) Sample.acme 1 10 301
       = (BadRequest
            (FieldError "duration_seconds"
               "Ensure this value is less than or equal to 2147483647."),
          Sample.db_ranged).
Proof.
  eexists. split; [reflexivity |]. repeat split.
Qed.

(** The create endpoint does not compare [started_at] with [ended_at]:
    it stores a manual entry whose [ended_at] lies before its
    [started_at].  The update validator does compare them, on the merged
    range, so an update of that entry with only [duration_seconds = 1200]
    answers 400 and the row keeps its 600 seconds. *)
Lemma update_rejected_when_range_is_backwards :
  exists e,
    time_entries Sample.db_backwards = [e]
    /\ started_at e = Some Sample.t_11_30
    /\ ended_at e = Some Sample.t_10_00
    /\ duration_seconds e = 600 /\ user e = 7
    /\ TimeEntryViewSet_partial_update Sample.db_backwards 7
         (Sample.only_duration 1200) Sample.acme 1 10 300
       = (BadRequest (NonFieldError "Started at cannot be after ended at"),
          Sample.db_backwards).
Proof.
  eexists. split; [reflexivity |]. repeat split.
Qed.

(** C9: the issue-scoped create endpoint overwrites the source with MANUAL
    after validation.  With time tracking on and the issue of the route
    found, a body with [source = TIMER], the [issue_id] of an existing
    issue and no [duration_seconds] is accepted, its [started_at]
    defaulting to now when absent, and a row is added to the table, at its
    head, with [source = MANUAL] and [duration_seconds = 0], against the
    rule that a MANUAL entry has [duration_seconds > 0] at creation. *)
Theorem create_stores_manual_with_zero_duration
    (handle_exception : DatabaseError -> Response)
    (db : Db) (U : Id) (p : CreatePayload) (slug : Slug) (P A I : Id)
    (now : Instant) (uuid : Id) :
  _check_time_tracking_enabled db P = None ->
  get_issue db slug P A <> None ->
  c_issue_id p = Some I ->
  (exists i, In i (issues db) /\ issue_pk i = I) ->
  c_source p = Some TIMER ->
  c_duration_seconds p = None ->
  exists e db',
    TimeEntryViewSet_create handle_exception db U p slug P A now uuid
    = (mkResponse (EntryData (to_representation e)) HTTP_201_CREATED, db')
    /\ time_entries db' = e :: time_entries db
    /\ same_but_time_entries db db'
    /\ source e = MANUAL /\ duration_seconds e = 0
    /\ id e = uuid /\ issue e = I /\ user e = U
    /\ (c_started_at p = None -> started_at e = Some now)
    /\ ~ manual_rule e.
Proof.
  intros Hcheck Hissue Hid (i & Hi & Hpk) Hsrc Hdur.
  unfold TimeEntryViewSet_create. rewrite Hcheck.
  destruct (get_issue db slug P A) as [issue_row |]; [| congruence].
  unfold TimeEntryCreateSerializer_is_valid, TimeEntryCreateSerializer_fields.
  rewrite Hid, Hdur, Hsrc. simpl.
  unfold TimeEntryCreateSerializer_validate. simpl.
  assert (Hfk : existsb (fun i => issue_pk i =? I) (issues db) = true).
  { apply existsb_exists. exists i. split; [exact Hi |].
    now apply Z.eqb_eq. }
  destruct (c_started_at p) as [s |] eqn:Hs;
    unfold insert_error; simpl; rewrite Hfk;
    eexists; eexists; (split; [reflexivity |]); simpl;
    repeat split; try discriminate;
    unfold manual_rule; simpl; intros H; specialize (H eq_refl); lia.
Qed.

Lemma create_stores_manual_with_zero_duration_witness :
  exists e db',
    TimeEntryViewSet_create Sample.server_error Sample.empty_db 7
      Sample.timer_body Sample.acme 1 10 Sample.t_10_00 600
    = (mkResponse (EntryData (to_representation e)) HTTP_201_CREATED, db')
    /\ time_entries db' = [e]
    /\ source e = MANUAL /\ duration_seconds e = 0
    /\ started_at e = Some Sample.t_10_00.
Proof.
  destruct (create_stores_manual_with_zero_duration Sample.server_error
              Sample.empty_db 7
              Sample.timer_body Sample.acme 1 10 10 Sample.t_10_00 600)
    as (e & db' & Hcreate & Hrows & _ & Hsrc & Hd & _ & _ & _ & Hst & _);
    try discriminate; try reflexivity.
  - exists Sample.issue_A. split; [simpl; auto | reflexivity].
  - exists e, db'. repeat split; auto.
Defined.

(** ** Grouping and sorting *)

Section GroupFacts.

Context {K L : Type} (eqb : K -> K -> bool).
Hypothesis eqb_eq : forall a b, eqb a b = true <-> a = b.

Lemma accumulate_where (p : K -> bool) k (l : L) seconds n acc :
  total_where p (accumulate eqb k l seconds n acc)
  = total_where p acc + (if p k then seconds else 0)
  /\ count_where p (accumulate eqb k l seconds n acc)
     = count_where p acc + (if p k then n else 0).
Proof.
  induction acc as [| g rest [IHt IHc]]; simpl.
  - destruct (p k); lia.
  - destruct (eqb k (g_key g)) eqn:Hk; simpl.
    + apply eqb_eq in Hk. subst k. destruct (p (g_key g)); lia.
    + rewrite IHt, IHc. destruct (p (g_key g)); lia.
Qed.

Lemma accumulate_keys k (l : L) seconds n acc k' :
  In k' (map g_key (accumulate eqb k l seconds n acc))
  <-> k' = k \/ In k' (map g_key acc).
Proof.
  induction acc as [| g rest IH]; simpl.
  - intuition.
  - destruct (eqb k (g_key g)) eqn:Hk; simpl.
    + apply eqb_eq in Hk. subst k. intuition.
    + rewrite IH. intuition.
Qed.

Lemma accumulate_NoDup k (l : L) seconds n acc :
  NoDup (map g_key acc) ->
  NoDup (map g_key (accumulate eqb k l seconds n acc)).
Proof.
  induction acc as [| g rest IH]; simpl; intros Hnd.
  - constructor; [intros [] | constructor].
  - inversion Hnd as [| ? ? Hnotin Hrest]; subst.
    destruct (eqb k (g_key g)) eqn:Hk; simpl.
    + constructor; assumption.
    + constructor; [| now apply IH].
      rewrite accumulate_keys. intros [Heq | Hin]; [| contradiction].
      assert (eqb k (g_key g) = true) by (apply eqb_eq; auto).
      congruence.
Qed.

Section Annotate.

Variables (key : TimeEntry -> K) (label : TimeEntry -> L).

Lemma fold_accumulate_where (p : K -> bool) qs acc :
  total_where p (fold_left (annotate_step eqb key label) qs acc)
  = total_where p acc + sum_seconds (filter (fun e => p (key e)) qs)
  /\ count_where p (fold_left (annotate_step eqb key label) qs acc)
     = count_where p acc + count (filter (fun e => p (key e)) qs).
Proof.
  revert acc. induction qs as [| e qs IH]; intros acc; simpl.
  - unfold count. simpl. lia.
  - destruct (IH (annotate_step eqb key label acc e)) as [IHt IHc]. rewrite IHt, IHc.
    unfold annotate_step.
    destruct (accumulate_where p (key e) (label e) (duration_seconds e) 1 acc)
      as [Ht Hc].
    rewrite Ht, Hc. unfold count.
    destruct (p (key e)); simpl; lia.
Qed.

Lemma fold_accumulate_keys qs acc k :
  In k (map g_key (fold_left (annotate_step eqb key label) qs acc))
  <-> In k (map g_key acc) \/ exists e, In e qs /\ key e = k.
Proof.
  revert acc. induction qs as [| e qs IH]; intros acc; simpl.
  - split; [auto | intros [H | (e & [] & _)]; exact H].
  - rewrite IH. unfold annotate_step. rewrite accumulate_keys. split.
    + intros [[-> | H] | (x & Hx & Hk)]; eauto.
    + intros [H | (x & [-> | Hx] & Hk)]; eauto.
Qed.

Lemma fold_accumulate_NoDup qs acc :
  NoDup (map g_key acc) -> NoDup (map g_key (fold_left (annotate_step eqb key label) qs acc)).
Proof.
  revert acc. induction qs as [| e qs IH]; intros acc Hnd; simpl.
  - exact Hnd.
  - apply IH. unfold annotate_step. now apply accumulate_NoDup.
Qed.

Lemma collect_groups_where (p : K -> bool) qs :
  total_where p (collect_groups eqb key label qs)
  = sum_seconds (filter (fun e => p (key e)) qs)
  /\ count_where p (collect_groups eqb key label qs)
     = count (filter (fun e => p (key e)) qs).
Proof.
  unfold collect_groups.
  destruct (fold_accumulate_where p qs []) as [Ht Hc].
  rewrite Ht, Hc. simpl. lia.
Qed.

Lemma collect_groups_keys qs k :
  In k (map g_key (collect_groups eqb key label qs))
  <-> exists e, In e qs /\ key e = k.
Proof.
  unfold collect_groups. rewrite fold_accumulate_keys.
  simpl. tauto.
Qed.

Lemma collect_groups_NoDup qs :
  NoDup (map g_key (collect_groups eqb key label qs)).
Proof.
  unfold collect_groups.
  apply fold_accumulate_NoDup. constructor.
Qed.

End Annotate.

Lemma where_no_key (p : K -> bool) (gs : list (Group K L)) :
  (forall g, In g gs -> p (g_key g) = false) ->
  total_where p gs = 0 /\ count_where p gs = 0.
Proof.
  induction gs as [| g rest IH]; intros H; simpl; [auto |].
  rewrite (H g (or_introl eq_refl)). apply IH.
  intros x Hx. apply H. now right.
Qed.

(** With distinct keys, the aggregates of a group are the aggregates of its
    key. *)
Lemma group_where (gs : list (Group K L)) g :
  NoDup (map g_key gs) -> In g gs ->
  total_where (eqb (g_key g)) gs = g_total g
  /\ count_where (eqb (g_key g)) gs = g_count g.
Proof.
  induction gs as [| x rest IH]; intros Hnd Hin; [contradiction |].
  inversion Hnd as [| ? ? Hnotin Hrest]; subst. simpl.
  destruct Hin as [-> | Hin].
  - assert (Hrefl : eqb (g_key g) (g_key g) = true) by now apply eqb_eq.
    rewrite Hrefl.
    destruct (where_no_key (eqb (g_key g)) rest) as [Ht Hc].
    + intros y Hy. destruct (eqb (g_key g) (g_key y)) eqn:Hk; [| reflexivity].
      apply eqb_eq in Hk. exfalso. apply Hnotin. rewrite Hk.
      now apply in_map.
    + rewrite Ht, Hc. lia.
  - destruct (eqb (g_key g) (g_key x)) eqn:Hk.
    + apply eqb_eq in Hk. exfalso. apply Hnotin. rewrite <- Hk.
      now apply in_map.
    + now apply IH.
Qed.

Lemma where_Permutation (p : K -> bool) (gs gs' : list (Group K L)) :
  Permutation gs gs' ->
  total_where p gs = total_where p gs'
  /\ count_where p gs = count_where p gs'.
Proof.
  induction 1 as [| x l l' _ [IHt IHc] | x y l
                  | l l' l'' _ [IH1t IH1c] _ [IH2t IH2c]]; simpl.
  - auto.
  - rewrite IHt, IHc. auto.
  - destruct (p (g_key x)), (p (g_key y)); split; lia.
  - split; congruence.
Qed.

(** The groups as the database lists them: the same groups. *)
Section Listed.

Variable database : RowOrder.
Variables (key : TimeEntry -> K) (label : TimeEntry -> L).

Lemma values_annotate_where (p : K -> bool) qs :
  total_where p (values_annotate database eqb key label qs)
  = sum_seconds (filter (fun e => p (key e)) qs)
  /\ count_where p (values_annotate database eqb key label qs)
     = count (filter (fun e => p (key e)) qs).
Proof.
  unfold values_annotate.
  destruct (where_Permutation p _ _
              (arrange_Permutation database _
                 (collect_groups eqb key label qs))) as [Ht Hc].
  rewrite Ht, Hc. apply collect_groups_where.
Qed.

Lemma values_annotate_keys qs k :
  In k (map g_key (values_annotate database eqb key label qs))
  <-> exists e, In e qs /\ key e = k.
Proof.
  unfold values_annotate. rewrite <- (collect_groups_keys key label qs k).
  pose proof (Permutation_map g_key
                (arrange_Permutation database _
                   (collect_groups eqb key label qs))) as Hperm.
  split; intros H.
  - apply (Permutation_in _ Hperm H).
  - apply (Permutation_in _ (Permutation_sym Hperm) H).
Qed.

Lemma values_annotate_NoDup qs :
  NoDup (map g_key (values_annotate database eqb key label qs)).
Proof.
  unfold values_annotate.
  apply (Permutation_NoDup
           (Permutation_sym
              (Permutation_map g_key
                 (arrange_Permutation database _
                    (collect_groups eqb key label qs))))).
  apply collect_groups_NoDup.
Qed.

End Listed.

Lemma insert_desc_Permutation (g : Group K L) l :
  Permutation (insert_desc g l) (g :: l).
Proof.
  induction l as [| x rest IH]; simpl; [reflexivity |].
  destruct (g_total g <? g_total x); [| reflexivity].
  rewrite IH. apply perm_swap.
Qed.

Lemma sort_desc_Permutation (l : list (Group K L)) :
  Permutation (sort_desc l) l.
Proof.
  induction l as [| x rest IH]; simpl; [constructor |].
  rewrite insert_desc_Permutation. now constructor.
Qed.

Lemma insert_desc_sorted (g : Group K L) l :
  StronglySorted total_ge l -> StronglySorted total_ge (insert_desc g l).
Proof.
  induction l as [| x rest IH]; intros Hs; simpl.
  - repeat constructor.
  - inversion Hs as [| ? ? Hrest Hall]; subst.
    destruct (g_total g <? g_total x) eqn:Hlt.
    + apply Z.ltb_lt in Hlt. constructor; [now apply IH |].
      apply (Permutation_Forall (Permutation_sym (insert_desc_Permutation g rest))).
      constructor; [unfold total_ge; lia | exact Hall].
    + apply Z.ltb_ge in Hlt. constructor; [exact Hs |].
      constructor; [exact Hlt |].
      revert Hall. apply Forall_impl. unfold total_ge. intros y Hy. lia.
Qed.

Lemma sort_desc_sorted (l : list (Group K L)) :
  StronglySorted total_ge (sort_desc l).
Proof.
  induction l as [| x rest IH]; simpl; [constructor |].
  now apply insert_desc_sorted.
Qed.

Lemma rows_descending (f : Group K L -> ReportRow) l :
  (forall g, total_seconds (f g) = g_total g) ->
  StronglySorted total_ge l -> descending (map f l).
Proof.
  intros Hf. unfold descending.
  induction 1 as [| x rest Hrest IH Hall]; simpl; constructor.
  - exact IH.
  - apply Forall_map. revert Hall. apply Forall_impl.
    intros y Hy. rewrite !Hf. exact Hy.
Qed.

(** What a sorted list of groups with distinct keys says of each group. *)
Lemma sorted_groups (gs : list (Group K L)) :
  NoDup (map g_key gs) ->
  NoDup (map g_key (sort_desc gs))
  /\ (forall k, In k (map g_key (sort_desc gs)) <-> In k (map g_key gs))
  /\ (forall g, In g (sort_desc gs) ->
        g_total g = total_where (eqb (g_key g)) gs
        /\ g_count g = count_where (eqb (g_key g)) gs).
Proof.
  intros Hnd.
  pose proof (sort_desc_Permutation gs) as Hperm.
  pose proof (Permutation_map g_key Hperm) as Hkeys.
  split; [| split].
  - apply (Permutation_NoDup (Permutation_sym Hkeys) Hnd).
  - intros k. split; intros H.
    + apply (Permutation_in _ Hkeys H).
    + apply (Permutation_in _ (Permutation_sym Hkeys) H).
  - intros g Hg.
    destruct (group_where gs g Hnd (Permutation_in _ Hperm Hg)) as [Ht Hc].
    auto.
Qed.

End GroupFacts.

(** Two rows can only be listed in two ways. *)
Lemma arrange_pair (database : RowOrder) {A} (a b : A) :
  arrange database [a; b] = [a; b] \/ arrange database [a; b] = [b; a].
Proof.
  apply Permutation_length_2_inv, Permutation_sym, arrange_Permutation.
Qed.

(** ** Reports *)

Lemma pair_eqb_eq (a b : Id * Id) : pair_eqb a b = true <-> a = b.
Proof.
  destruct a as [a1 a2], b as [b1 b2]. unfold pair_eqb. simpl.
  rewrite andb_true_iff, !Z.eqb_eq. split.
  - intros [-> ->]. reflexivity.
  - intros [= -> ->]. auto.
Qed.

Lemma filter_filter {A} (p q : A -> bool) (l : list A) :
  filter p (filter q l) = filter (fun x => q x && p x) l.
Proof.
  induction l as [| x r IH]; simpl; [reflexivity |].
  destruct (q x); simpl; [destruct (p x) |]; now rewrite IH.
Qed.

Lemma filter_opt_filter {A B} (o : option B) (p : B -> A -> bool)
    (q : A -> bool) (l : list A) :
  filter_opt o p (filter q l)
  = filter (fun x => q x && match o with Some b => p b x | None => true end) l.
Proof.
  destruct o; simpl.
  - apply filter_filter.
  - apply filter_ext. intros x. now rewrite andb_true_r.
Qed.

Lemma rows_total_map {K L} (f : Group K L -> ReportRow) (gs : list (Group K L)) :
  (forall g, total_seconds (f g) = g_total g) ->
  (forall g, entry_count (f g) = g_count g) ->
  rows_total (map f gs) = total_where (fun _ => true) gs
  /\ rows_count (map f gs) = count_where (fun _ => true) gs.
Proof.
  intros Ht Hc. induction gs as [| g rest [IHt IHc]]; simpl; [auto |].
  rewrite Ht, Hc, IHt, IHc. auto.
Qed.

(** The dictionary of the module branch. *)

Lemma fold_aggregate_where (p : Id -> bool) items acc :
  total_where p (fold_left aggregate_step items acc)
  = total_where p acc + items_total p items
  /\ count_where p (fold_left aggregate_step items acc)
     = count_where p acc + items_count p items.
Proof.
  revert acc. induction items as [| item items IH]; intros acc; simpl.
  - lia.
  - destruct (IH (aggregate_step acc item)) as [IHt IHc]. rewrite IHt, IHc.
    unfold aggregate_step.
    destruct (g_label item) as [[m name] |]; [| lia].
    destruct (accumulate_where Z.eqb Z.eqb_eq p m name
                (g_total item) (g_count item) acc) as [Ht Hc].
    unfold Id in *. rewrite Ht, Hc. destruct (p m); lia.
Qed.

Lemma fold_aggregate_keys items acc m :
  In m (map g_key (fold_left aggregate_step items acc))
  <-> In m (map g_key acc)
      \/ exists item name, In item items /\ g_label item = Some (m, name).
Proof.
  revert acc. induction items as [| item items IH]; intros acc; simpl.
  - split; [auto | intros [H | (i & n & [] & _)]; exact H].
  - rewrite IH. unfold aggregate_step.
    destruct (g_label item) as [[m' name'] |] eqn:Hl.
    + rewrite (accumulate_keys Z.eqb Z.eqb_eq). split.
      * intros [[-> | H] | (i & n & Hi & Hn)]; eauto 6.
      * intros [H | (i & n & [<- | Hi] & Hn)]; eauto 6.
        rewrite Hl in Hn. injection Hn as -> _. auto.
    + split.
      * intros [H | (i & n & Hi & Hn)]; eauto 6.
      * intros [H | (i & n & [<- | Hi] & Hn)]; eauto 6. congruence.
Qed.

Lemma fold_aggregate_NoDup items acc :
  NoDup (map g_key acc) ->
  NoDup (map g_key (fold_left aggregate_step items acc)).
Proof.
  revert acc. induction items as [| item items IH]; intros acc Hnd; simpl.
  - exact Hnd.
  - apply IH. unfold aggregate_step.
    destruct (g_label item) as [[m name] |]; [| exact Hnd].
    now apply (accumulate_NoDup Z.eqb Z.eqb_eq).
Qed.

Lemma module_items_where (database : RowOrder) (db : Db) (p : Id -> bool)
    qs :
  items_total p (module_items database db qs)
  = sum_seconds (filter (fun e => through_module db p (issue e, project e)) qs)
  /\ items_count p (module_items database db qs)
     = count (filter (fun e => through_module db p (issue e, project e)) qs).
Proof.
  unfold module_items.
  destruct (values_annotate_where pair_eqb pair_eqb_eq database
              (fun e => (issue e, project e)) (fun _ => tt)
              (through_module db p) qs) as [Ht Hc].
  rewrite <- Ht, <- Hc.
  generalize (values_annotate database pair_eqb
                (fun e => (issue e, project e)) (fun _ => tt) qs).
  intros gs. induction gs as [| g rest [IHt IHc]]; simpl; [auto |].
  assert (Hthrough :
            through_module db p (g_key g)
            = match first_module_issue db (fst (g_key g)) with
              | Some mi => p (mi_module mi)
              | None => false
              end) by reflexivity.
  rewrite Hthrough.
  destruct (first_module_issue db (fst (g_key g))) as [mi |]; [| auto].
  rewrite IHt, IHc. destruct (p (mi_module mi)); auto.
Qed.

Lemma module_items_keys (database : RowOrder) (db : Db) qs m :
  (exists item name,
      In item (module_items database db qs)
      /\ g_label item = Some (m, name))
  <-> exists e, In e qs /\ module_of db e = Some m.
Proof.
  unfold module_items, module_of. split.
  - intros (item & name & Hin & Hl).
    apply in_map_iff in Hin as (g & <- & Hg). simpl in Hl.
    apply (in_map g_key) in Hg.
    apply (values_annotate_keys pair_eqb pair_eqb_eq database) in Hg
      as (e & He & Hk).
    exists e. split; [exact He |].
    rewrite <- Hk in Hl. simpl in Hl.
    destruct (first_module_issue db (issue e)); [| discriminate].
    injection Hl as <- _. reflexivity.
  - intros (e & He & Hm).
    assert (Hk : In (issue e, project e)
                    (map g_key (values_annotate database pair_eqb
                                  (fun e => (issue e, project e))
                                  (fun _ => tt) qs))).
    { apply (values_annotate_keys pair_eqb pair_eqb_eq database). eauto. }
    apply in_map_iff in Hk as (g & Hgk & Hg).
    destruct (first_module_issue db (issue e)) as [mi |] eqn:Hmi;
      [| discriminate].
    injection Hm as <-.
    eexists. exists (mi_module_name mi). split.
    + apply in_map_iff. exists g. split; [reflexivity | exact Hg].
    + simpl. rewrite Hgk. simpl. now rewrite Hmi.
Qed.

Section ReportFacts.

Variable strptime_date : string -> option Z.
Variable date_of : Instant -> Z.
Variable database : RowOrder.

Lemma report_queryset_matches (db : Db) (slug : Slug) (q : ReportQuery) :
  dates_ok strptime_date q ->
  report_queryset strptime_date date_of db slug q
  = inr (filter (matches strptime_date date_of slug q) (time_entries db)).
Proof.
  intros [Hfrom Hto].
  unfold report_queryset, completed_queryset, matches.
  rewrite !filter_opt_filter.
  destruct (nonempty (q_from q)) as [s |].
  - destruct (strptime_date s) as [d |] eqn:Hd;
      [| exfalso; now apply (Hfrom s)].
    destruct (nonempty (q_to q)) as [s' |].
    + destruct (strptime_date s') as [d' |] eqn:Hd';
        [| exfalso; now apply (Hto s')].
      cbv beta iota. rewrite !filter_filter. f_equal. apply filter_ext.
      intros e. now rewrite !andb_assoc.
    + cbv beta iota. rewrite filter_filter. f_equal. apply filter_ext.
      intros e. now rewrite andb_true_r.
  - destruct (nonempty (q_to q)) as [s' |].
    + destruct (strptime_date s') as [d' |] eqn:Hd';
        [| exfalso; now apply (Hto s')].
      cbv beta iota. rewrite filter_filter. f_equal. apply filter_ext.
      intros e. now rewrite andb_true_r.
    + f_equal. apply filter_ext. intros e. now rewrite !andb_true_r.
Qed.

Lemma matches_completed slug q e :
  matches strptime_date date_of slug q e = true ->
  workspace e = slug /\ ended_at e <> None.
Proof.
  unfold matches. rewrite !andb_true_iff.
  intros [[[[[Hw He] _] _] _] _]. apply String.eqb_eq in Hw.
  split; [exact Hw |]. destruct (ended_at e); [discriminate | discriminate].
Qed.

(** C6: for a query with [group_by=user] (the default) and well-formed
    dates, the report answers 200 with rows computed from the completed
    entries of the workspace that pass the filters: every such entry has
    [ended_at] set; there is one row per user id having such an entry; the
    row of a user has [total_seconds] = the sum of [duration_seconds] and
    [entry_count] = the number of that user's entries; the rows are in
    descending order of [total_seconds].  Entries U1:3600, U1:1800, U2:900
    give [(U1, 5400, 2); (U2, 900, 1)]. *)
Theorem report_by_user (db : Db) (slug : Slug) (q : ReportQuery) :
  get_or (q_group_by q) "user"%string = "user"%string ->
  dates_ok strptime_date q ->
  let entries :=
    filter (matches strptime_date date_of slug q) (time_entries db) in
  exists rows,
    TimeEntryReportsEndpoint_get strptime_date date_of database db slug q
    = mkResponse (ReportData "user" (q_from q) (q_to q) rows) HTTP_200_OK
    /\ (forall e, In e entries -> workspace e = slug /\ ended_at e <> None)
    /\ NoDup (map row_key rows)
    /\ (forall u, In u (map row_key rows)
                  <-> exists e, In e entries /\ user e = u)
    /\ (forall r, In r rows ->
          exists email name,
            r = UserRow (row_key r) email name
                  (sum_seconds (filter (fun e => user e =? row_key r) entries))
                  (count (filter (fun e => user e =? row_key r) entries)))
    /\ descending rows
    /\ TimeEntryReportsEndpoint_get strptime_date date_of database
         Sample.db_report Sample.acme (Sample.grouped "user")
       = mkResponse
           (ReportData "user" None None
              [UserRow 7 "alice@acme.io" "Alice" 5400 2;
               UserRow 8 "bob@acme.io" "Bob" 900 1])
           HTTP_200_OK.
Proof.
  intros Hmode Hdates entries.
  unfold TimeEntryReportsEndpoint_get.
  rewrite Hmode, (report_queryset_matches db slug q Hdates). simpl.
  fold entries. unfold report_user.
  set (label := fun e : TimeEntry =>
                  (label_of (user_of db (user e)) user_email,
                   label_of (user_of db (user e)) user_display_name)).
  set (groups := values_annotate database Z.eqb user label entries).
  destruct (sorted_groups Z.eqb Z.eqb_eq groups
              (values_annotate_NoDup Z.eqb Z.eqb_eq database user label
                 entries))
    as (Hnd & Hkeys & Haggr).
  eexists. split; [reflexivity |].
  split; [| split; [| split; [| split; [| split]]]].
  - intros e He. apply filter_In in He as [_ He].
    now apply matches_completed in He.
  - rewrite map_map. simpl. exact Hnd.
  - intros u. rewrite map_map. simpl. rewrite Hkeys.
    apply (values_annotate_keys Z.eqb Z.eqb_eq database).
  - intros r Hr. apply in_map_iff in Hr as (g & <- & Hg). simpl.
    unfold Id in *.
    destruct (Haggr g Hg) as [Ht Hc].
    destruct (values_annotate_where Z.eqb Z.eqb_eq database user label
                (Z.eqb (g_key g)) entries) as [Hsum Hcount].
    fold groups in Hsum, Hcount.
    exists (fst (g_label g)), (snd (g_label g)).
    rewrite Ht, Hc, Hsum, Hcount.
    rewrite (filter_ext (fun e => g_key g =? user e)
                        (fun e => user e =? g_key g));
      [reflexivity | intros e; apply Z.eqb_sym].
  - apply rows_descending; [reflexivity |]. apply sort_desc_sorted.
  - cbv -[arrange].
    match goal with
    | |- context [arrange database [?a; ?b]] =>
        destruct (arrange_pair database a b) as [Harr | Harr];
        rewrite Harr; reflexivity
    end.
Qed.

(** C7: for a query with [group_by=module] and well-formed dates, the
    report answers 200 with one row per module id that is the first module
    link of the issue of some completed entry passing the filters; the row
    of a module totals exactly the entries whose issue has that module as
    its first link, so the time of an issue with several modules goes to the
    first one only; and the rows together total exactly the entries whose
    issue has a module, so an entry whose issue has none is in no row. *)
Theorem report_by_module (db : Db) (slug : Slug) (q : ReportQuery) :
  q_group_by q = Some "module"%string ->
  dates_ok strptime_date q ->
  let entries :=
    filter (matches strptime_date date_of slug q) (time_entries db) in
  exists rows,
    TimeEntryReportsEndpoint_get strptime_date date_of database db slug q
    = mkResponse (ReportData "module" (q_from q) (q_to q) rows) HTTP_200_OK
    /\ NoDup (map row_key rows)
    /\ (forall m, In m (map row_key rows)
                  <-> exists e, In e entries /\ module_of db e = Some m)
    /\ (forall r, In r rows ->
          exists name,
            r = ModuleRow (row_key r) name
                  (sum_seconds
                     (filter (fun e => option_Z_eqb (module_of db e)
                                                    (Some (row_key r)))
                             entries))
                  (count
                     (filter (fun e => option_Z_eqb (module_of db e)
                                                    (Some (row_key r)))
                             entries)))
    /\ rows_total rows
       = sum_seconds (filter (fun e => isSome (module_of db e)) entries)
    /\ rows_count rows
       = count (filter (fun e => isSome (module_of db e)) entries)
    /\ descending rows
    /\ TimeEntryReportsEndpoint_get strptime_date date_of database
         Sample.db_report Sample.acme (Sample.grouped "module")
       = mkResponse
           (ReportData "module" None None [ModuleRow 900 "Alpha" 5400 2])
           HTTP_200_OK.
Proof.
  intros Hmode Hdates entries.
  unfold TimeEntryReportsEndpoint_get.
  rewrite Hmode, (report_queryset_matches db slug q Hdates). simpl.
  fold entries. unfold report_module.
  set (aggregates := module_aggregates (module_items database db entries)).
  assert (Hnd0 : NoDup (map g_key aggregates))
    by (apply fold_aggregate_NoDup; constructor).
  destruct (sorted_groups Z.eqb Z.eqb_eq aggregates Hnd0)
    as (Hnd & Hkeys & Haggr).
  assert (Hwhere : forall p,
            total_where p aggregates
            = sum_seconds (filter (fun e => through_module db p
                                              (issue e, project e)) entries)
            /\ count_where p aggregates
               = count (filter (fun e => through_module db p
                                           (issue e, project e)) entries)).
  { intros p. unfold aggregates, module_aggregates.
    destruct (fold_aggregate_where p (module_items database db entries) [])
      as [Ht Hc].
    destruct (module_items_where database db p entries) as [Hit Hic].
    rewrite Ht, Hc, Hit, Hic. simpl. lia. }
  eexists. split; [reflexivity |].
  split; [| split; [| split; [| split; [| split; [| split]]]]].
  - rewrite map_map. simpl. exact Hnd.
  - intros m. rewrite map_map. simpl. rewrite Hkeys.
    unfold aggregates, module_aggregates. rewrite fold_aggregate_keys.
    rewrite module_items_keys. simpl. tauto.
  - intros r Hr. apply in_map_iff in Hr as (g & <- & Hg). simpl.
    unfold Id in *.
    destruct (Haggr g Hg) as [Ht Hc].
    destruct (Hwhere (Z.eqb (g_key g))) as [Hsum Hcount].
    exists (g_label g). rewrite Ht, Hc, Hsum, Hcount.
    rewrite (filter_ext
               (fun e => through_module db (Z.eqb (g_key g))
                           (issue e, project e))
               (fun e => option_Z_eqb (module_of db e) (Some (g_key g))));
      [reflexivity |].
    intros e. unfold through_module, module_of. simpl.
    destruct (first_module_issue db (issue e)); simpl;
      [apply Z.eqb_sym | reflexivity].
  - destruct (rows_total_map
                (fun agg : Group Id string =>
                   ModuleRow (g_key agg) (g_label agg)
                             (g_total agg) (g_count agg))
                (sort_desc aggregates)) as [Ht _]; try reflexivity.
    rewrite Ht.
    destruct (where_Permutation (fun _ => true) _ _
                (sort_desc_Permutation aggregates)) as [Hpt _].
    rewrite Hpt. destruct (Hwhere (fun _ => true)) as [Hsum _].
    rewrite Hsum. f_equal. apply filter_ext.
    intros e. unfold through_module, module_of. simpl.
    now destruct (first_module_issue db (issue e)).
  - destruct (rows_total_map
                (fun agg : Group Id string =>
                   ModuleRow (g_key agg) (g_label agg)
                             (g_total agg) (g_count agg))
                (sort_desc aggregates)) as [_ Hc]; try reflexivity.
    rewrite Hc.
    destruct (where_Permutation (fun _ => true) _ _
                (sort_desc_Permutation aggregates)) as [_ Hpc].
    rewrite Hpc. destruct (Hwhere (fun _ => true)) as [_ Hcount].
    rewrite Hcount. f_equal. apply filter_ext.
    intros e. unfold through_module, module_of. simpl.
    now destruct (first_module_issue db (issue e)).
  - apply rows_descending; [reflexivity |]. apply sort_desc_sorted.
  - cbv -[arrange].
    match goal with
    | |- context [arrange database [?a; ?b]] =>
        destruct (arrange_pair database a b) as [Harr | Harr];
        rewrite Harr; reflexivity
    end.
Qed.

End ReportFacts.

Lemma report_by_user_witness :
  exists rows,
    TimeEntryReportsEndpoint_get Sample.no_dates Sample.utc_date
      Sample.in_order Sample.db_report Sample.acme (Sample.grouped "user")
    = mkResponse (ReportData "user" None None rows) HTTP_200_OK
    /\ NoDup (map row_key rows) /\ descending rows.
Proof.
  destruct (report_by_user Sample.no_dates Sample.utc_date
              Sample.in_order Sample.db_report Sample.acme
              (Sample.grouped "user"))
    as (rows & Hget & _ & Hnd & _ & _ & Hdesc & _).
  - reflexivity.
  - split; intros s Hs; discriminate Hs.
  - exists rows. auto.
Defined.

Lemma report_by_module_witness :
  exists rows,
    TimeEntryReportsEndpoint_get Sample.no_dates Sample.utc_date
      Sample.in_order Sample.db_report Sample.acme (Sample.grouped "module")
    = mkResponse (ReportData "module" None None rows) HTTP_200_OK
    /\ rows_total rows = 5400 /\ rows_count rows = 2.
Proof.
  destruct (report_by_module Sample.no_dates Sample.utc_date
              Sample.in_order Sample.db_report Sample.acme
              (Sample.grouped "module"))
    as (rows & Hget & _ & _ & _ & Ht & Hc & _).
  - reflexivity.
  - split; intros s Hs; discriminate Hs.
  - exists rows. split; [exact Hget |]. rewrite Ht, Hc.
    split; reflexivity.
Defined.

(* ------------------------------------------------------------------ *)
(** * Further properties of the endpoints *)

(** ** Requests that fail *)

(** X1: every handler of the CRUD and timer routes except the active-timer
    read starts with the time-tracking check: when the check has an answer
    (project missing, or tracking switched off) the handler gives that
    answer and the store it was given. *)
Theorem check_answers_first (handle_exception : DatabaseError -> Response)
    (db : Db) (op : Operation) (r : Response) :
  is_active_timer_read op = false ->
  _check_time_tracking_enabled db (op_project op) = Some r ->
  run handle_exception db op = (r, db).
Proof.
  intros Hop Hcheck.
  destruct op; simpl in *; try discriminate;
    unfold TimeEntryViewSet_create, TimeEntryViewSet_partial_update,
      TimeEntryViewSet_destroy, TimeEntryTimerEndpoint_post,
      TimeEntryTimerEndpoint_delete;
    now rewrite Hcheck.
Qed.

Lemma check_answers_first_witness :
  run Sample.server_error Sample.db_untracked
      (OpCreate 7 Sample.ranged Sample.acme 2 20 Sample.t_12_00 900)
  = (FeatureDisabled, Sample.db_untracked).
Proof.
  apply (check_answers_first Sample.server_error Sample.db_untracked
           (OpCreate 7 Sample.ranged Sample.acme 2 20 Sample.t_12_00 900)
           FeatureDisabled); reflexivity.
Defined.

Lemma check_status db p r :
  _check_time_tracking_enabled db p = Some r ->
  r = FeatureDisabled \/ r = ProjectNotFound.
Proof.
  unfold _check_time_tracking_enabled.
  destruct (find _ (projects db)) as [pr |].
  - destruct (is_time_tracking_enabled pr); [discriminate |].
    intros [= <-]. now left.
  - intros [= <-]. now right.
Qed.



(** ** Starting and stopping timers *)

Lemma first_filter_none_inv {A} (p : A -> bool) (l : list A) :
  first (filter p l) = None -> forall x, In x l -> p x = false.
Proof.
  induction l as [| z r IH]; simpl; [intros _ x [] |].
  destruct (p z) eqn:Hz; simpl; [discriminate |].
  intros H x [<- | Hx]; [exact Hz | now apply IH].
Qed.

Lemma no_timer_on_issue_inv (db : Db) (U B : Id) :
  first (filter (timer_query B U) (time_entries db)) = None ->
  forall e, In e (time_entries db) ->
            user e = U -> issue e = B -> running e = false.
Proof.
  intros Hnone e He Hu Hi.
  pose proof (first_filter_none_inv _ _ Hnone e He) as Hq.
  destruct (running e) eqn:Hr; [| reflexivity].
  assert (timer_query B U e = true) by (apply timer_query_true; auto).
  congruence.
Qed.

Lemma post_created_inv (db : Db) (U : Id) (n : option string)
    (b : option bool) (slug : Slug) (P B : Id) (now : Instant) (uuid : Id) :
  status (fst (TimeEntryTimerEndpoint_post db U n b slug P B now uuid))
  = HTTP_201_CREATED ->
  _check_time_tracking_enabled db P = None
  /\ get_issue db slug P B <> None
  /\ (forall e, In e (time_entries db) ->
                user e = U -> issue e = B -> running e = false).
Proof.
  unfold TimeEntryTimerEndpoint_post.
  destruct (_check_time_tracking_enabled db P) as [r |] eqn:Hcheck.
  - destruct (check_status _ _ _ Hcheck) as [-> | ->]; discriminate.
  - destruct (get_issue db slug P B); [| discriminate].
    destruct (first _) eqn:Hfirst; [discriminate |].
    intros _. split; [reflexivity |]. split; [discriminate |].
    now apply no_timer_on_issue_inv.
Qed.


Lemma running_after_stop (U B : Id) (now : Instant) (l : list TimeEntry) :
  (forall e, In e l -> user e = U -> issue e = B -> running e = false) ->
  filter (fun e => (user e =? U) && running e)
         (map (fun t => if other_timers_query B U t
                        then stop_timer now t else t) l) = [].
Proof.
  induction l as [| x r IH]; intros Hno; [reflexivity |].
  simpl.
  assert (Hx : ((user (if other_timers_query B U x
                       then stop_timer now x else x) =? U)
                && running (if other_timers_query B U x
                            then stop_timer now x else x)) = false).
  { destruct (other_timers_query B U x) eqn:Hq.
    - rewrite stop_timer_not_running. apply andb_false_r.
    - unfold other_timers_query in Hq.
      destruct (user x =? U) eqn:Hu; [| reflexivity].
      destruct (running x) eqn:Hr; [| reflexivity].
      simpl in Hq. apply negb_false_iff in Hq.
      apply Z.eqb_eq in Hu, Hq.
      rewrite (Hno x (or_introl eq_refl) Hu Hq) in Hr. discriminate. }
  rewrite Hx. apply IH. intros e He. apply Hno. now right.
Qed.

(** X4: after a start that is answered 201 the user has exactly one entry
    with a start and no end, the created one, however many the user had on
    other issues before. *)
Theorem start_leaves_one_running (db : Db) (U : Id) (n : option string)
    (b : option bool) (slug : Slug) (P B : Id) (now : Instant) (uuid : Id) :
  status (fst (TimeEntryTimerEndpoint_post db U n b slug P B now uuid))
  = HTTP_201_CREATED ->
  exists new,
    running_entries U
      (snd (TimeEntryTimerEndpoint_post db U n b slug P B now uuid)) = [new]
    /\ id new = uuid /\ issue new = B /\ source new = TIMER
    /\ started_at new = Some now.
Proof.
  intros Hok. apply post_created_inv in Hok as (Hcheck & Hissue & Hno).
  unfold TimeEntryTimerEndpoint_post. rewrite Hcheck.
  destruct (get_issue db slug P B) as [issue_row |] eqn:Hget;
    [| congruence].
  apply get_issue_found in Hget as (Hpk & _ & _).
  rewrite (no_timer_on_issue db U B Hno).
  eexists. split.
  - unfold running_entries. simpl. rewrite Z.eqb_refl. simpl.
    rewrite running_after_stop by exact Hno. reflexivity.
  - simpl. auto.
Qed.

Lemma start_leaves_one_running_witness :
  exists new,
    running_entries 7
      (snd (TimeEntryTimerEndpoint_post Sample.db_timer_A 7 None None
              Sample.acme 1 11 Sample.t_11_30 101)) = [new]
    /\ id new = 101.
Proof.
  destruct (start_leaves_one_running Sample.db_timer_A 7 None None
              Sample.acme 1 11 Sample.t_11_30 101)
    as (new & Hrun & Hid & _).
  - reflexivity.
  - exists new. auto.
Defined.

(** X5: a start never removes a row and never rewrites a row of another
    user or a row that is not running: such rows are in the store
    afterwards, whatever the answer. *)
Theorem start_keeps_other_rows (db : Db) (U : Id) (n : option string)
    (b : option bool) (slug : Slug) (P B : Id) (now : Instant) (uuid : Id)
    (e : TimeEntry) :
  In e (time_entries db) ->
  user e <> U \/ running e = false ->
  In e (time_entries
          (snd (TimeEntryTimerEndpoint_post db U n b slug P B now uuid))).
Proof.
  intros Hin Hother. unfold TimeEntryTimerEndpoint_post.
  destruct (_check_time_tracking_enabled db P); [exact Hin |].
  destruct (get_issue db slug P B); [| exact Hin].
  destruct (first _); [exact Hin |].
  simpl. right. apply in_map_iff. exists e. split; [| exact Hin].
  assert (Hq : other_timers_query B U e = false).
  { unfold other_timers_query. destruct Hother as [Hu | Hr].
    - apply Z.eqb_neq in Hu. now rewrite Hu.
    - rewrite Hr. now rewrite andb_false_r. }
  now rewrite Hq.
Qed.

Lemma start_keeps_other_rows_witness :
  In (Sample.completed 701 10 7 3600)
     (time_entries
        (snd (TimeEntryTimerEndpoint_post Sample.db_report 7 None None
                Sample.acme 1 11 Sample.t_13_00 950))).
Proof.
  apply (start_keeps_other_rows Sample.db_report 7 None None
           Sample.acme 1 11 Sample.t_13_00 950).
  - simpl. auto.
  - right. reflexivity.
Defined.

Lemma check_with_time_entries db l p :
  _check_time_tracking_enabled (with_time_entries db l) p
  = _check_time_tracking_enabled db p.
Proof. reflexivity. Qed.

Lemma no_running_no_timer (db : Db) (U A : Id) :
  running_entries U db = [] ->
  first (filter (timer_query A U) (time_entries db)) = None.
Proof.
  intros Hnone. apply first_filter_none. intros x Hx.
  destruct (timer_query A U x) eqn:Hq; [| reflexivity].
  apply timer_query_true in Hq as (_ & Hu & Hr).
  assert (Hin : In x (running_entries U db)).
  { unfold running_entries. apply filter_In. split; [exact Hx |].
    apply Z.eqb_eq in Hu. now rewrite Hu, Hr. }
  rewrite Hnone in Hin. contradiction.
Qed.

Lemma post_created (db : Db) (U : Id) (n : option string)
    (b : option bool) (slug : Slug) (P B : Id) (now : Instant) (uuid : Id) :
  status (fst (TimeEntryTimerEndpoint_post db U n b slug P B now uuid))
  = HTTP_201_CREATED ->
  exists issue_row,
    get_issue db slug P B = Some issue_row
    /\ TimeEntryTimerEndpoint_post db U n b slug P B now uuid
       = (mkResponse (EntryData (to_representation
                                   (started_timer issue_row U n b now uuid)))
                     HTTP_201_CREATED,
          with_time_entries db
            (started_timer issue_row U n b now uuid
             :: map (fun t => if other_timers_query B U t
                              then stop_timer now t else t)
                    (time_entries db))).
Proof.
  intros Hok. apply post_created_inv in Hok as (Hcheck & Hissue & Hno).
  unfold TimeEntryTimerEndpoint_post. rewrite Hcheck.
  destruct (get_issue db slug P B) as [issue_row |]; [| congruence].
  rewrite (no_timer_on_issue db U B Hno).
  exists issue_row. split; reflexivity.
Qed.

(** X6: a timer started at [t0] and stopped at [t1] yields one closed entry
    with [started_at = t0], [ended_at = t1] and
    [duration_seconds = elapsed_seconds t0 t1]; after the stop the user has
    no entry with a start and no end and the active-timer read answers
    null. *)
Theorem start_then_stop (db : Db) (U : Id) (n : option string)
    (b : option bool) (slug : Slug) (P B : Id) (t0 t1 : Instant)
    (uuid : Id) :
  status (fst (TimeEntryTimerEndpoint_post db U n b slug P B t0 uuid))
  = HTTP_201_CREATED ->
  let db1 := snd (TimeEntryTimerEndpoint_post db U n b slug P B t0 uuid) in
  exists e db2,
    TimeEntryTimerEndpoint_delete db1 U slug P B t1
    = (mkResponse (EntryData (to_representation e)) HTTP_200_OK, db2)
    /\ id e = uuid /\ user e = U /\ issue e = B /\ source e = TIMER
    /\ started_at e = Some t0 /\ ended_at e = Some t1
    /\ duration_seconds e = elapsed_seconds t0 t1
    /\ In e (time_entries db2)
    /\ running_entries U db2 = []
    /\ TimeEntryActiveTimerEndpoint_get db2 U slug P B
       = (mkResponse (ActiveTimerData None) HTTP_200_OK, db2).
Proof.
  intros Hok db1. subst db1.
  pose proof Hok as Hiff.
  apply post_created_inv in Hiff as (Hcheck & _ & Hno).
  destruct (post_created db U n b slug P B t0 uuid Hok)
    as (issue_row & Hget & ->).
  apply get_issue_found in Hget as (Hpk & _ & _).
  cbn [snd].
  set (new := started_timer issue_row U n b t0 uuid).
  set (rest := map (fun t => if other_timers_query B U t
                             then stop_timer t0 t else t) (time_entries db)).
  assert (Hq : timer_query B U new = true).
  { apply timer_query_true. subst new. simpl. auto. }
  assert (Hdel : TimeEntryTimerEndpoint_delete
                   (with_time_entries db (new :: rest)) U slug P B t1
                 = (mkResponse (EntryData (to_representation
                                             (stop_timer t1 new)))
                               HTTP_200_OK,
                    with_time_entries db (stop_timer t1 new :: rest))).
  { unfold TimeEntryTimerEndpoint_delete.
    rewrite check_with_time_entries, Hcheck.
    cbn [time_entries with_time_entries filter save_first first hd_error].
    rewrite Hq. reflexivity. }
  exists (stop_timer t1 new), (with_time_entries db (stop_timer t1 new :: rest)).
  split; [exact Hdel |].
  repeat (split; [solve [reflexivity | exact Hpk] |]).
  split; [now left |].
  assert (Hnone : running_entries U
                    (with_time_entries db (stop_timer t1 new :: rest)) = []).
  { unfold running_entries.
    cbn [time_entries with_time_entries filter].
    rewrite stop_timer_not_running, andb_false_r.
    apply running_after_stop. exact Hno. }
  split; [exact Hnone |].
  unfold TimeEntryActiveTimerEndpoint_get.
  now rewrite (no_running_no_timer _ U B Hnone).
Qed.

Lemma start_then_stop_witness :
  exists e db2,
    TimeEntryTimerEndpoint_delete Sample.db_timer_A 7 Sample.acme 1 10
      Sample.t_11_30
    = (mkResponse (EntryData (to_representation e)) HTTP_200_OK, db2)
    /\ duration_seconds e = 5400 /\ running_entries 7 db2 = [].
Proof.
  destruct (start_then_stop Sample.empty_db 7 None None Sample.acme 1 10
              Sample.t_10_00 Sample.t_11_30 100)
    as (e & db2 & Hstop & _ & _ & _ & _ & _ & _ & Hd & _ & Hrun & _).
  - reflexivity.
  - exists e, db2. split; [exact Hstop |]. split; [| exact Hrun].
    rewrite Hd. reflexivity.
Defined.


Lemma save_first_closes_one {A} (p : A -> bool) (y : A) (l : list A) :
  p y = false ->
  (exists x, In x l /\ p x = true) ->
  S (List.length (filter p (save_first p (fun _ => y) l)))
  = List.length (filter p l).
Proof.
  intros Hy. induction l as [| x r IH]; intros (z & Hz & Hpz);
    [contradiction |].
  simpl. destruct (p x) eqn:Hx.
  - simpl. now rewrite Hy.
  - simpl. rewrite Hx. apply IH.
    destruct Hz as [-> | Hz]; [congruence | eauto].
Qed.

Lemma save_first_length {A} (p : A -> bool) (f : A -> A) (l : list A) :
  List.length (save_first p f l) = List.length l.
Proof.
  induction l as [| x r IH]; simpl; [reflexivity |].
  destruct (p x); simpl; congruence.
Qed.

Lemma save_first_keeps {A} (p : A -> bool) (f : A -> A) (l : list A) x :
  In x l -> p x = false -> In x (save_first p f l).
Proof.
  induction l as [| z r IH]; intros Hin Hp; [contradiction |].
  simpl. destruct (p z) eqn:Hz.
  - destruct Hin as [-> | Hin]; [congruence | now right].
  - destruct Hin as [-> | Hin]; [now left | right; auto].
Qed.

(** X8: a stop that is answered 200 closes exactly one row: the number of
    rows of (user, issue) with a start and no end goes down by one, the
    table keeps its length, and every row outside that query stays as it
    is. *)
Theorem stop_closes_one_row (db : Db) (U : Id) (slug : Slug) (P A : Id)
    (now : Instant) :
  status (fst (TimeEntryTimerEndpoint_delete db U slug P A now))
  = HTTP_200_OK ->
  let db' := snd (TimeEntryTimerEndpoint_delete db U slug P A now) in
  S (List.length (filter (timer_query A U) (time_entries db')))
  = List.length (filter (timer_query A U) (time_entries db))
  /\ List.length (time_entries db') = List.length (time_entries db)
  /\ forall e, In e (time_entries db) -> timer_query A U e = false ->
               In e (time_entries db').
Proof.
  intros Hok db'. subst db'. revert Hok.
  unfold TimeEntryTimerEndpoint_delete.
  destruct (_check_time_tracking_enabled db P) as [r |] eqn:Hcheck.
  { destruct (check_status _ _ _ Hcheck) as [-> | ->]; discriminate. }
  destruct (first _) as [t |] eqn:Hfirst; [| discriminate].
  intros _. simpl.
  apply first_filter_inv in Hfirst as [Hin Hq].
  split; [| split].
  - apply save_first_closes_one; [| eauto].
    unfold timer_query. rewrite stop_timer_not_running.
    apply andb_false_r.
  - apply save_first_length.
  - intros e He Hqe. now apply save_first_keeps.
Qed.

Lemma stop_closes_one_row_witness :
  S (List.length
       (filter (timer_query 11 7)
          (time_entries
             (snd (TimeEntryTimerEndpoint_delete Sample.db_open_manuals 7
                     Sample.acme 1 11 Sample.t_12_00)))))
  = 2%nat.
Proof.
  destruct (stop_closes_one_row Sample.db_open_manuals 7 Sample.acme 1 11
              Sample.t_12_00) as (Hcount & _).
  - reflexivity.
  - exact Hcount.
Defined.

(** ** The one-active-timer invariant *)

Lemma filter_delete_first_length {A} (q p : A -> bool) (l : list A) :
  (List.length (filter q (delete_first p l)) <= List.length (filter q l))%nat.
Proof.
  induction l as [| x r IH]; simpl; [lia |].
  destruct (p x); simpl; destruct (q x); simpl; lia.
Qed.

Lemma filter_save_first_length {A} (q p : A -> bool) (y : A) (l : list A) :
  q y = false ->
  (List.length (filter q (save_first p (fun _ => y) l))
   <= List.length (filter q l))%nat.
Proof.
  intros Hy. induction l as [| x r IH]; simpl; [lia |].
  destruct (p x); simpl.
  - rewrite Hy. destruct (q x); simpl; lia.
  - destruct (q x); simpl; lia.
Qed.

Lemma active_other_user (U u B : Id) (now : Instant) (l : list TimeEntry) :
  u <> U ->
  filter (fun e => (user e =? u) && is_active e)
         (map (fun t => if other_timers_query B U t
                        then stop_timer now t else t) l)
  = filter (fun e => (user e =? u) && is_active e) l.
Proof.
  intros Hne. induction l as [| x r IH]; simpl; [reflexivity |].
  destruct (other_timers_query B U x) eqn:Hq.
  - unfold other_timers_query in Hq.
    apply andb_prop in Hq as [Hq _]. apply andb_prop in Hq as [Hu _].
    apply Z.eqb_eq in Hu.
    assert (Hx : (user x =? u) = false) by (apply Z.eqb_neq; congruence).
    simpl. rewrite Hx. simpl. exact IH.
  - rewrite IH. reflexivity.
Qed.

Lemma stop_timer_not_active now e : is_active (stop_timer now e) = false.
Proof. rewrite is_active_unfold, stop_timer_not_running. reflexivity. Qed.

Lemma errors_or_created (db : Db) (U : Id) (n : option string)
    (b : option bool) (slug : Slug) (P B : Id) (now : Instant) (uuid : Id) :
  status (fst (TimeEntryTimerEndpoint_post db U n b slug P B now uuid))
  <> HTTP_201_CREATED ->
  snd (TimeEntryTimerEndpoint_post db U n b slug P B now uuid) = db.
Proof.
  unfold TimeEntryTimerEndpoint_post.
  destruct (_check_time_tracking_enabled db P); [reflexivity |].
  destruct (get_issue db slug P B); [| reflexivity].
  destruct (first _); [reflexivity |].
  simpl. congruence.
Qed.

Lemma one_active_timer_kept (handle_exception : DatabaseError -> Response)
    (db : Db) (op : Operation) :
  is_partial_update op = false ->
  one_active_timer db ->
  one_active_timer (snd (run handle_exception db op)).
Proof.
  intros Hop Hinv u. specialize (Hinv u). unfold active_entries in *.
  destruct op as [U d slug p i now uuid | U d slug p i pk | U slug p i pk
                 | U n b slug p i now uuid | U slug p i now | U slug p i];
    simpl in *; try discriminate.
  - unfold TimeEntryViewSet_create.
    destruct (_check_time_tracking_enabled db p); [exact Hinv |].
    destruct (get_issue db slug p i); [| exact Hinv].
    destruct (TimeEntryCreateSerializer_is_valid d now); [exact Hinv |].
    destruct (insert_error db _); [exact Hinv |].
    simpl. rewrite is_active_unfold. simpl.
    rewrite !andb_false_r. exact Hinv.
  - unfold TimeEntryViewSet_destroy.
    destruct (_check_time_tracking_enabled db p); [exact Hinv |].
    destruct (find _ (time_entries db)) as [e |]; [| exact Hinv].
    destruct (negb (user e =? U) && negb (is_admin db p U)); [exact Hinv |].
    simpl. etransitivity; [apply filter_delete_first_length | exact Hinv].
  - destruct (Z.eq_dec (status (fst (TimeEntryTimerEndpoint_post
                                       db U n b slug p i now uuid)))
                       HTTP_201_CREATED) as [Hok | Hfail].
    + destruct (post_created db U n b slug p i now uuid Hok)
        as (issue_row & _ & ->).
      apply post_created_inv in Hok as (_ & _ & Hno).
      cbn [snd time_entries with_time_entries filter].
      destruct (Z.eq_dec u U) as [-> | Hne].
      * rewrite no_active_after_stop by exact Hno.
        destruct (_ && _); simpl; lia.
      * rewrite active_other_user by exact Hne.
        assert (Hx : (user (started_timer issue_row U n b now uuid) =? u)
                     = false)
          by (apply Z.eqb_neq; simpl; congruence).
        rewrite Hx. exact Hinv.
    + rewrite errors_or_created; [exact Hinv | exact Hfail].
  - unfold TimeEntryTimerEndpoint_delete.
    destruct (_check_time_tracking_enabled db p); [exact Hinv |].
    destruct (first _) as [t |]; [| exact Hinv].
    simpl. etransitivity; [| exact Hinv].
    apply filter_save_first_length.
    rewrite stop_timer_not_active. apply andb_false_r.
  - unfold TimeEntryActiveTimerEndpoint_get.
    destruct (first _); exact Hinv.
Qed.

Lemma active_entries_le (u : Id) (db : Db) :
  (List.length (active_entries u db)
   <= List.length (filter is_active (time_entries db)))%nat.
Proof.
  unfold active_entries.
  induction (time_entries db) as [| x r IH]; simpl; [lia |].
  destruct (user x =? u); simpl; destruct (is_active x); simpl; lia.
Qed.

(** X9: every operation but the update keeps the invariant that each user
    has at most one active timer (rows the serializer reports as active);
    the update does not: setting [ended_at] to null on a stopped timer
    reopens it beside the running one. *)
Theorem one_active_timer_invariant :
  (forall handle_exception db op,
     is_partial_update op = false ->
     one_active_timer db ->
     one_active_timer (snd (run handle_exception db op)))
  /\ one_active_timer Cases.db_stopped_A_timer_B
  /\ ~ one_active_timer
       (snd (run Sample.server_error Cases.db_stopped_A_timer_B
               (OpPartialUpdate 7 Cases.clear_ended_at Sample.acme 1 10 100))).
Proof.
  split; [exact one_active_timer_kept |]. split.
  - intros u. etransitivity; [apply active_entries_le |].
    assert (Hone : List.length
                     (filter is_active
                        (time_entries Cases.db_stopped_A_timer_B)) = 1%nat)
      by reflexivity.
    rewrite Hone. lia.
  - intros H. specialize (H 7).
    assert (Htwo : List.length
                     (active_entries 7
                        (snd (run Sample.server_error
                                Cases.db_stopped_A_timer_B
                                (OpPartialUpdate 7 Cases.clear_ended_at
                                   Sample.acme 1 10 100)))) = 2%nat)
      by reflexivity.
    rewrite Htwo in H. lia.
Qed.

Lemma one_active_timer_invariant_witness :
  one_active_timer
    (snd (run Sample.server_error Cases.db_stopped_A_timer_B
            (OpTimerStart 7 None None Sample.acme 1 10 Sample.t_13_00 102))).
Proof.
  destruct one_active_timer_invariant as (Hkept & Hinv & _).
  apply Hkept; [reflexivity | exact Hinv].
Defined.

(** ** Updates *)

Lemma save_first_map {A B} (g : A -> B) (p : A -> bool) (y z : A)
    (l : list A) :
  find p l = Some y -> g z = g y ->
  map g (save_first p (fun _ => z) l) = map g l.
Proof.
  intros Hfind Hg. induction l as [| x r IH]; simpl in *; [reflexivity |].
  destruct (p x).
  - injection Hfind as ->. simpl. now rewrite Hg.
  - simpl. now rewrite IH.
Qed.

(** X10: an update and a stop rewrite a row in place: the table keeps its
    rows, in order, with their [id], [workspace], [project], [issue],
    [user], [source] and [created_at] unchanged, whatever the body and the
    answer. *)
Theorem update_and_stop_keep_identity (db : Db) (U : Id) (slug : Slug)
    (P A : Id) :
  (forall p pk,
     map identity
       (time_entries
          (snd (TimeEntryViewSet_partial_update db U p slug P A pk)))
     = map identity (time_entries db))
  /\ (forall now,
        map identity
          (time_entries (snd (TimeEntryTimerEndpoint_delete db U slug P A now)))
        = map identity (time_entries db)).
Proof.
  split.
  - intros p pk. unfold TimeEntryViewSet_partial_update.
    destruct (_check_time_tracking_enabled db P); [reflexivity |].
    destruct (find _ (time_entries db)) as [e |] eqn:Hfind; [| reflexivity].
    destruct (negb (user e =? U) && negb (is_admin db P U)); [reflexivity |].
    destruct (TimeEntryUpdateSerializer_is_valid e p); [reflexivity |].
    simpl. now apply (save_first_map identity _ e).
  - intros now. unfold TimeEntryTimerEndpoint_delete.
    destruct (_check_time_tracking_enabled db P); [reflexivity |].
    destruct (first _) as [t |] eqn:Hfirst; [| reflexivity].
    simpl. rewrite first_filter_find in Hfirst.
    now apply (save_first_map identity _ t).
Qed.



Lemma gtb_false_le (s t : Z) : (s >? t) = false -> s <= t.
Proof. rewrite Z.gtb_ltb. intros H. now apply Z.ltb_ge in H. Qed.

(** X12: what the full validator accepts, and what an accepted update
    saves, has its range in order: [started_at <= ended_at] when both are
    set. *)
Theorem accepted_ranges_are_ordered :
  (forall d v,
     TimeEntrySerializer_validate d = inr v ->
     range_ordered (a_started_at v) (a_ended_at v))
  /\ (forall e p v,
        TimeEntryUpdateSerializer_is_valid e p = inr v ->
        range_ordered (started_at (TimeEntryUpdateSerializer_save e v))
                      (ended_at (TimeEntryUpdateSerializer_save e v))).
Proof.
  split.
  - intros d v. unfold TimeEntrySerializer_validate.
    destruct (source_eqb _ MANUAL && _); [discriminate |].
    destruct (source_eqb _ TIMER && _); [discriminate |].
    destruct (a_started_at d) as [s |] eqn:Hs;
      destruct (a_ended_at d) as [t |] eqn:Ht;
      try (intros [= <-]; unfold range_ordered; rewrite ?Hs, ?Ht; simpl; exact I).
    destruct (s >? t) eqn:Hgt; [discriminate |].
    apply gtb_false_le in Hgt.
    destruct (_ =? 0); intros [= <-]; unfold range_ordered; simpl;
      rewrite ?Hs, ?Ht; exact Hgt.
  - intros e p v. unfold TimeEntryUpdateSerializer_is_valid.
    destruct (TimeEntryUpdateSerializer_fields p) as [err | d] eqn:Hf;
      [discriminate |].
    apply update_fields_inv in Hf as [-> _].
    unfold TimeEntryUpdateSerializer_validate.
    destruct (or_else (get_nullable (u_started_at p)) (started_at e))
      as [s |] eqn:Hs;
      destruct (or_else (get_nullable (u_ended_at p)) (ended_at e))
        as [t |] eqn:Ht.
    + destruct (s >? t) eqn:Hgt; [discriminate |].
      apply gtb_false_le in Hgt.
      assert (Hsaved : forall v',
                u_started_at v' = u_started_at p ->
                u_ended_at v' = u_ended_at p ->
                range_ordered
                  (started_at (TimeEntryUpdateSerializer_save e v'))
                  (ended_at (TimeEntryUpdateSerializer_save e v'))).
      { intros v' Hvs Hve. unfold range_ordered. simpl. rewrite Hvs, Hve.
        destruct (u_started_at p) as [[s' |] |];
          destruct (u_ended_at p) as [[t' |] |]; simpl in *;
          try exact I;
          repeat match goal with
                 | H : Some _ = Some _ |- _ => injection H as H; subst
                 end; try exact Hgt;
          destruct (started_at e); destruct (ended_at e); simpl in *;
          try exact I;
          repeat match goal with
                 | H : Some _ = Some _ |- _ => injection H as H; subst
                 end; try exact Hgt; try discriminate. }
      destruct (u_duration_seconds p) as [[| x | x] |];
        intros [= <-]; apply Hsaved; reflexivity.
    + intros [= <-]. unfold range_ordered. simpl.
      destruct (u_started_at p) as [[s' |] |];
        destruct (u_ended_at p) as [[t' |] |]; simpl in *;
        try exact I; try discriminate;
        destruct (started_at e); destruct (ended_at e); simpl in *;
        try exact I; try discriminate.
    + intros [= <-]. unfold range_ordered. simpl.
      destruct (u_started_at p) as [[s' |] |];
        destruct (u_ended_at p) as [[t' |] |]; simpl in *;
        try exact I; try discriminate;
        destruct (started_at e); destruct (ended_at e); simpl in *;
        try exact I; try discriminate.
    + intros [= <-]. unfold range_ordered. simpl.
      destruct (u_started_at p) as [[s' |] |];
        destruct (u_ended_at p) as [[t' |] |]; simpl in *;
        try exact I; try discriminate;
        destruct (started_at e); destruct (ended_at e); simpl in *;
        try exact I; try discriminate.
Qed.

Lemma accepted_ranges_are_ordered_witness :
  range_ordered
    (started_at (TimeEntryUpdateSerializer_save Sample.ranged_row
                   (Sample.only_duration 1200)))
    (ended_at (TimeEntryUpdateSerializer_save Sample.ranged_row
                 (Sample.only_duration 1200))).
Proof.
  destruct accepted_ranges_are_ordered as [_ Hupdate].
  apply (Hupdate Sample.ranged_row (Sample.only_duration 1200)).
  reflexivity.
Defined.

(** ** Validators *)

(** X13: validating again what a validator has accepted changes nothing:
    the full validator, the create validator (at any later instant) and
    the update validator return their own output unchanged. *)
Theorem validators_are_idempotent :
  (forall d v,
     TimeEntrySerializer_validate d = inr v ->
     TimeEntrySerializer_validate v = inr v)
  /\ (forall d now v later,
        TimeEntryCreateSerializer_validate d now = inr v ->
        TimeEntryCreateSerializer_validate v later = inr v)
  /\ (forall e p v,
        TimeEntryUpdateSerializer_validate e p = inr v ->
        TimeEntryUpdateSerializer_validate e v = inr v).
Proof.
  split; [| split].
  - intros d v. unfold TimeEntrySerializer_validate.
    destruct (source_eqb (get_or (a_source d) MANUAL) MANUAL
              && ((get_or (a_duration_seconds d) 0 =? 0)
                  || (get_or (a_duration_seconds d) 0 <=? 0))) eqn:Hm;
      [discriminate |].
    destruct (source_eqb (get_or (a_source d) MANUAL) TIMER
              && isNone (a_started_at d)) eqn:Ht; [discriminate |].
    destruct (a_started_at d) as [s |] eqn:Hs;
      destruct (a_ended_at d) as [t |] eqn:He;
      try (intros [= <-]; rewrite Hm, ?Hs, ?Ht, ?He; reflexivity).
    destruct (s >? t) eqn:Hgt; [discriminate |].
    destruct (get_or (a_duration_seconds d) 0 =? 0) eqn:Hz.
    + intros [= <-]. simpl. simpl in Hm. rewrite andb_true_r in Hm.
      rewrite Hm, Hs, He, Hgt. simpl. rewrite andb_false_r.
      destruct (elapsed_seconds s t =? 0); reflexivity.
    + intros [= <-]. rewrite ?Hz, ?Hm, ?Hs, ?Ht, ?He, ?Hgt, ?Hz. reflexivity.
  - intros d now v later. unfold TimeEntryCreateSerializer_validate.
    destruct (v_source d) eqn:Hsrc.
    + destruct (v_duration_seconds d) as [[| x | x] |] eqn:Hd;
        try discriminate; intros [= <-]; now rewrite Hsrc, Hd.
    + destruct (v_started_at d) eqn:Hs; intros [= <-].
      * now rewrite Hsrc, Hs.
      * simpl. now rewrite Hsrc.
  - intros e p v. unfold TimeEntryUpdateSerializer_validate.
    destruct (or_else (get_nullable (u_started_at p)) (started_at e))
      as [s |] eqn:Hs;
      destruct (or_else (get_nullable (u_ended_at p)) (ended_at e))
        as [t |] eqn:He;
      try (intros [= <-]; rewrite Hs, ?He; reflexivity).
    destruct (s >? t) eqn:Hgt; [discriminate |].
    destruct (u_duration_seconds p) as [[| x | x] |] eqn:Hd;
      intros [= <-]; simpl; rewrite ?Hs, ?He, ?Hgt, ?Hd;
      try reflexivity;
      destruct (elapsed_seconds s t); reflexivity.
Qed.

(** ** Permissions and deletion *)

(** X14: an update or a delete of an entry of the route is answered 403 with
    the permission message exactly when time tracking is on, the entry is
    found, and the requester is neither its user nor an active admin member
    of the project; the store is then unchanged. *)
Theorem forbidden_iff_not_owner_nor_admin
    (db : Db) (U : Id) (slug : Slug) (P A pk : Id) :
  let selected := fun x => in_queryset slug P A x && (id x =? pk) in
  let stranger :=
    _check_time_tracking_enabled db P = None
    /\ exists e, find selected (time_entries db) = Some e
                 /\ user e <> U /\ is_admin db P U = false in
  (forall p,
     TimeEntryViewSet_partial_update db U p slug P A pk
     = (Forbidden "You don't have permission to update this time entry", db)
     <-> stranger)
  /\ (TimeEntryViewSet_destroy db U slug P A pk
      = (Forbidden "You don't have permission to delete this time entry", db)
      <-> stranger).
Proof.
  intros selected stranger. subst selected stranger. cbv beta.
  assert (Hsplit : forall e,
            negb (user e =? U) && negb (is_admin db P U) = true
            <-> user e <> U /\ is_admin db P U = false).
  { intros e. rewrite andb_true_iff, !negb_true_iff, Z.eqb_neq. tauto. }
  split.
  - intros p. unfold TimeEntryViewSet_partial_update. split.
    + destruct (_check_time_tracking_enabled db P) as [r |] eqn:Hcheck.
      { destruct (check_status _ _ _ Hcheck) as [-> | ->]; discriminate. }
      destruct (find _ (time_entries db)) as [e |]; [| discriminate].
      destruct (negb (user e =? U) && negb (is_admin db P U)) eqn:Hperm.
      * intros _. split; [reflexivity |]. exists e.
        split; [reflexivity |]. now apply Hsplit.
      * destruct (TimeEntryUpdateSerializer_is_valid e p); discriminate.
    + intros (Hcheck & e & Hfind & Hperm). rewrite Hcheck, Hfind.
      apply Hsplit in Hperm. now rewrite Hperm.
  - unfold TimeEntryViewSet_destroy. split.
    + destruct (_check_time_tracking_enabled db P) as [r |] eqn:Hcheck.
      { destruct (check_status _ _ _ Hcheck) as [-> | ->]; discriminate. }
      destruct (find _ (time_entries db)) as [e |]; [| discriminate].
      destruct (negb (user e =? U) && negb (is_admin db P U)) eqn:Hperm.
      * intros _. split; [reflexivity |]. exists e.
        split; [reflexivity |]. now apply Hsplit.
      * discriminate.
    + intros (Hcheck & e & Hfind & Hperm). rewrite Hcheck, Hfind.
      apply Hsplit in Hperm. now rewrite Hperm.
Qed.

Lemma find_split {A} (p : A -> bool) (l : list A) (e : A) :
  find p l = Some e ->
  exists l1 l2,
    l = l1 ++ e :: l2 /\ delete_first p l = l1 ++ l2
    /\ (forall x, In x l1 -> p x = false) /\ p e = true.
Proof.
  induction l as [| x r IH]; simpl; [discriminate |].
  destruct (p x) eqn:Hx.
  - intros [= ->]. exists [], r. simpl. repeat split; auto.
    intros y [].
  - intros Hfind. destruct (IH Hfind) as (l1 & l2 & -> & Hdel & Hl1 & He).
    exists (x :: l1), l2. simpl. rewrite Hdel. repeat split; auto.
    intros y [<- | Hy]; auto.
Qed.

(** X15: with unique primary keys, a delete by the user of the entry or by
    a project admin is answered 204 and removes that row and no other; the
    key is then unknown on the route, so a second delete is answered 404. *)
Theorem destroy_removes_the_entry
    (db : Db) (U : Id) (slug : Slug) (P A pk : Id) (e : TimeEntry) :
  unique_ids db ->
  _check_time_tracking_enabled db P = None ->
  find (fun x => in_queryset slug P A x && (id x =? pk)) (time_entries db)
  = Some e ->
  user e = U \/ is_admin db P U = true ->
  exists db',
    TimeEntryViewSet_destroy db U slug P A pk
    = (mkResponse NoData HTTP_204_NO_CONTENT, db')
    /\ ~ In e (time_entries db')
    /\ (forall x, In x (time_entries db) -> x <> e -> In x (time_entries db'))
    /\ (forall x, In x (time_entries db') -> In x (time_entries db))
    /\ S (List.length (time_entries db')) = List.length (time_entries db)
    /\ TimeEntryViewSet_destroy db' U slug P A pk = (EntryNotFound, db').
Proof.
  intros Huniq Hcheck Hfind Hperm.
  unfold TimeEntryViewSet_destroy at 1. rewrite Hcheck, Hfind.
  assert (Hallowed : negb (user e =? U) && negb (is_admin db P U) = false).
  { destruct Hperm as [Hu | Ha].
    - apply Z.eqb_eq in Hu. now rewrite Hu.
    - rewrite Ha. apply andb_false_r. }
  rewrite Hallowed.
  destruct (find_split _ _ _ Hfind) as (l1 & l2 & Hl & Hdel & Hl1 & Hsel).
  eexists. split; [reflexivity |]. cbn [time_entries with_time_entries].
  rewrite Hdel.
  unfold unique_ids in Huniq. rewrite Hl, map_app in Huniq. simpl in Huniq.
  apply NoDup_remove in Huniq as [_ Hnotin].
  rewrite <- map_app in Hnotin.
  assert (Hgone : ~ In e (l1 ++ l2)).
  { intros Hin. apply Hnotin. now apply in_map. }
  split; [exact Hgone |].
  split.
  { intros x Hx Hne. rewrite Hl in Hx. apply in_app_or in Hx.
    apply in_or_app. destruct Hx as [Hx | [Hx | Hx]]; auto. congruence. }
  split.
  { intros x Hx. rewrite Hl. apply in_app_or in Hx. apply in_or_app.
    destruct Hx; [left | right; right]; assumption. }
  split.
  { rewrite Hl, !length_app. simpl. lia. }
  unfold TimeEntryViewSet_destroy.
  rewrite check_with_time_entries, Hcheck.
  cbn [time_entries with_time_entries].
  assert (Hnone : find (fun x => in_queryset slug P A x && (id x =? pk))
                       (l1 ++ l2) = None).
  { destruct (find _ (l1 ++ l2)) as [y |] eqn:Hy; [| reflexivity].
    apply find_some in Hy as [Hyin Hysel]. exfalso. apply Hnotin.
    apply andb_prop in Hsel as [_ Hide]. apply andb_prop in Hysel as [_ Hidy].
    apply Z.eqb_eq in Hide, Hidy.
    rewrite Hide, <- Hidy. now apply in_map. }
  now rewrite Hnone.
Qed.

Lemma destroy_removes_the_entry_witness :
  exists db',
    TimeEntryViewSet_destroy Sample.db_ranged 7 Sample.acme 1 10 301
    = (mkResponse NoData HTTP_204_NO_CONTENT, db')
    /\ TimeEntryViewSet_destroy db' 7 Sample.acme 1 10 301
       = (EntryNotFound, db').
Proof.
  destruct (destroy_removes_the_entry Sample.db_ranged 7 Sample.acme 1 10
              301 Sample.ranged_row)
    as (db' & Hdel & _ & _ & _ & _ & Hagain).
  - repeat constructor. simpl. tauto.
  - reflexivity.
  - reflexivity.
  - left. reflexivity.
  - exists db'. auto.
Defined.

Lemma delete_first_ids {A B} (g : A -> B) (p : A -> bool) (l : list A) :
  NoDup (map g l) -> NoDup (map g (delete_first p l)).
Proof.
  induction l as [| x r IH]; simpl; intros Hnd; [constructor |].
  inversion Hnd as [| ? ? Hnotin Hrest]; subst.
  destruct (p x); [exact Hrest |].
  simpl. constructor; [| now apply IH].
  intros Hin. apply Hnotin.
  clear - Hin. induction r as [| y r IH]; simpl in *; [contradiction |].
  destruct (p y); [now right |].
  destruct Hin as [<- | Hin]; [now left | right; auto].
Qed.

(** X16: primary keys stay unique: every operation keeps the keys of the
    table pairwise distinct, provided the key it brings for a new row is
    not yet in the table. *)
Theorem unique_ids_kept (handle_exception : DatabaseError -> Response)
    (db : Db) (op : Operation) :
  unique_ids db ->
  (forall uuid, op_uuid op = Some uuid ->
                ~ In uuid (map id (time_entries db))) ->
  unique_ids (snd (run handle_exception db op)).
Proof.
  unfold unique_ids. intros Huniq Hfresh.
  destruct op as [U d slug p i now uuid | U d slug p i pk | U slug p i pk
                 | U n b slug p i now uuid | U slug p i now | U slug p i];
    simpl in *.
  - unfold TimeEntryViewSet_create.
    destruct (_check_time_tracking_enabled db p); [exact Huniq |].
    destruct (get_issue db slug p i); [| exact Huniq].
    destruct (TimeEntryCreateSerializer_is_valid d now); [exact Huniq |].
    destruct (insert_error db _); [exact Huniq |].
    simpl. constructor; [now apply Hfresh | exact Huniq].
  - unfold TimeEntryViewSet_partial_update.
    destruct (_check_time_tracking_enabled db p); [exact Huniq |].
    destruct (find _ (time_entries db)) as [e |] eqn:Hfind; [| exact Huniq].
    destruct (negb (user e =? U) && negb (is_admin db p U)); [exact Huniq |].
    destruct (TimeEntryUpdateSerializer_is_valid e d); [exact Huniq |].
    simpl. now rewrite (save_first_map id _ e).
  - unfold TimeEntryViewSet_destroy.
    destruct (_check_time_tracking_enabled db p); [exact Huniq |].
    destruct (find _ (time_entries db)) as [e |]; [| exact Huniq].
    destruct (negb (user e =? U) && negb (is_admin db p U)); [exact Huniq |].
    simpl. now apply delete_first_ids.
  - unfold TimeEntryTimerEndpoint_post.
    destruct (_check_time_tracking_enabled db p); [exact Huniq |].
    destruct (get_issue db slug p i); [| exact Huniq].
    destruct (first _); [exact Huniq |].
    simpl. rewrite map_map.
    rewrite (map_ext (fun x => id (if other_timers_query i U x
                                   then stop_timer now x else x)) id)
      by (intros x; now destruct (other_timers_query i U x)).
    constructor; [now apply Hfresh | exact Huniq].
  - unfold TimeEntryTimerEndpoint_delete.
    destruct (_check_time_tracking_enabled db p); [exact Huniq |].
    destruct (first _) as [t |] eqn:Hfirst; [| exact Huniq].
    simpl. rewrite first_filter_find in Hfirst.
    now rewrite (save_first_map id _ t).
  - unfold TimeEntryActiveTimerEndpoint_get.
    destruct (first _); exact Huniq.
Qed.

Lemma unique_ids_kept_witness :
  unique_ids
    (snd (run Sample.server_error Sample.db_timer_A
            (OpTimerStart 7 None None Sample.acme 1 11 Sample.t_11_30 101))).
Proof.
  apply (unique_ids_kept Sample.server_error Sample.db_timer_A
           (OpTimerStart 7 None None Sample.acme 1 11 Sample.t_11_30 101)).
  - repeat constructor. simpl. tauto.
  - intros uuid [= <-]. simpl. intros [H | []]. discriminate H.
Defined.

(** ** Listing *)

Lemma create_is_valid_keeps (p : CreatePayload) (now : Instant) v :
  TimeEntryCreateSerializer_is_valid p now = inr v ->
  c_issue_id p = Some (v_issue_id v)
  /\ v_duration_seconds v = c_duration_seconds p.
Proof.
  unfold TimeEntryCreateSerializer_is_valid,
    TimeEntryCreateSerializer_fields.
  destruct (c_issue_id p) as [I |]; [| discriminate].
  destruct (match c_duration_seconds p with
            | Some d => d <? 0 | None => false end); [discriminate |].
  unfold TimeEntryCreateSerializer_validate. cbn [v_source].
  destruct (get_or (c_source p) MANUAL).
  - cbn [v_duration_seconds].
    destruct (c_duration_seconds p) as [[| x | x] |];
      try discriminate; now intros [= <-].
  - cbn [v_started_at].
    destruct (c_started_at p); now intros [= <-].
Qed.

Lemma insert_error_none (db : Db) (e : TimeEntry) :
  insert_error db e = None
  <-> duration_seconds e <= integer_field_max
      /\ exists i, In i (issues db) /\ issue_pk i = issue e.
Proof.
  unfold insert_error.
  destruct (integer_field_max <? duration_seconds e) eqn:Hmax.
  - apply Z.ltb_lt in Hmax. split; [discriminate | lia].
  - apply Z.ltb_ge in Hmax.
    destruct (existsb _ (issues db)) eqn:Hfk.
    + apply existsb_exists in Hfk as (i & Hi & Hpk). apply Z.eqb_eq in Hpk.
      split; [eauto | reflexivity].
    + split; [discriminate |]. intros (_ & i & Hi & Hpk).
      assert (Hex : existsb (fun i => issue_pk i =? issue e) (issues db)
                    = true)
        by (apply existsb_exists; exists i; split;
            [exact Hi | now apply Z.eqb_eq]).
      congruence.
Qed.

Lemma create_created_inv (handle_exception : DatabaseError -> Response)
    (db : Db) (U : Id) (request_data : CreatePayload) (slug : Slug)
    (P A : Id) (now : Instant) (uuid : Id) :
  answers_with_error handle_exception ->
  status (fst (TimeEntryViewSet_create handle_exception db U request_data
                 slug P A now uuid)) = HTTP_201_CREATED ->
  exists issue_row v,
    _check_time_tracking_enabled db P = None
    /\ get_issue db slug P A = Some issue_row
    /\ TimeEntryCreateSerializer_is_valid request_data now = inr v
    /\ c_issue_id request_data = Some (v_issue_id v)
    /\ get_or (v_duration_seconds v) 0 <= integer_field_max
    /\ (exists i, In i (issues db) /\ issue_pk i = v_issue_id v)
    /\ TimeEntryViewSet_create handle_exception db U request_data
         slug P A now uuid
       = (let e := {| id := uuid;
                      workspace := issue_workspace issue_row;
                      project := issue_project issue_row;
                      issue := v_issue_id v;
                      user := U;
                      started_at := v_started_at v;
                      ended_at := v_ended_at v;
                      duration_seconds := get_or (v_duration_seconds v) 0;
                      source := MANUAL;
                      note := v_note v;
                      is_billable := v_is_billable v;
                      created_at := now |} in
          (mkResponse (EntryData (to_representation e)) HTTP_201_CREATED,
           with_time_entries db (e :: time_entries db))).
Proof.
  intros Herr. unfold TimeEntryViewSet_create.
  destruct (_check_time_tracking_enabled db P) as [r |] eqn:Hcheck.
  { destruct (check_status _ _ _ Hcheck) as [-> | ->]; discriminate. }
  destruct (get_issue db slug P A) as [issue_row |] eqn:Hget;
    [| discriminate].
  destruct (TimeEntryCreateSerializer_is_valid request_data now)
    as [err | v] eqn:Hv; [discriminate |].
  match goal with
  | |- context [insert_error db ?e] =>
      destruct (insert_error db e) as [exc |] eqn:Hins
  end.
  { cbn [fst]. intros H. specialize (Herr exc).
    rewrite H in Herr. unfold HTTP_201_CREATED in Herr. lia. }
  intros _. apply insert_error_none in Hins as [Hmax Hfk].
  exists issue_row, v.
  split; [reflexivity |]. split; [reflexivity |]. split; [reflexivity |].
  split; [now apply create_is_valid_keeps in Hv |].
  split; [exact Hmax |]. split; [exact Hfk | reflexivity].
Qed.

(** X17: an accepted create shows up at the head of the list of the issue
    that its body names, on the route of the same project: the list after
    the create is the created entry followed by the list before it,
    unfiltered or filtered on the requester; a list filtered on another
    user is unchanged; and when the body names another issue than the
    route, the list of the issue of the route is unchanged. *)
Theorem create_then_list (handle_exception : DatabaseError -> Response)
    (db : Db) (U : Id) (request_data : CreatePayload)
    (slug : Slug) (P A : Id) (now : Instant) (uuid : Id) :
  answers_with_error handle_exception ->
  status (fst (TimeEntryViewSet_create handle_exception db U request_data
                 slug P A now uuid))
  = HTTP_201_CREATED ->
  let db' := snd (TimeEntryViewSet_create handle_exception db U
                    request_data slug P A now uuid) in
  exists e I,
    fst (TimeEntryViewSet_create handle_exception db U request_data
           slug P A now uuid)
    = mkResponse (EntryData (to_representation e)) HTTP_201_CREATED
    /\ c_issue_id request_data = Some I /\ issue e = I
    /\ time_entries db' = e :: time_entries db
    /\ (forall filter_user,
          filter_user = None \/ filter_user = Some U ->
          exists rows,
            TimeEntryViewSet_list db filter_user slug P I = inr rows
            /\ TimeEntryViewSet_list db' filter_user slug P I
               = inr (to_representation e :: rows))
    /\ (forall other, other <> U ->
          TimeEntryViewSet_list db' (Some other) slug P I
          = TimeEntryViewSet_list db (Some other) slug P I)
    /\ (I <> A ->
        forall filter_user,
          TimeEntryViewSet_list db' filter_user slug P A
          = TimeEntryViewSet_list db filter_user slug P A).
Proof.
  intros Herr Hok db'. subst db'.
  destruct (create_created_inv handle_exception db U request_data slug P A
              now uuid Herr Hok)
    as (issue_row & v & Hcheck & Hget & _ & Hid & _ & _ & ->).
  apply get_issue_found in Hget as (Hpk & Hproj & Hws).
  cbv zeta. eexists. exists (v_issue_id v).
  split; [reflexivity |]. split; [exact Hid |]. split; [reflexivity |].
  split; [reflexivity |].
  cbn [snd]. unfold TimeEntryViewSet_list.
  rewrite check_with_time_entries, Hcheck.
  cbn [time_entries with_time_entries filter].
  match goal with
  | |- context [in_queryset slug P (v_issue_id v) ?e] =>
      assert (Hin : in_queryset slug P (v_issue_id v) e = true)
  end.
  { unfold in_queryset. simpl. rewrite Hproj, Hws.
    now rewrite String.eqb_refl, !Z.eqb_refl. }
  rewrite Hin. split; [| split].
  - intros filter_user [-> | ->].
    + eexists. split; reflexivity.
    + eexists. split; [reflexivity |].
      cbn [filter_opt filter user]. now rewrite Z.eqb_refl.
  - intros other Hne. cbn [filter_opt filter user].
    assert (Hx : (U =? other) = false) by (apply Z.eqb_neq; congruence).
    now rewrite Hx.
  - intros Hne filter_user.
    match goal with
    | |- context [in_queryset slug P A ?e] =>
        assert (Hout : in_queryset slug P A e = false)
    end.
    { unfold in_queryset. cbn [issue].
      assert (Hx : (v_issue_id v =? A) = false)
        by (apply Z.eqb_neq; congruence).
      rewrite Hx. apply andb_false_r. }
    now rewrite Hout.
Qed.

Lemma create_then_list_witness :
  let db' := snd (TimeEntryViewSet_create Sample.server_error
                    Sample.empty_db 7 Cases.on_issue_B Sample.acme 1 10
                    Sample.t_12_00 301) in
  exists e,
    TimeEntryViewSet_list db' None Sample.acme 1 11
    = inr [to_representation e]
    /\ id e = 301 /\ issue e = 11
    /\ TimeEntryViewSet_list db' None Sample.acme 1 10 = inr [].
Proof.
  intros db'.
  destruct (create_then_list Sample.server_error Sample.empty_db 7
              Cases.on_issue_B Sample.acme 1 10 Sample.t_12_00 301)
    as (e & I & Hcreate & HI & Hissue & _ & Hlist & _ & Hroute).
  - intros exc. simpl. lia.
  - reflexivity.
  - injection HI as <-.
    destruct (Hlist None (or_introl eq_refl)) as (rows & Hbefore & Hafter).
    exists e. split; [| split; [| split]].
    + injection Hbefore as <-. exact Hafter.
    + injection Hcreate as <-. reflexivity.
    + exact Hissue.
    + unfold db'. rewrite Hroute by discriminate. reflexivity.
Defined.

(** ** Summary, reports and export *)

Lemma filter_true {A} (l : list A) : filter (fun _ => true) l = l.
Proof. induction l as [| x r IH]; simpl; congruence. Qed.

(** The rows made of the sorted groups of a queryset add up to the
    queryset. *)
Lemma annotated_rows_total {K L} (eqb : K -> K -> bool)
    (eqb_eq : forall a b, eqb a b = true <-> a = b)
    (database : RowOrder)
    (key : TimeEntry -> K) (label : TimeEntry -> L)
    (f : Group K L -> ReportRow) (qs : list TimeEntry) :
  (forall g, total_seconds (f g) = g_total g) ->
  (forall g, entry_count (f g) = g_count g) ->
  rows_total
    (map f (sort_desc (values_annotate database eqb key label qs)))
  = sum_seconds qs
  /\ rows_count
       (map f (sort_desc (values_annotate database eqb key label qs)))
     = count qs.
Proof.
  intros Ht Hc.
  destruct (rows_total_map f
              (sort_desc (values_annotate database eqb key label qs))
              Ht Hc) as [Hrt Hrc].
  destruct (where_Permutation (fun _ => true) _ _
              (sort_desc_Permutation
                 (values_annotate database eqb key label qs)))
    as [Hpt Hpc].
  destruct (values_annotate_where eqb eqb_eq database key label
              (fun _ => true) qs) as [Hsum Hcount].
  rewrite Hrt, Hrc, Hpt, Hpc, Hsum, Hcount, filter_true. auto.
Qed.

Lemma report_user_rows (database : RowOrder) (db : Db)
    (qs : list TimeEntry) :
  NoDup (map row_key (report_user database db qs))
  /\ (forall u, In u (map row_key (report_user database db qs))
                <-> exists e, In e qs /\ user e = u)
  /\ rows_total (report_user database db qs) = sum_seconds qs
  /\ rows_count (report_user database db qs) = count qs
  /\ descending (report_user database db qs).
Proof.
  unfold report_user.
  set (label := fun e : TimeEntry =>
                  (label_of (user_of db (user e)) user_email,
                   label_of (user_of db (user e)) user_display_name)).
  destruct (sorted_groups Z.eqb Z.eqb_eq
              (values_annotate database Z.eqb user label qs)
              (values_annotate_NoDup Z.eqb Z.eqb_eq database user label qs))
    as (Hnd & Hkeys & _).
  split; [| split; [| split; [| split]]].
  - rewrite map_map. simpl. exact Hnd.
  - intros u. rewrite map_map. simpl. rewrite Hkeys.
    apply (values_annotate_keys Z.eqb Z.eqb_eq database).
  - apply (annotated_rows_total Z.eqb Z.eqb_eq database); reflexivity.
  - apply (annotated_rows_total Z.eqb Z.eqb_eq database); reflexivity.
  - apply rows_descending; [reflexivity |]. apply sort_desc_sorted.
Qed.

(** X18: the summary of an issue counts the entries of the issue that have
    an [ended_at], running ones left out; its per-user rows, one per user
    and in descending order, add up to its total, and their counts to the
    number of those entries. *)
Theorem summary_rows_add_up
    (estimated_time_minutes : Issue -> option Z) (database : RowOrder)
    (db : Db) (slug : Slug) (P A : Id) :
  _check_time_tracking_enabled db P = None ->
  get_issue db slug P A <> None ->
  exists s,
    TimeEntrySummaryEndpoint_get estimated_time_minutes database db slug P A
    = inr s
    /\ summary_total_seconds s
       = sum_seconds (filter (completed_on A) (time_entries db))
    /\ rows_total (summary_time_by_user s) = summary_total_seconds s
    /\ rows_count (summary_time_by_user s)
       = count (filter (completed_on A) (time_entries db))
    /\ NoDup (map row_key (summary_time_by_user s))
    /\ descending (summary_time_by_user s).
Proof.
  intros Hcheck Hissue. unfold TimeEntrySummaryEndpoint_get.
  rewrite Hcheck.
  destruct (get_issue db slug P A) as [issue_row |]; [| congruence].
  eexists. split; [reflexivity |]. simpl.
  destruct (report_user_rows database db
              (filter (completed_on A) (time_entries db)))
    as (Hnd & _ & Ht & Hc & Hdesc).
  auto.
Qed.

Lemma summary_rows_add_up_witness :
  exists s,
    TimeEntrySummaryEndpoint_get (fun _ => Some 120) Sample.backwards_order
      Sample.db_report Sample.acme 1 10 = inr s
    /\ summary_total_seconds s = 5400
    /\ rows_total (summary_time_by_user s) = 5400.
Proof.
  destruct (summary_rows_add_up (fun _ => Some 120) Sample.backwards_order
              Sample.db_report Sample.acme 1 10)
    as (s & Hget & Htotal & Hrows & _).
  - reflexivity.
  - discriminate.
  - exists s. split; [exact Hget |]. rewrite Hrows, Htotal.
    split; reflexivity.
Defined.

(** X19: the reports by user, by work item and by project are three
    partitions of the same entries: for a query with well-formed dates the
    rows of each of the three add up to the sum of [duration_seconds] of
    the completed entries that pass the filters, and their counts to the
    number of those entries. *)
Theorem report_totals_agree
    (strptime_date : string -> option Z) (date_of : Instant -> Z)
    (database : RowOrder) (db : Db) (slug : Slug) (q : ReportQuery) (mode : string) :
  In mode ["user"; "work_item"; "project"]%string ->
  q_group_by q = Some mode ->
  dates_ok strptime_date q ->
  let entries :=
    filter (matches strptime_date date_of slug q) (time_entries db) in
  exists rows,
    TimeEntryReportsEndpoint_get strptime_date date_of database db slug q
    = mkResponse (ReportData mode (q_from q) (q_to q) rows) HTTP_200_OK
    /\ rows_total rows = sum_seconds entries
    /\ rows_count rows = count entries.
Proof.
  intros Hmode Hq Hdates entries.
  unfold TimeEntryReportsEndpoint_get.
  rewrite Hq, (report_queryset_matches strptime_date date_of db slug q Hdates).
  fold entries.
  destruct Hmode as [<- | [<- | [<- | []]]]; simpl;
    (eexists; split; [reflexivity |]).
  - destruct (report_user_rows database db entries)
      as (_ & _ & Ht & Hc & _). auto.
  - unfold report_work_item.
    apply (annotated_rows_total pair_eqb pair_eqb_eq database); reflexivity.
  - unfold report_project.
    apply (annotated_rows_total Z.eqb Z.eqb_eq database); reflexivity.
Qed.

Lemma report_totals_agree_witness :
  exists rows,
    TimeEntryReportsEndpoint_get Sample.no_dates Sample.utc_date
      Sample.backwards_order Sample.db_report Sample.acme (Sample.grouped "work_item")
    = mkResponse (ReportData "work_item" None None rows) HTTP_200_OK
    /\ rows_total rows = 6300.
Proof.
  destruct (report_totals_agree Sample.no_dates Sample.utc_date
              Sample.backwards_order Sample.db_report Sample.acme (Sample.grouped "work_item")
              "work_item")
    as (rows & Hget & Ht & _).
  - simpl. auto.
  - reflexivity.
  - split; intros s Hs; discriminate Hs.
  - exists rows. split; [exact Hget |]. rewrite Ht. reflexivity.
Defined.

(** X20: the report checks [group_by] first, then the [from] date, then
    the [to] date: an unknown [group_by] is answered 400 whatever the
    dates; with a known one, a [from] date that does not parse is answered
    400 whatever the [to] date; a bad [to] date is reported when [from] is
    absent or parses. *)
Theorem report_rejects_in_order
    (strptime_date : string -> option Z) (date_of : Instant -> Z)
    (database : RowOrder) (db : Db) (slug : Slug) (q : ReportQuery) :
  let known :=
    existsb (String.eqb (get_or (q_group_by q) "user"%string))
            valid_group_by in
  (known = false ->
   TimeEntryReportsEndpoint_get strptime_date date_of database db slug q
   = mkResponse
       (ErrorData "group_by must be one of: user, work_item, project, module")
       HTTP_400_BAD_REQUEST)
  /\ (known = true ->
      forall s, nonempty (q_from q) = Some s -> strptime_date s = None ->
      TimeEntryReportsEndpoint_get strptime_date date_of database db slug q
      = mkResponse (ErrorData "Invalid from date format. Use YYYY-MM-DD")
                   HTTP_400_BAD_REQUEST)
  /\ (known = true ->
      (forall s, nonempty (q_from q) = Some s -> strptime_date s <> None) ->
      forall s, nonempty (q_to q) = Some s -> strptime_date s = None ->
      TimeEntryReportsEndpoint_get strptime_date date_of database db slug q
      = mkResponse (ErrorData "Invalid to date format. Use YYYY-MM-DD")
                   HTTP_400_BAD_REQUEST).
Proof.
  intros known. subst known. unfold TimeEntryReportsEndpoint_get.
  split; [| split].
  - intros ->. reflexivity.
  - intros -> s Hs Hbad. simpl. unfold report_queryset.
    now rewrite Hs, Hbad.
  - intros -> Hfrom s Hs Hbad. simpl. unfold report_queryset.
    rewrite Hs, Hbad.
    destruct (nonempty (q_from q)) as [s0 |]; [| reflexivity].
    destruct (strptime_date s0) eqn:Hs0; [reflexivity |].
    exfalso. now apply (Hfrom s0).
Qed.

Lemma report_rejects_in_order_witness :
  TimeEntryReportsEndpoint_get Sample.no_dates Sample.utc_date
    Sample.in_order Sample.db_report Sample.acme
    {| q_group_by := Some "user"%string; q_from := Some "2024-01-01"%string;
       q_to := Some "tomorrow"%string;
       q_project_id := None; q_user_id := None |}
  = mkResponse (ErrorData "Invalid from date format. Use YYYY-MM-DD")
               HTTP_400_BAD_REQUEST.
Proof.
  destruct (report_rejects_in_order Sample.no_dates Sample.utc_date
              Sample.in_order Sample.db_report Sample.acme
              {| q_group_by := Some "user"%string;
                 q_from := Some "2024-01-01"%string;
                 q_to := Some "tomorrow"%string;
                 q_project_id := None; q_user_id := None |})
    as (_ & Hfrom & _).
  apply (Hfrom eq_refl "2024-01-01"%string); reflexivity.
Defined.

Lemma same_keys_short {A} (k : A) (l : list A) :
  NoDup l -> (forall x, In x l -> x = k) -> (List.length l <= 1)%nat.
Proof.
  intros Hnd Hall. destruct l as [| a [| b r]]; simpl; try lia.
  exfalso. inversion Hnd as [| ? ? Hnotin _]; subst.
  apply Hnotin. left.
  rewrite (Hall a (or_introl eq_refl)).
  rewrite (Hall b (or_intror (or_introl eq_refl))). reflexivity.
Qed.

(** X21: a report by user that is filtered on a user has at most one row,
    and that row is the row of that user. *)
Theorem report_by_user_filtered_on_user
    (strptime_date : string -> option Z) (date_of : Instant -> Z)
    (database : RowOrder) (db : Db) (slug : Slug) (q : ReportQuery) (u : Id) :
  get_or (q_group_by q) "user"%string = "user"%string ->
  q_user_id q = Some u ->
  dates_ok strptime_date q ->
  exists rows,
    TimeEntryReportsEndpoint_get strptime_date date_of database db slug q
    = mkResponse (ReportData "user" (q_from q) (q_to q) rows) HTTP_200_OK
    /\ (List.length rows <= 1)%nat
    /\ forall r, In r rows -> row_key r = u.
Proof.
  intros Hmode Hu Hdates.
  unfold TimeEntryReportsEndpoint_get.
  rewrite Hmode, (report_queryset_matches strptime_date date_of db slug q
                    Hdates).
  simpl. eexists. split; [reflexivity |].
  set (entries := filter (matches strptime_date date_of slug q)
                         (time_entries db)).
  destruct (report_user_rows database db entries) as (Hnd & Hkeys & _).
  assert (Hall : forall k,
            In k (map row_key (report_user database db entries)) -> k = u).
  { intros k Hk. apply Hkeys in Hk as (e & He & <-).
    apply filter_In in He as [_ Hm]. unfold matches in Hm.
    rewrite Hu in Hm. rewrite !andb_true_iff in Hm.
    destruct Hm as [[[_ Hm] _] _]. now apply Z.eqb_eq in Hm. }
  split.
  - rewrite <- (length_map row_key). now apply (same_keys_short u).
  - intros r Hr. apply Hall. now apply in_map.
Qed.

Lemma report_by_user_filtered_on_user_witness :
  exists rows,
    TimeEntryReportsEndpoint_get Sample.no_dates Sample.utc_date
      Sample.backwards_order Sample.db_report Sample.acme
      {| q_group_by := None; q_from := None; q_to := None;
         q_project_id := None; q_user_id := Some 8 |}
    = mkResponse (ReportData "user" None None rows) HTTP_200_OK
    /\ (List.length rows <= 1)%nat.
Proof.
  destruct (report_by_user_filtered_on_user Sample.no_dates Sample.utc_date
              Sample.backwards_order Sample.db_report Sample.acme
              {| q_group_by := None; q_from := None; q_to := None;
                 q_project_id := None; q_user_id := Some 8 |} 8)
    as (rows & Hget & Hlen & _).
  - reflexivity.
  - reflexivity.
  - split; intros s Hs; discriminate Hs.
  - exists rows. auto.
Defined.

(** X22: for a query with well-formed dates the export table is the
    12-column header followed by one row per completed entry passing the
    filters, in the order of the store (newest first); every row has 12
    cells, the ninth is the entry's [duration_seconds], the tenth its
    stored source and the eleventh is Yes or No after [is_billable]. *)
Theorem export_table_shape
    (strptime_date : string -> option Z) (date_of : Instant -> Z)
    (strftime_date : Instant -> string) (str_hours str_int : Z -> string)
    (db : Db) (slug : Slug) (q : ReportQuery) :
  dates_ok strptime_date q ->
  let entries :=
    filter (matches strptime_date date_of slug q) (time_entries db) in
  exists rows,
    TimeEntryExportEndpoint_get strptime_date date_of strftime_date
      str_hours str_int db slug q = inr (export_header :: rows)
    /\ List.length rows = List.length entries
    /\ Forall (fun r => List.length r = 12%nat) (export_header :: rows)
    /\ map (fun r => nth 8 r EmptyString) rows
       = map (fun e => str_int (duration_seconds e)) entries
    /\ map (fun r => nth 9 r EmptyString) rows
       = map (fun e => source_value (source e)) entries
    /\ map (fun r => nth 10 r EmptyString) rows
       = map (fun e => if is_billable e then "Yes" else "No")%string entries.
Proof.
  intros Hdates entries. unfold TimeEntryExportEndpoint_get.
  rewrite (report_queryset_matches strptime_date date_of db slug q Hdates).
  fold entries. eexists. split; [reflexivity |].
  split; [apply length_map |].
  split.
  - constructor; [reflexivity |].
    apply Forall_map. apply Forall_forall. intros e _. reflexivity.
  - rewrite !map_map. repeat split; reflexivity.
Qed.

Lemma export_table_shape_witness :
  exists rows,
    TimeEntryExportEndpoint_get Sample.no_dates Sample.utc_date
      (fun _ => "2024-01-01"%string) (fun _ => "0.0"%string)
      (fun _ => "0"%string) Sample.db_report Sample.acme
      (Sample.grouped "user") = inr (export_header :: rows)
    /\ List.length rows = 3%nat.
Proof.
  destruct (export_table_shape Sample.no_dates Sample.utc_date
              (fun _ => "2024-01-01"%string) (fun _ => "0.0"%string)
              (fun _ => "0"%string) Sample.db_report Sample.acme
              (Sample.grouped "user"))
    as (rows & Hget & Hlen & _).
  - split; intros s Hs; discriminate Hs.
  - exists rows. split; [exact Hget |]. rewrite Hlen. reflexivity.
Defined.

Lemma insert_desc_keeps_ties {K L} (t : Z) (g : Group K L)
    (l : list (Group K L)) :
  filter (fun x => g_total x =? t) (insert_desc g l)
  = filter (fun x => g_total x =? t) (g :: l).
Proof.
  induction l as [| x r IH]; simpl; [reflexivity |].
  destruct (g_total g <? g_total x) eqn:Hlt; [| reflexivity].
  apply Z.ltb_lt in Hlt. simpl. rewrite IH. simpl.
  destruct (g_total g =? t) eqn:Hg; destruct (g_total x =? t) eqn:Hx;
    try reflexivity.
  apply Z.eqb_eq in Hg, Hx. lia.
Qed.

Lemma sort_desc_keeps_ties {K L} (t : Z) (l : list (Group K L)) :
  filter (fun x => g_total x =? t) (sort_desc l)
  = filter (fun x => g_total x =? t) l.
Proof.
  induction l as [| x r IH]; simpl; [reflexivity |].
  rewrite insert_desc_keeps_ties. simpl. now rewrite IH.
Qed.

Lemma accumulate_key_order {L} (k : Id) (l : L) (seconds n : Z)
    (acc : list (Group Id L)) :
  map g_key (accumulate Z.eqb k l seconds n acc)
  = remember (map g_key acc) (Some k).
Proof.
  unfold remember, Id in *.
  induction acc as [| g rest IH]; simpl; [reflexivity |].
  destruct (k =? g_key g) eqn:Hk; simpl; [reflexivity |].
  rewrite IH. destruct (existsb (Z.eqb k) (map g_key rest)); reflexivity.
Qed.

Lemma fold_aggregate_key_order items acc :
  map g_key (fold_left aggregate_step items acc)
  = fold_left remember
      (map (fun item => option_map fst (g_label item)) items)
      (map g_key acc).
Proof.
  revert acc. induction items as [| item items IH]; intros acc; simpl;
    [reflexivity |].
  rewrite IH. f_equal. unfold aggregate_step.
  destruct (g_label item) as [[m name] |]; simpl; [| reflexivity].
  apply accumulate_key_order.
Qed.

Lemma filter_by_key {K L} (T : K -> Z) (t : Z) (gs : list (Group K L)) :
  (forall g, In g gs -> g_total g = T (g_key g)) ->
  map g_key (filter (fun g => g_total g =? t) gs)
  = filter (fun k => T k =? t) (map g_key gs).
Proof.
  induction gs as [| g rest IH]; intros Hall; simpl; [reflexivity |].
  rewrite <- (Hall g (or_introl eq_refl)).
  destruct (g_total g =? t); simpl; rewrite IH; auto.
  - intros x Hx. apply Hall. now right.
  - intros x Hx. apply Hall. now right.
Qed.

(** The total of a module in the dictionary is the total of the entries
    whose issue has the module as its first link. *)
Lemma module_aggregates_total (database : RowOrder) (db : Db)
    (entries : list TimeEntry) g :
  In g (module_aggregates (module_items database db entries)) ->
  g_total g
  = sum_seconds (filter (fun e => option_Z_eqb (module_of db e)
                                               (Some (g_key g))) entries).
Proof.
  intros Hg.
  set (aggregates := module_aggregates (module_items database db entries))
    in *.
  assert (Hnd : NoDup (map g_key aggregates))
    by (apply fold_aggregate_NoDup; constructor).
  destruct (group_where Z.eqb Z.eqb_eq aggregates g Hnd Hg) as [Ht _].
  unfold Id in *. rewrite <- Ht.
  unfold aggregates, module_aggregates.
  destruct (fold_aggregate_where (Z.eqb (g_key g))
              (module_items database db entries) []) as [Hf _].
  destruct (module_items_where database db (Z.eqb (g_key g)) entries)
    as [Hi _].
  unfold Id in *. rewrite Hf, Hi. simpl. f_equal. apply filter_ext.
  intros e. unfold through_module, module_of. simpl.
  destruct (first_module_issue db (issue e)); simpl;
    [apply Z.eqb_sym | reflexivity].
Qed.

(** X23: in the module report, modules with the same [total_seconds] come
    in the order in which they entered the [module_aggregates] dictionary
    (the sort is stable), and that is the order in which the database
    lists the issue groups: a module comes where the first of its issues
    is listed.  Listed one way or the other, two modules that tie come one
    way or the other. *)
Theorem module_report_ties_keep_order
    (strptime_date : string -> option Z) (date_of : Instant -> Z)
    (database : RowOrder) (db : Db) (slug : Slug) (q : ReportQuery) :
  q_group_by q = Some "module"%string ->
  dates_ok strptime_date q ->
  let entries :=
    filter (matches strptime_date date_of slug q) (time_entries db) in
  let listed :=
    map (fun g => option_map mi_module (first_module_issue db (fst (g_key g))))
        (values_annotate database pair_eqb (fun e => (issue e, project e))
           (fun _ => tt) entries) in
  let total_of m :=
    sum_seconds (filter (fun e => option_Z_eqb (module_of db e) (Some m))
                        entries) in
  exists rows,
    TimeEntryReportsEndpoint_get strptime_date date_of database db slug q
    = mkResponse (ReportData "module" (q_from q) (q_to q) rows) HTTP_200_OK
    /\ forall t,
         map row_key (filter (fun r => total_seconds r =? t) rows)
         = filter (fun m => total_of m =? t) (insertion_order listed).
Proof.
  intros Hmode Hdates entries listed total_of.
  unfold TimeEntryReportsEndpoint_get.
  rewrite Hmode, (report_queryset_matches strptime_date date_of db slug q
                    Hdates).
  simpl. fold entries. eexists. split; [reflexivity |].
  intros t. unfold report_module.
  set (aggregates := module_aggregates (module_items database db entries)).
  transitivity (map g_key (filter (fun g => g_total g =? t) aggregates)).
  - rewrite <- (sort_desc_keeps_ties t aggregates).
    generalize (sort_desc aggregates).
    intros gs. induction gs as [| g rest IH]; simpl; [reflexivity |].
    destruct (g_total g =? t); simpl; now rewrite IH.
  - transitivity (filter (fun m => total_of m =? t)
                         (map g_key aggregates)).
    { apply filter_by_key. intros g Hg.
      now apply module_aggregates_total in Hg. }
    f_equal. unfold aggregates, module_aggregates.
    rewrite fold_aggregate_key_order. unfold insertion_order, listed.
    simpl. f_equal. unfold module_items. rewrite map_map.
    apply map_ext. intros g. simpl.
    now destruct (first_module_issue db (fst (g_key g))).
Qed.

Lemma module_report_ties_keep_order_witness :
  (exists rows,
      TimeEntryReportsEndpoint_get Sample.no_dates Sample.utc_date
        Sample.in_order Cases.db_tie Sample.acme (Sample.grouped "module")
      = mkResponse (ReportData "module" None None rows) HTTP_200_OK
      /\ map total_seconds rows = [1800; 1800]
      /\ map row_key (filter (fun r => total_seconds r =? 1800) rows)
         = [901; 900])
  /\ (exists rows,
        TimeEntryReportsEndpoint_get Sample.no_dates Sample.utc_date
          Sample.backwards_order Cases.db_tie Sample.acme
          (Sample.grouped "module")
        = mkResponse (ReportData "module" None None rows) HTTP_200_OK
        /\ map row_key (filter (fun r => total_seconds r =? 1800) rows)
           = [900; 901]).
Proof.
  split.
  - destruct (module_report_ties_keep_order Sample.no_dates Sample.utc_date
                Sample.in_order Cases.db_tie Sample.acme
                (Sample.grouped "module"))
      as (rows & Hget & Hties).
    + reflexivity.
    + split; intros s Hs; discriminate Hs.
    + exists rows. split; [exact Hget |]. rewrite Hties.
      split; [| reflexivity].
      injection Hget as <-. reflexivity.
  - destruct (module_report_ties_keep_order Sample.no_dates Sample.utc_date
                Sample.backwards_order Cases.db_tie Sample.acme
                (Sample.grouped "module"))
      as (rows & Hget & Hties).
    + reflexivity.
    + split; intros s Hs; discriminate Hs.
    + exists rows. split; [exact Hget |]. rewrite Hties. reflexivity.
Defined.

(** ** Duration arithmetic, continued *)

Lemma int_total_seconds_floor_nonneg (d : Z) :
  0 <= d < exact_below ->
  int_total_seconds d * 1000000 <= d
  < int_total_seconds d * 1000000 + 1000000.
Proof.
  intros Hd. rewrite int_total_seconds_nonneg by exact Hd.
  pose proof (Z.div_mod d 1000000 ltac:(lia)) as Hdm.
  pose proof (Z.mod_pos_bound d 1000000 ltac:(lia)) as Hb.
  lia.
Qed.

(** X24: between instants less than [2 ^ 34] seconds (about 544 years)
    apart, the elapsed seconds grow with the stop instant, are exact on
    whole seconds, and splitting an interval at an instant in between
    never counts more than the whole interval and loses at most one
    second.  Over longer intervals the double of [total_seconds] breaks
    both bounds: from 1970 to the year 3603, split in 3058, the two parts
    count one second more than the whole; and two parts that end in 3058
    count two seconds less than the whole. *)
Theorem elapsed_seconds_splits :
  (forall a b c : Instant,
     a <= b -> b <= c -> c - a < exact_below ->
     elapsed_seconds a b <= elapsed_seconds a c
     /\ elapsed_seconds a c - 1
        <= elapsed_seconds a b + elapsed_seconds b c
        <= elapsed_seconds a c)
  /\ (forall a b : Z,
        a <= b -> (b - a) * 1000000 < exact_below ->
        elapsed_seconds (of_seconds a) (of_seconds b) = b - a)
  /\ elapsed_seconds Sample.t_epoch Cases.t_3058
     + elapsed_seconds Cases.t_3058 Cases.t_3603
     = elapsed_seconds Sample.t_epoch Cases.t_3603 + 1
  /\ elapsed_seconds Sample.t_epoch Cases.t_3058'
     + elapsed_seconds Cases.t_3058' Cases.t_3058''
     = elapsed_seconds Sample.t_epoch Cases.t_3058'' - 2.
Proof.
  split; [| split; [| split]].
  - intros a b c Hab Hbc Hbound. unfold elapsed_seconds.
    pose proof (int_total_seconds_floor_nonneg (b - a) ltac:(lia)) as H1.
    pose proof (int_total_seconds_floor_nonneg (c - b) ltac:(lia)) as H2.
    pose proof (int_total_seconds_floor_nonneg (c - a) ltac:(lia)) as H3.
    split; lia.
  - intros a b Hab Hbound. unfold elapsed_seconds, of_seconds.
    rewrite int_total_seconds_nonneg by lia.
    replace (b * 1000000 - a * 1000000) with ((b - a) * 1000000) by lia.
    rewrite Z.div_mul by lia. lia.
  - vm_compute. reflexivity.
  - vm_compute. reflexivity.
Qed.

Lemma elapsed_seconds_splits_witness :
  elapsed_seconds Sample.t_10_00 Sample.t_12_00 - 1
  <= elapsed_seconds Sample.t_10_00 Sample.t_11_30
     + elapsed_seconds Sample.t_11_30 Sample.t_12_00
  <= elapsed_seconds Sample.t_10_00 Sample.t_12_00.
Proof.
  destruct elapsed_seconds_splits as (Hsplit & _).
  destruct (Hsplit Sample.t_10_00 Sample.t_11_30 Sample.t_12_00)
    as (_ & Hle).
  - unfold Sample.t_10_00, Sample.t_11_30, of_seconds. lia.
  - unfold Sample.t_11_30, Sample.t_12_00, of_seconds. lia.
  - unfold Sample.t_10_00, Sample.t_12_00, of_seconds, exact_below.
    simpl. lia.
  - exact Hle.
Defined.

(** ** The timer endpoints together *)



(** ** What the create endpoint accepts *)

Lemma create_is_valid_iff (p : CreatePayload) (now : Instant) :
  (exists v, TimeEntryCreateSerializer_is_valid p now = inr v)
  <-> c_issue_id p <> None
      /\ (forall d, c_duration_seconds p = Some d -> 0 <= d)
      /\ (c_source p <> Some TIMER ->
          exists d, c_duration_seconds p = Some d /\ d <> 0).
Proof.
  destruct p as [[i |] [[| x | x] |] st en [[|] |] nt bl];
    unfold TimeEntryCreateSerializer_is_valid,
      TimeEntryCreateSerializer_fields,
      TimeEntryCreateSerializer_validate; simpl;
    try destruct st; simpl;
    (split;
     [ intros (v & Hv);
       first
         [ discriminate Hv
         | split; [discriminate |];
           split; [intros d [= <-]; lia |];
           intros Hsrc;
           first [ congruence
                 | eexists; split; [reflexivity | lia] ] ]
     | intros (Hid & Hd & Hsrc);
       first
         [ congruence
         | eexists; reflexivity
         | specialize (Hd _ eq_refl); lia
         | destruct Hsrc as (d & Hd' & Hnz);
           [discriminate | congruence] ] ]).
Qed.

(** X26: where the base view answers an exception with an error status,
    the create endpoint answers 201 exactly when time tracking is on, the
    issue of the route is found, the body has the [issue_id] of an
    existing issue, its [duration_seconds] is within the column (0 to
    2147483647), and, unless its source is TIMER, it has a
    [duration_seconds] other than zero.  The row stored then is the head of
    the table, has source MANUAL, belongs to the requester, to the issue
    that the body names and to the workspace and project of the issue of
    the route.  In every other case the store is unchanged; a duration
    above the column and the key of no issue are answered by the base
    view. *)
Theorem create_accepts_iff (handle_exception : DatabaseError -> Response)
    (db : Db) (U : Id) (p : CreatePayload)
    (slug : Slug) (P A : Id) (now : Instant) (uuid : Id) :
  answers_with_error handle_exception ->
  let answer :=
    TimeEntryViewSet_create handle_exception db U p slug P A now uuid in
  (status (fst answer) = HTTP_201_CREATED
   <-> _check_time_tracking_enabled db P = None
       /\ get_issue db slug P A <> None
       /\ (exists I i, c_issue_id p = Some I
                       /\ In i (issues db) /\ issue_pk i = I)
       /\ (forall d, c_duration_seconds p = Some d ->
                     0 <= d <= integer_field_max)
       /\ (c_source p <> Some TIMER ->
           exists d, c_duration_seconds p = Some d /\ d <> 0))
  /\ (status (fst answer) = HTTP_201_CREATED ->
      exists e I,
        time_entries (snd answer) = e :: time_entries db
        /\ id e = uuid /\ source e = MANUAL /\ user e = U
        /\ c_issue_id p = Some I /\ issue e = I
        /\ project e = P /\ workspace e = slug
        /\ duration_seconds e = get_or (c_duration_seconds p) 0)
  /\ (status (fst answer) <> HTTP_201_CREATED -> snd answer = db)
  /\ (forall v,
        _check_time_tracking_enabled db P = None ->
        get_issue db slug P A <> None ->
        TimeEntryCreateSerializer_is_valid p now = inr v ->
        (integer_field_max < get_or (v_duration_seconds v) 0 ->
         answer = (handle_exception DataError, db))
        /\ (get_or (v_duration_seconds v) 0 <= integer_field_max ->
            (forall i, In i (issues db) -> issue_pk i <> v_issue_id v) ->
            answer = (handle_exception IntegrityError, db))).
Proof.
  intros Herr answer. subst answer.
  pose proof (create_is_valid_iff p now) as Hvalid.
  split; [split |]; [| | split; [| split]].
  - intros Hok.
    destruct (create_created_inv handle_exception db U p slug P A now uuid
                Herr Hok)
      as (issue_row & v & Hcheck & Hget & Hv & Hid & Hmax & (i & Hi & Hpk)
          & _).
    split; [exact Hcheck |]. split; [congruence |].
    split; [exists (v_issue_id v), i; auto |].
    destruct (proj1 Hvalid (ex_intro _ v Hv)) as (_ & Hpos & Hsrc).
    split; [| exact Hsrc].
    intros d Hd. split; [now apply Hpos |].
    apply create_is_valid_keeps in Hv as [_ Hkeep].
    rewrite Hkeep, Hd in Hmax. exact Hmax.
  - intros (Hcheck & Hget & (I & i & HI & Hi & Hpk) & Hrange & Hsrc).
    destruct (proj2 Hvalid) as (v & Hv).
    { split; [congruence |]. split; [| exact Hsrc].
      intros d Hd. now apply Hrange. }
    unfold TimeEntryViewSet_create. rewrite Hcheck.
    destruct (get_issue db slug P A) as [issue_row |]; [| congruence].
    rewrite Hv.
    destruct (create_is_valid_keeps p now v Hv) as [Hid Hkeep].
    match goal with
    | |- context [insert_error db ?e] =>
        assert (Hins : insert_error db e = None)
    end.
    { apply insert_error_none. cbn [duration_seconds issue]. split.
      - rewrite Hkeep. destruct (c_duration_seconds p) as [d |]; simpl.
        + now apply Hrange.
        + unfold integer_field_max. lia.
      - exists i. split; [exact Hi |]. congruence. }
    now rewrite Hins.
  - intros Hok.
    destruct (create_created_inv handle_exception db U p slug P A now uuid
                Herr Hok)
      as (issue_row & v & Hcheck & Hget & Hv & Hid & _ & _ & ->).
    apply get_issue_found in Hget as (_ & Hproj & Hws).
    apply create_is_valid_keeps in Hv as [_ Hkeep].
    cbv zeta. eexists. exists (v_issue_id v). cbn [snd fst].
    split; [reflexivity |]. simpl.
    repeat (split; [solve [reflexivity | assumption] |]).
    now rewrite Hkeep.
  - unfold TimeEntryViewSet_create.
    destruct (_check_time_tracking_enabled db P); [reflexivity |].
    destruct (get_issue db slug P A); [| reflexivity].
    destruct (TimeEntryCreateSerializer_is_valid p now); [reflexivity |].
    destruct (insert_error db _); [reflexivity |].
    simpl. congruence.
  - intros v Hcheck Hget Hv. unfold TimeEntryViewSet_create.
    rewrite Hcheck, Hv.
    destruct (get_issue db slug P A) as [issue_row |]; [| congruence].
    unfold insert_error. cbn [duration_seconds issue]. split.
    + intros Hmax. apply Z.ltb_lt in Hmax. now rewrite Hmax.
    + intros Hmax Hnone. apply Z.ltb_ge in Hmax. rewrite Hmax.
      destruct (existsb _ (issues db)) eqn:Hfk; [| reflexivity].
      apply existsb_exists in Hfk as (i & Hi & Hpk).
      apply Z.eqb_eq in Hpk. exfalso. now apply (Hnone i).
Qed.

Lemma create_accepts_iff_witness :
  (exists e,
      time_entries
        (snd (TimeEntryViewSet_create Sample.server_error Sample.empty_db 7
                Cases.on_issue_B Sample.acme 1 10 Sample.t_12_00 301))
      = [e]
      /\ source e = MANUAL /\ issue e = 11 /\ duration_seconds e = 600)
  /\ TimeEntryViewSet_create Sample.server_error Sample.empty_db 7
       Cases.too_long Sample.acme 1 10 Sample.t_12_00 302
     = (Sample.server_error DataError, Sample.empty_db)
  /\ TimeEntryViewSet_create Sample.server_error Sample.empty_db 7
       Cases.on_no_issue Sample.acme 1 10 Sample.t_12_00 303
     = (Sample.server_error IntegrityError, Sample.empty_db).
Proof.
  assert (Herr : answers_with_error Sample.server_error)
    by (intros exc; simpl; lia).
  split; [| split].
  - destruct (create_accepts_iff Sample.server_error Sample.empty_db 7
                Cases.on_issue_B Sample.acme 1 10 Sample.t_12_00 301 Herr)
      as (_ & Hrow & _).
    destruct (Hrow eq_refl)
      as (e & I & Hrows & _ & Hsrc & _ & HI & Hissue & _ & _ & Hd).
    exists e. split; [exact Hrows |]. split; [exact Hsrc |].
    injection HI as <-. split; [exact Hissue |].
    rewrite Hd. reflexivity.
  - destruct (create_accepts_iff Sample.server_error Sample.empty_db 7
                Cases.too_long Sample.acme 1 10 Sample.t_12_00 302 Herr)
      as (_ & _ & _ & Hraise).
    destruct (Hraise _ eq_refl ltac:(discriminate) eq_refl) as [Hdata _].
    apply Hdata. reflexivity.
  - destruct (create_accepts_iff Sample.server_error Sample.empty_db 7
                Cases.on_no_issue Sample.acme 1 10 Sample.t_12_00 303 Herr)
      as (_ & _ & _ & Hraise).
    destruct (Hraise _ eq_refl ltac:(discriminate) eq_refl) as [_ Hkey].
    apply Hkey.
    + simpl. unfold integer_field_max. lia.
    + simpl. intros i [<- | [<- | [<- | []]]]; discriminate.
Defined.

(** ** AI chat: truncating a conversation *)

Lemma filter_partition_length {A} (p : A -> bool) (l : list A) :
  (List.length (filter p l) + List.length (filter (fun x => negb (p x)) l)
   = List.length l)%nat.
Proof.
  induction l as [| x r IH]; simpl; [reflexivity |].
  destruct (p x); simpl; lia.
Qed.

(** X27: truncating a conversation of the requester at one of its messages
    is answered 200; it deletes exactly the messages of that conversation
    whose [created_at] is not before that of the message, the message
    itself among them, and reports their number; the messages returned are
    the older ones of the conversation, and the messages of other
    conversations stay. *)
Theorem truncate_cuts_from_message
    (db : AIChat.ChatDb) (U : Id) (slug : Slug) (cid mid : Id)
    (c : AIChat.AIChatConversation) (m : AIChat.AIChatMessage) :
  In slug (AIChat.workspaces db) ->
  find (fun c => (AIChat.conversation_pk c =? cid)
                 && String.eqb (AIChat.conversation_workspace c) slug
                 && (AIChat.conversation_user c =? U))
       (AIChat.conversations db) = Some c ->
  find (fun x => (AIChat.message_pk x =? mid)
                 && (AIChat.conversation x =? AIChat.conversation_pk c))
       (AIChat.messages db) = Some m ->
  exists detail deleted db',
    AIChat.AIChatTruncateConversationEndpoint_post db U slug cid mid
    = (AIChat.mkChatResponse (AIChat.Truncated detail deleted) HTTP_200_OK,
       db')
    /\ AIChat.messages db'
       = filter (fun x => negb (AIChat.to_delete c m x)) (AIChat.messages db)
    /\ deleted
       = List.length (filter (AIChat.to_delete c m) (AIChat.messages db))
    /\ (1 <= deleted)%nat
    /\ (deleted + List.length (AIChat.messages db')
        = List.length (AIChat.messages db))%nat
    /\ ~ In m (AIChat.messages db')
    /\ AIChat.detail_messages detail
       = filter (fun x => (AIChat.conversation x =? cid)
                          && (AIChat.message_created_at x
                              <? AIChat.message_created_at m))
                (AIChat.messages db)
    /\ AIChat.message_count detail
       = List.length (AIChat.detail_messages detail)
    /\ (forall x, In x (AIChat.messages db) ->
                  AIChat.conversation x <> cid ->
                  In x (AIChat.messages db')).
Proof.
  intros Hws Hconv Hmsg.
  unfold AIChat.AIChatTruncateConversationEndpoint_post.
  destruct (find (String.eqb slug) (AIChat.workspaces db))
    as [w |] eqn:Hw.
  2:{ apply (find_none _ _ Hw) in Hws. rewrite String.eqb_refl in Hws.
      discriminate. }
  apply find_some in Hw as [_ Hw]. apply String.eqb_eq in Hw. subst w.
  rewrite Hconv, Hmsg.
  pose proof (find_some _ _ Hconv) as [_ Hc].
  apply andb_prop in Hc as [Hc _]. apply andb_prop in Hc as [Hcpk _].
  apply Z.eqb_eq in Hcpk.
  pose proof (find_some _ _ Hmsg) as [Hmin Hm].
  apply andb_prop in Hm as [_ Hmc].
  assert (Hdel : AIChat.to_delete c m m = true).
  { unfold AIChat.to_delete. rewrite Hmc. simpl. apply Z.leb_refl. }
  eexists. eexists. eexists. split; [reflexivity |].
  split; [reflexivity |]. split; [reflexivity |].
  split.
  { assert (Hin : In m (filter (AIChat.to_delete c m) (AIChat.messages db)))
      by (apply filter_In; auto).
    destruct (filter (AIChat.to_delete c m) (AIChat.messages db));
      [contradiction | simpl; lia]. }
  split; [apply filter_partition_length |].
  split.
  { simpl. intros Hin. apply filter_In in Hin as [_ Hin].
    rewrite Hdel in Hin. discriminate. }
  split.
  { simpl. unfold AIChat.messages_of. simpl. rewrite filter_filter.
    apply filter_ext. intros x. unfold AIChat.to_delete. rewrite Hcpk.
    destruct (AIChat.conversation x =? cid); simpl; [| reflexivity].
    rewrite andb_true_r, Z.ltb_antisym. reflexivity. }
  split; [reflexivity |].
  intros x Hx Hne. simpl. apply filter_In. split; [exact Hx |].
  unfold AIChat.to_delete. rewrite Hcpk.
  apply Z.eqb_neq in Hne. now rewrite Hne.
Qed.

Lemma truncate_cuts_from_message_witness :
  exists detail db',
    AIChat.AIChatTruncateConversationEndpoint_post AIChat.sample 7
      "acme"%string 50 501
    = (AIChat.mkChatResponse (AIChat.Truncated detail 2) HTTP_200_OK, db')
    /\ map AIChat.message_pk (AIChat.detail_messages detail) = [500]
    /\ map AIChat.message_pk (AIChat.messages db') = [500; 510].
Proof.
  destruct (truncate_cuts_from_message AIChat.sample 7 "acme"%string 50 501
              (AIChat.mkConversation 50 "acme"%string 7 "Plan"%string false)
              (AIChat.mkMessage 501 50 "assistant"%string
                 (AIChat.text "first answer") (Some 12) 2000))
    as (detail & deleted & db' & Hpost & Hrows & Hdel & _ & _ & _
        & Hdetail & _).
  - simpl. auto.
  - reflexivity.
  - reflexivity.
  - exists detail, db'. subst deleted. split; [exact Hpost |].
    rewrite Hdetail, Hrows. split; reflexivity.
Defined.

(** X28: a truncation is answered 200 exactly when the workspace exists,
    the conversation is one of the requester in that workspace and the
    message belongs to it; in every other case it is answered 404 and
    nothing is deleted, so a user cannot truncate the conversation of
    another. *)
Theorem truncate_succeeds_iff
    (db : AIChat.ChatDb) (U : Id) (slug : Slug) (cid mid : Id) :
  (AIChat.chat_status
     (fst (AIChat.AIChatTruncateConversationEndpoint_post db U slug cid mid))
   = HTTP_200_OK
   <-> In slug (AIChat.workspaces db)
       /\ (exists c, In c (AIChat.conversations db)
                     /\ AIChat.conversation_pk c = cid
                     /\ AIChat.conversation_workspace c = slug
                     /\ AIChat.conversation_user c = U)
       /\ (exists m, In m (AIChat.messages db)
                     /\ AIChat.message_pk m = mid
                     /\ AIChat.conversation m = cid))
  /\ (AIChat.chat_status
        (fst (AIChat.AIChatTruncateConversationEndpoint_post
                db U slug cid mid))
      <> HTTP_200_OK ->
      AIChat.chat_status
        (fst (AIChat.AIChatTruncateConversationEndpoint_post
                db U slug cid mid))
      = HTTP_404_NOT_FOUND
      /\ snd (AIChat.AIChatTruncateConversationEndpoint_post
                db U slug cid mid) = db).
Proof.
  unfold AIChat.AIChatTruncateConversationEndpoint_post.
  destruct (find (String.eqb slug) (AIChat.workspaces db))
    as [w |] eqn:Hw.
  2:{ split; [split |].
      - discriminate.
      - intros (Hin & _). apply (find_none _ _ Hw) in Hin.
        rewrite String.eqb_refl in Hin. discriminate.
      - auto. }
  apply find_some in Hw as [Hwin Hw]. apply String.eqb_eq in Hw. subst w.
  destruct (find _ (AIChat.conversations db)) as [c |] eqn:Hc.
  2:{ split; [split |].
      - discriminate.
      - intros (_ & (c & Hin & Hpk & Hcw & Hcu) & _).
        apply (find_none _ _ Hc) in Hin.
        rewrite Hpk, Hcw, Hcu, String.eqb_refl, !Z.eqb_refl in Hin.
        discriminate.
      - auto. }
  apply find_some in Hc as [Hcin Hc].
  apply andb_prop in Hc as [Hc Hcu]. apply andb_prop in Hc as [Hcpk Hcw].
  apply Z.eqb_eq in Hcpk, Hcu. apply String.eqb_eq in Hcw.
  destruct (find _ (AIChat.messages db)) as [m |] eqn:Hm.
  2:{ split; [split |].
      - discriminate.
      - intros (_ & _ & (m & Hin & Hpk & Hmc)).
        apply (find_none _ _ Hm) in Hin.
        rewrite Hpk, Hmc, Hcpk, !Z.eqb_refl in Hin. discriminate.
      - auto. }
  apply find_some in Hm as [Hmin Hm].
  apply andb_prop in Hm as [Hmpk Hmc]. apply Z.eqb_eq in Hmpk, Hmc.
  split; [split |].
  - intros _. split; [exact Hwin |]. split.
    + exists c. auto.
    + exists m. split; [exact Hmin |]. split; [exact Hmpk |]. congruence.
  - reflexivity.
  - simpl. congruence.
Qed.

Lemma truncate_succeeds_iff_witness :
  snd (AIChat.AIChatTruncateConversationEndpoint_post AIChat.sample 8
         "acme"%string 50 501) = AIChat.sample.
Proof.
  destruct (truncate_succeeds_iff AIChat.sample 8 "acme"%string 50 501)
    as [_ Hfail].
  apply Hfail. discriminate.
Defined.

Lemma latest_fold (l : list AIChat.AIChatMessage)
    (best : option AIChat.AIChatMessage) :
  match
    fold_left (fun best m =>
                 match best with
                 | None => Some m
                 | Some b =>
                     if AIChat.message_created_at b
                        <=? AIChat.message_created_at m
                     then Some m else Some b
                 end) l best
  with
  | Some r =>
      (In r l \/ best = Some r)
      /\ (forall x, In x l ->
                    AIChat.message_created_at x
                    <= AIChat.message_created_at r)
      /\ (forall b, best = Some b ->
                    AIChat.message_created_at b
                    <= AIChat.message_created_at r)
  | None => l = [] /\ best = None
  end.
Proof.
  revert best. induction l as [| m l IH]; intros best; simpl.
  - destruct best; [| auto]. repeat split; auto.
    + intros x [].
    + intros b [= ->]. lia.
  - set (next := match best with
                 | None => Some m
                 | Some b =>
                     if AIChat.message_created_at b
                        <=? AIChat.message_created_at m
                     then Some m else Some b
                 end).
    specialize (IH next).
    destruct (fold_left _ l next) as [r |].
    + destruct IH as (Hin & Hall & Hbest).
      assert (Hm : AIChat.message_created_at m
                   <= AIChat.message_created_at r
                   /\ (forall b, best = Some b ->
                                 AIChat.message_created_at b
                                 <= AIChat.message_created_at r)
                   /\ (next = Some r -> m = r \/ best = Some r)).
      { subst next. destruct best as [b |].
        - destruct (AIChat.message_created_at b
                    <=? AIChat.message_created_at m) eqn:Hle.
          + apply Z.leb_le in Hle. specialize (Hbest m eq_refl).
            repeat split; [exact Hbest | | ].
            * intros b' [= <-]. lia.
            * intros [= ->]. now left.
          + apply Z.leb_gt in Hle. specialize (Hbest b eq_refl).
            repeat split; [lia | | ].
            * intros b' [= <-]. exact Hbest.
            * intros [= ->]. now right.
        - specialize (Hbest m eq_refl).
          repeat split; [exact Hbest | discriminate |].
          intros [= ->]. now left. }
      destruct Hm as (Hmr & Hbr & Hnext).
      split; [| split].
      * destruct Hin as [Hin | Hin]; [left; now right |].
        destruct (Hnext Hin) as [-> | ->]; [left; now left | now right].
      * intros x [<- | Hx]; [exact Hmr | now apply Hall].
      * exact Hbr.
    + destruct IH as [_ Hnone]. subst next.
      destruct best as [b |]; [| discriminate].
      destruct (_ <=? _); discriminate.
Qed.

(** X29: the [last_message] of a conversation is null exactly when the
    conversation has no message ([message_count] is 0); otherwise it
    carries a message of the conversation that no other is newer than, and
    its content is the first 100 code points of the content of that
    message: the whole content when that has at most 100 code points, and
    exactly 100 code points, followed in the message by the rest, when it
    has more. *)
Theorem last_message_preview (db : AIChat.ChatDb)
    (obj : AIChat.AIChatConversation) :
  (AIChat.get_last_message db obj = None
   <-> AIChat.get_message_count db obj = 0%nat)
  /\ (forall last,
        AIChat.get_last_message db obj = Some last ->
        exists m,
          In m (AIChat.messages db)
          /\ AIChat.conversation m = AIChat.conversation_pk obj
          /\ AIChat.last_id last = AIChat.message_pk m
          /\ AIChat.last_role last = AIChat.role m
          /\ AIChat.last_created_at last = AIChat.message_created_at m
          /\ (forall x, In x (AIChat.messages db) ->
                        AIChat.conversation x = AIChat.conversation_pk obj ->
                        AIChat.message_created_at x
                        <= AIChat.message_created_at m)
          /\ (forall i, (i < 100)%nat ->
                        nth_error (AIChat.last_content last) i
                        = nth_error (AIChat.content m) i)
          /\ List.length (AIChat.last_content last)
             = Nat.min 100 (List.length (AIChat.content m))
          /\ ((List.length (AIChat.content m) <= 100)%nat ->
              AIChat.last_content last = AIChat.content m)
          /\ ((100 < List.length (AIChat.content m))%nat ->
              AIChat.content m
              = AIChat.last_content last ++ skipn 100 (AIChat.content m))).
Proof.
  unfold AIChat.get_last_message, AIChat.get_message_count, AIChat.latest.
  pose proof (latest_fold (AIChat.messages_of db obj) None) as Hlatest.
  destruct (fold_left _ (AIChat.messages_of db obj) None) as [r |].
  - destruct Hlatest as ([Hin | Hin] & Hall & _); [| discriminate].
    split.
    + split; [discriminate |].
      destruct (AIChat.messages_of db obj); [contradiction | discriminate].
    + intros last Hlast.
      apply (f_equal (fun o => match o with Some x => x | None => last end))
        in Hlast.
      subst last.
      cbn [AIChat.last_id AIChat.last_role AIChat.last_content
           AIChat.last_created_at].
      unfold AIChat.messages_of in Hin, Hall.
      apply filter_In in Hin as [Hin Hc]. apply Z.eqb_eq in Hc.
      exists r.
      split; [exact Hin |]. split; [exact Hc |].
      split; [reflexivity |]. split; [reflexivity |].
      split; [reflexivity |]. split; [| split; [| split; [| split]]].
      * intros x Hx Hxc. apply Hall. apply filter_In. split; [exact Hx |].
        now apply Z.eqb_eq.
      * intros i Hi. rewrite nth_error_firstn.
        apply Nat.ltb_lt in Hi. now rewrite Hi.
      * apply length_firstn.
      * intros Hshort. now apply firstn_all2.
      * intros _. symmetry. apply firstn_skipn.
  - destruct Hlatest as [Hnil _]. rewrite Hnil. split.
    + split; reflexivity.
    + discriminate.
Qed.

Lemma last_message_preview_witness :
  exists last,
    AIChat.get_last_message AIChat.sample_long
      (AIChat.mkConversation 50 "acme"%string 7 "Plan"%string false)
    = Some last
    /\ AIChat.last_id last = 503
    /\ List.length (AIChat.last_content last) = 100%nat
    /\ AIChat.long_content = AIChat.last_content last ++ repeat 945 20.
Proof.
  destruct (last_message_preview AIChat.sample_long
              (AIChat.mkConversation 50 "acme"%string 7 "Plan"%string false))
    as [_ Hlast].
  eexists. split; [reflexivity |].
  destruct (Hlast _ eq_refl)
    as (m & _ & _ & Hid & _ & _ & _ & _ & Hlen & _ & Hrest).
  split; [reflexivity |]. split; reflexivity.
Defined.

(** ** Further instances *)



Lemma validators_are_idempotent_witness :
  exists v,
    TimeEntrySerializer_validate (Sample.attrs_range (Some TIMER)) = inr v
    /\ TimeEntrySerializer_validate v = inr v
    /\ a_duration_seconds v = Some 5400.
Proof.
  destruct validators_are_idempotent as (Hfull & _ & _).
  eexists. split; [reflexivity |].
  split; [| reflexivity].
  apply (Hfull (Sample.attrs_range (Some TIMER))). reflexivity.
Defined.

Lemma forbidden_iff_not_owner_nor_admin_witness :
  TimeEntryViewSet_destroy Sample.db_ranged 8 Sample.acme 1 10 301
  = (Forbidden "You don't have permission to delete this time entry",
     Sample.db_ranged).
Proof.
  destruct (forbidden_iff_not_owner_nor_admin Sample.db_ranged 8
              Sample.acme 1 10 301) as [_ Hdestroy].
  apply Hdestroy. split; [reflexivity |].
  exists Sample.ranged_row. split; [reflexivity |].
  split; [discriminate | reflexivity].
Defined.

Lemma update_and_stop_keep_identity_witness :
  map identity
    (time_entries
       (snd (TimeEntryViewSet_partial_update Sample.db_ranged 7
               (Sample.only_duration 1200) Sample.acme 1 10 301)))
  = map identity (time_entries Sample.db_ranged).
Proof.
  destruct (update_and_stop_keep_identity Sample.db_ranged 7 Sample.acme
              1 10) as [Hupdate _].
  apply Hupdate.
Defined.
